(** * The change-classification engine of the autonomous development studio

    A shallow embedding of the decision engine found in
    [server/routes.ts] (the [POST /api/analyze-change] handler) together
    with the parts of [shared/schema.ts] and of the in-memory storage it
    reads.  The handler is one inline block in the source; it is cut here
    into the pieces the specification names:

    - [computeDiffStats]  the positional diff loop (routes.ts 312-327);
    - [classify]          the threshold policy and the response object
                          (routes.ts 340-354);
    - [evaluate]          the two composed;
    - [analyzeChange]     the whole handler, storage look-ups included
                          (routes.ts 295-357).

    Numbers are JavaScript numbers holding integers; they are modelled as
    [Z] (no wrap-around exists for them, and the counters stay far below
    2^53).  Strings are [string]; an array is a [list], read with the
    partial look-up [!!], whose [None] stands for [undefined].

    Beyond the engine, the file embeds the in-memory storage the handler
    sits on ([JsMap], [Schema], [Storage]: the nine tables of
    [MemStorage] and every method that writes one, with the session
    counters) and the two validating session handlers ([Routes]), and
    proves how these compose with the analysis. *)

From Stdlib Require Import ZArith String Ascii DecimalString List Lia.
From Stdlib Require QArith_base.
From stdpp Require Import gmap strings list.

#[local] Open Scope string_scope.
#[local] Open Scope Z_scope.

(** ** JavaScript string primitives used by the handler *)

Module Js.

(** [s.split('\n')]: the pieces of [s] between line feeds; the result is
    never empty, [''.split('\n')] being [['']]. *)
Fixpoint split_lf (s : string) : list string :=
  match s with
  | EmptyString => [EmptyString]
  | String c r =>
      if Ascii.eqb c "010"%char then EmptyString :: split_lf r
      else match split_lf r with
           | l :: ls => String c l :: ls
           | [] => [String c EmptyString]
           end
  end.

(** White space and line terminators inside the ASCII range, which is all
    the rationale template can produce: TAB, LF, VT, FF, CR and SP. *)
Definition isWhiteSpace (c : ascii) : bool :=
  match nat_of_ascii c with
  | 9%nat | 10%nat | 11%nat | 12%nat | 13%nat | 32%nat => true
  | _ => false
  end.

Fixpoint trimStart (s : string) : string :=
  match s with
  | EmptyString => EmptyString
  | String c r => if isWhiteSpace c then trimStart r else s
  end.

Fixpoint trimEnd (s : string) : string :=
  match s with
  | EmptyString => EmptyString
  | String c r =>
      match trimEnd r with
      | EmptyString => if isWhiteSpace c then EmptyString else String c EmptyString
      | r' => String c r'
      end
  end.

(** [s.trim()] *)
Definition trim (s : string) : string := trimEnd (trimStart s).

(** [`${n}`] for an integer [n]: its decimal numeral, with a leading
    minus sign when negative. *)
Definition show (n : Z) : string := NilZero.string_of_int (Z.to_int n).

(** [s.startsWith(pat)] and [s.includes(pat)]; the handler does not call
    them, they are how a caller inspects the rationale. *)
Fixpoint startsWith (pat s : string) : bool :=
  match pat, s with
  | EmptyString, _ => true
  | String _ _, EmptyString => false
  | String a p, String c r => Ascii.eqb a c && startsWith p r
  end.

Fixpoint includes (pat s : string) : bool :=
  startsWith pat s ||
  match s with
  | EmptyString => false
  | String _ r => includes pat r
  end.

(** [a.sort(cmp)].  The sort is stable; with a comparator that orders
    the elements consistently its result is the one sorted arrangement
    in which elements the comparator does not separate keep their
    order.  Inserting from the right builds that arrangement: [x] goes
    before the first [y] with [cmp(x, y) <= 0]. *)
Fixpoint insertBy {A : Type} (cmp : A -> A -> Z) (x : A) (sorted : list A) : list A :=
  match sorted with
  | [] => [x]
  | y :: r => if cmp x y <=? 0 then x :: y :: r else y :: insertBy cmp x r
  end.

Definition sort {A : Type} (cmp : A -> A -> Z) (l : list A) : list A :=
  fold_right (insertBy cmp) [] l.

End Js.

(** ** Data model ([shared/schema.ts]) *)

(** [type DecisionType = "update" | "rewrite" | "create" | "delete"] *)
Inductive DecisionType : Set := update | rewrite | create | delete.

#[global] Instance DecisionType_eq_dec : EqDecision DecisionType.
Proof. solve_decision. Defined.

(** The three fields of [SessionConfig] the engine reads. *)
Record SessionConfig : Set := {
  maxIterationsPerUpdate : Z;
  maxLinesForUpdate : Z;
  maxLocationsForUpdate : Z
}.

(** [DEFAULT_SESSION_CONFIG] *)
Definition DEFAULT_SESSION_CONFIG : SessionConfig :=
  {| maxIterationsPerUpdate := 4;
     maxLinesForUpdate := 20;
     maxLocationsForUpdate := 5 |}.

(** The specification's data model asks the three bounds to be integers
    that are not negative; the source has no such check. *)
Definition validThresholds (c : SessionConfig) : Prop :=
  0 <= maxLinesForUpdate c /\
  0 <= maxLocationsForUpdate c /\
  0 <= maxIterationsPerUpdate c.

(** When the specification's taxonomy calls an input invalid: a negative
    threshold or a negative recent-update count. *)
Definition invalidConfiguration (c : SessionConfig) (recentUpdateCount : Z) : Prop :=
  maxLinesForUpdate c < 0 \/ maxLocationsForUpdate c < 0 \/
  maxIterationsPerUpdate c < 0 \/ recentUpdateCount < 0.

(** The fields of [Session], [Artifact] and [Decision] the handler reads.
    A [Date] is its [getTime()], milliseconds since the epoch. *)
Record Session : Set := {
  session_id : string;
  config : SessionConfig
}.

Record Artifact : Set := {
  artifact_sessionId : string;
  content : string
}.

Record Decision : Set := {
  decision_sessionId : string;
  decision_artifactId : string;
  decision_type : DecisionType;
  timestamp : Z
}.

(** The two counters of the diff loop, which are also the result of the
    specification's [computeDiffStats]. *)
Record DiffStats : Set := {
  linesChanged : Z;
  locationsChanged : Z
}.

(** The [recommendation] object the handler answers with; its
    [linesChanged] and [locationsChanged] fields are kept in [stats]. *)
Record Recommendation : Set := {
  decisionType : DecisionType;
  stats : DiffStats;
  currentIterations : Z;
  maxIterations : Z;
  reasoning : string
}.

(** ** The diff loop (routes.ts 312-327) *)

(** [oldLines[i] !== newLines[i]]: strict inequality of two values that
    are each a string or [undefined]. *)
Definition differsAt (oldLines newLines : list string) (i : nat) : bool :=
  bool_decide (oldLines !! i ≠ newLines !! i).

(** One turn of the [for] body on the loop variables
    [(linesChanged, locationsChanged, inChangeBlock)]. *)
Definition diffStep (oldLines newLines : list string)
    (st : DiffStats * bool) (i : nat) : DiffStats * bool :=
  let '(s, inChangeBlock) := st in
  if differsAt oldLines newLines i then
    ({| linesChanged := linesChanged s + 1;
        locationsChanged :=
          if inChangeBlock then locationsChanged s else locationsChanged s + 1 |},
     true)
  else (s, false).

Definition diffInit : DiffStats * bool :=
  ({| linesChanged := 0; locationsChanged := 0 |}, false).

Definition computeDiffStats (oldLines newLines : list string) : DiffStats :=
  let maxLength := Nat.max (length oldLines) (length newLines) in
  fst (foldl (diffStep oldLines newLines) diffInit (seq 0 maxLength)).

(** ** The policy and the response (routes.ts 340-354) *)

Definition shouldUpdate (s : DiffStats) (c : SessionConfig)
    (recentUpdateCount : Z) : bool :=
  (linesChanged s <=? maxLinesForUpdate c) &&
  (locationsChanged s <=? maxLocationsForUpdate c) &&
  (recentUpdateCount <? maxIterationsPerUpdate c).

Definition updateReasoning (s : DiffStats) (c : SessionConfig)
    (recentUpdateCount : Z) : string :=
  "Change is small enough (" +:+ Js.show (linesChanged s) +:+ " lines, "
    +:+ Js.show (locationsChanged s) +:+ " locations) for an update. Iteration "
    +:+ Js.show (recentUpdateCount + 1) +:+ "/"
    +:+ Js.show (maxIterationsPerUpdate c) +:+ ".".

Definition linesClause (s : DiffStats) (c : SessionConfig) : string :=
  if linesChanged s >? maxLinesForUpdate c
  then Js.show (linesChanged s) +:+ " lines exceeds "
         +:+ Js.show (maxLinesForUpdate c) +:+ " limit"
  else EmptyString.

Definition locationsClause (s : DiffStats) (c : SessionConfig) : string :=
  if locationsChanged s >? maxLocationsForUpdate c
  then Js.show (locationsChanged s) +:+ " locations exceeds "
         +:+ Js.show (maxLocationsForUpdate c) +:+ " limit"
  else EmptyString.

Definition iterationsClause (c : SessionConfig) (recentUpdateCount : Z) : string :=
  if recentUpdateCount >=? maxIterationsPerUpdate c
  then "Max iterations reached"
  else EmptyString.

(** The template literal
    [`Change requires rewrite: ${lines} ${locations} ${iterations}`]. *)
Definition rewriteTemplate (lines locations iterations : string) : string :=
  "Change requires rewrite: " +:+ lines +:+ " " +:+ locations +:+ " " +:+ iterations.

Definition rewriteReasoning (s : DiffStats) (c : SessionConfig)
    (recentUpdateCount : Z) : string :=
  Js.trim (rewriteTemplate (linesClause s c) (locationsClause s c)
             (iterationsClause c recentUpdateCount)).

Definition classify (s : DiffStats) (c : SessionConfig)
    (recentUpdateCount : Z) : Recommendation :=
  {| decisionType := if shouldUpdate s c recentUpdateCount then update else rewrite;
     stats := s;
     currentIterations := recentUpdateCount;
     maxIterations := maxIterationsPerUpdate c;
     reasoning :=
       if shouldUpdate s c recentUpdateCount
       then updateReasoning s c recentUpdateCount
       else rewriteReasoning s c recentUpdateCount |}.

(** The engine as the specification exposes it. *)
Definition evaluate (before after : list string) (thresholds : SessionConfig)
    (recentUpdateCount : Z) : Recommendation :=
  classify (computeDiffStats before after) thresholds recentUpdateCount.

(** ** The handler and the storage it reads (routes.ts 295-357) *)

(** [MemStorage]: the [sessions] and [artifacts] maps, and the values of
    the [decisions] map in insertion order. *)
Record MemStorage : Type := {
  sessions : gmap string Session;
  artifacts : gmap string Artifact;
  decisions : list Decision
}.

Definition getArtifact (st : MemStorage) (id : string) : option Artifact :=
  artifacts st !! id.

Definition getSession (st : MemStorage) (id : string) : option Session :=
  sessions st !! id.

(** The comparator [(a, b) => b.timestamp - a.timestamp] puts the newest
    decision first. *)
Definition getDecisions (st : MemStorage) (sessionId : string) : list Decision :=
  Js.sort (fun a b => timestamp b - timestamp a)
    (List.filter (fun d => String.eqb (decision_sessionId d) sessionId) (decisions st)).

(** The predicate of [recentDecisions.filter], [now] being [Date.now()]. *)
Definition isRecentUpdate (artifactId : string) (now : Z) (d : Decision) : bool :=
  String.eqb (decision_artifactId d) artifactId &&
  bool_decide (decision_type d = update) &&
  (now - timestamp d <? 3600000).

Inductive Response : Set :=
| Status404 (message : string)
| Status200 (body : Recommendation).

Definition analyzeChange (st : MemStorage) (now : Z)
    (artifactId newContent : string) : Response :=
  match getArtifact st artifactId with
  | None => Status404 "Artifact not found"
  | Some artifact =>
      match getSession st (artifact_sessionId artifact) with
      | None => Status404 "Session not found"
      | Some session =>
          let oldLines := Js.split_lf (content artifact) in
          let newLines := Js.split_lf newContent in
          let s := computeDiffStats oldLines newLines in
          let recentDecisions := getDecisions st (session_id session) in
          let recentUpdates :=
            List.filter (isRecentUpdate artifactId now) recentDecisions in
          Status200 (classify s (config session) (Z.of_nat (length recentUpdates)))
      end
  end.

(** ** The loop's counters in closed form *)

(** Whether the index before [i] is a differing one; there is none before
    index [0]. *)
Definition prevDiffers (oldLines newLines : list string) (i : nat) : bool :=
  match i with
  | O => false
  | S j => differsAt oldLines newLines j
  end.

(** Index [i] begins a maximal run of differing indices. *)
Definition startsRun (oldLines newLines : list string) (i : nat) : bool :=
  differsAt oldLines newLines i && negb (prevDiffers oldLines newLines i).

Definition countIf (p : nat -> bool) (l : list nat) : Z :=
  Z.of_nat (length (List.filter p l)).

(** The loop's [linesChanged] in closed form: how many indices the
    code's comparison [differsAt] holds at. *)
Definition differingCount (before after : list string) : Z :=
  countIf (differsAt before after)
    (seq 0 (Nat.max (length before) (length after))).

(** The loop's [locationsChanged] in closed form: how many indices
    [startsRun] holds at. *)
Definition runStartCount (before after : list string) : Z :=
  countIf (startsRun before after)
    (seq 0 (Nat.max (length before) (length after))).

(** ** The diff statistics in the specification's words

    Nothing below uses the code's comparison or its loop. *)

(** [before[i]] and [after[i]] differ: two lines differ when they are not
    the same string, character for character; a side that has no line at
    [i] counts as unequal. *)
Definition specDiffer (before after : list string) (i : nat) : bool :=
  match nth_error before i, nth_error after i with
  | Some x, Some y => negb (String.eqb x y)
  | _, _ => true
  end.

(** [n = max(len(before), len(after))] *)
Definition specLength (before after : list string) : nat :=
  Nat.max (length before) (length after).

(** The number of indices in [0 .. n-1] at which the sequences differ. *)
Definition specLinesChanged (before after : list string) : Z :=
  Z.of_nat (length (List.filter (specDiffer before after)
                      (seq 0 (specLength before after)))).

(** [a .. b] is a maximal contiguous run of differing indices: every
    index from [a] to [b] differs, [b <= n-1], and the run can be
    extended on neither side ([a = 0] or index [a-1] does not differ;
    [b = n-1] or index [b+1] does not differ). *)
Definition maximalRun (d : nat -> bool) (n a b : nat) : bool :=
  (a <=? b)%nat && (b <? n)%nat &&
  forallb d (seq a (S b - a)) &&
  match a with
  | O => true
  | S a' => negb (d a')
  end &&
  ((S b =? n)%nat || negb (d (S b))).

(** The number of maximal contiguous runs of differing indices. *)
Definition specLocationsChanged (before after : list string) : Z :=
  let n := specLength before after in
  Z.of_nat (length (List.filter
                      (fun ab => maximalRun (specDiffer before after) n (fst ab) (snd ab))
                      (list_prod (seq 0 n) (seq 0 n)))).

(** A differing index that is not immediately preceded by a differing
    index; the number of such indices. *)
Definition beginsRun (d : nat -> bool) (i : nat) : bool :=
  d i &&
  match i with
  | O => true
  | S j => negb (d j)
  end.

Definition specRunStarts (before after : list string) : Z :=
  Z.of_nat (length (List.filter (beginsRun (specDiffer before after))
                      (seq 0 (specLength before after)))).

(** ** How a caller reads the rationale of a [rewrite] *)

Definition mentionsLines (r : string) : bool := Js.includes "lines exceeds" r.
Definition mentionsLocations (r : string) : bool := Js.includes "locations exceeds" r.
Definition mentionsIterations (r : string) : bool := Js.includes "Max iterations reached" r.

(** ** Auxiliary predicates on strings *)

(** The characters a decimal numeral is written with. *)
Definition isNumeral (c : ascii) : bool :=
  match nat_of_ascii c with
  | 45%nat => true
  | n => (48 <=? n)%nat && (n <=? 57)%nat
  end.

Fixpoint allNumeral (s : string) : bool :=
  match s with
  | EmptyString => true
  | String c r => isNumeral c && allNumeral r
  end.

Definition headIs (b : ascii) (s : string) : bool :=
  match s with
  | EmptyString => false
  | String c _ => Ascii.eqb c b
  end.

(** The character [a] occurs in [s] with [b] right after it. *)
Fixpoint hasBigram (a b : ascii) (s : string) : bool :=
  match s with
  | EmptyString => false
  | String c r => (Ascii.eqb c a && headIs b r) || hasBigram a b r
  end.

(** ** Concrete configurations and stores *)

Definition thresholds_20_5_4 : SessionConfig := DEFAULT_SESSION_CONFIG.

(** The configuration of the specification's negative-input scenario. *)
Definition negativeIterations : SessionConfig :=
  {| maxIterationsPerUpdate := -1;
     maxLinesForUpdate := 20;
     maxLocationsForUpdate := 5 |}.

Definition lf : string := String "010"%char EmptyString.

Definition decisionAt (artifactId : string) (ty : DecisionType) (t : Z) : Decision :=
  {| decision_sessionId := "s1";
     decision_artifactId := artifactId;
     decision_type := ty;
     timestamp := t |}.

(** One session holding one three-line artifact, with a given
    configuration and decision log. *)
Definition storeWith (c : SessionConfig) (log : list Decision) : MemStorage :=
  {| sessions := {[ "s1" := {| session_id := "s1"; config := c |} ]};
     artifacts := {[ "a1" := {| artifact_sessionId := "s1";
                                content := "a" +:+ lf +:+ "b" +:+ lf +:+ "c" |} ]};
     decisions := log |}.

Definition storeNegative : MemStorage := storeWith negativeIterations [].

Definition thirtyTwoLines : list string :=
  map (fun i => "line " +:+ Js.show (Z.of_nat i)) (seq 0 32).

(** ** An insertion-ordered map: JavaScript's [Map] with string keys

    [MemStorage] keeps every table in a [Map].  A [Map] iterates in
    insertion order, and [set] on a key that is present keeps the key's
    place; the listing methods of the storage sort [values()] with a
    stable sort, so the order is observable. *)

Module JsMap.

Definition t (V : Type) : Type := list (string * V).

Definition empty {V : Type} : t V := [].

(** [m.get(k)] *)
Fixpoint get {V : Type} (m : t V) (k : string) : option V :=
  match m with
  | [] => None
  | (k', v) :: r => if String.eqb k' k then Some v else get r k
  end.

(** [m.has(k)] *)
Definition has {V : Type} (m : t V) (k : string) : bool :=
  match get m k with
  | Some _ => true
  | None => false
  end.

(** [m.set(k, v)] *)
Fixpoint set {V : Type} (m : t V) (k : string) (v : V) : t V :=
  match m with
  | [] => [(k, v)]
  | (k', v') :: r =>
      if String.eqb k' k then (k', v) :: r else (k', v') :: set r k v
  end.

(** [m.delete(k)], the map it leaves; its boolean result is [has m k]. *)
Definition delete {V : Type} (m : t V) (k : string) : t V :=
  List.filter (fun e => negb (String.eqb (fst e) k)) m.

(** [Array.from(m.values())] *)
Definition values {V : Type} (m : t V) : list V := map snd m.

Definition keys {V : Type} (m : t V) : list string := map fst m.

End JsMap.

(** ** The full records of [shared/schema.ts] *)

Module Schema.

(** [type AgentMode = "deliberation" | "action" | "research"] *)
Inductive AgentMode : Set := deliberation | action | research.

(** [type SessionStatus = "active" | "paused" | "completed" | "error"] *)
Inductive SessionStatus : Set := active | paused | completed | error.

Inductive ArtifactType : Set :=
| react_component | html | typescript | javascript | css | json | markdown.

Inductive Role : Set := user | assistant | system.

Record SessionMetrics : Set := {
  linesGenerated : Z;
  artifactsCreated : Z;
  updatesPerformed : Z;
  rewritesPerformed : Z;
  toolCallsMade : Z;
  errorsRecovered : Z;
  iterationCount : Z
}.

Record SessionConfig : Set := {
  maxIterationsPerUpdate : Z;
  maxLinesForUpdate : Z;
  maxLocationsForUpdate : Z;
  charThresholdForArtifact : Z;
  lineThresholdForArtifact : Z;
  blockLocalStorage : bool;
  blockSessionStorage : bool;
  blockHtmlForms : bool;
  preferredStack : list string
}.

Record ConversationMessage : Set := {
  message_id : string;
  message_role : Role;
  message_content : string;
  message_timestamp : Z;
  message_mode : option AgentMode;
  message_artifacts : option (list string);
  message_toolCalls : option (list string)
}.

Record Session : Set := {
  session_id : string;
  session_name : string;
  session_description : string;
  session_status : SessionStatus;
  session_currentMode : AgentMode;
  session_startedAt : Z;
  session_lastActivityAt : Z;
  session_totalDuration : Z;
  session_metrics : SessionMetrics;
  session_config : SessionConfig;
  session_conversationHistory : list ConversationMessage
}.

(** [Partial<Session>]: a field is [None] when the object lacks it. *)
Record SessionUpdates : Set := {
  upd_id : option string;
  upd_name : option string;
  upd_description : option string;
  upd_status : option SessionStatus;
  upd_currentMode : option AgentMode;
  upd_startedAt : option Z;
  upd_lastActivityAt : option Z;
  upd_totalDuration : option Z;
  upd_metrics : option SessionMetrics;
  upd_config : option SessionConfig;
  upd_conversationHistory : option (list ConversationMessage)
}.

Record ArtifactVersion : Set := {
  version_version : Z;
  version_content : string;
  version_lineCount : Z;
  version_charCount : Z;
  version_decisionType : DecisionType;
  version_decisionId : string;
  version_timestamp : Z
}.

Record Artifact : Set := {
  artifact_id : string;
  artifact_sessionId : string;
  artifact_name : string;
  artifact_type : ArtifactType;
  artifact_path : string;
  artifact_content : string;
  artifact_version : Z;
  artifact_lineCount : Z;
  artifact_charCount : Z;
  artifact_dependencies : list string;
  artifact_isPromoted : bool;
  artifact_createdAt : Z;
  artifact_updatedAt : Z;
  artifact_history : list ArtifactVersion
}.

Record Decision : Set := {
  decision_id : string;
  decision_sessionId : string;
  decision_artifactId : string;
  decision_type : DecisionType;
  decision_reasoning : string;
  decision_linesChanged : Z;
  decision_locationsChanged : Z;
  decision_diffSummary : string;
  decision_wasAutomatic : bool;
  decision_iterationNumber : Z;
  decision_mode : AgentMode;
  decision_timestamp : Z
}.

Record ErrorContext : Set := {
  ctx_id : string;
  ctx_sessionId : string;
  ctx_error : string;
  ctx_stackTrace : option string;
  ctx_staleContext : list string;
  ctx_cleanedContext : list string;
  ctx_retryCount : Z;
  ctx_resolved : bool;
  ctx_resolution : option string;
  ctx_timestamp : Z
}.

(** [Partial<ErrorContext>] *)
Record ErrorContextUpdates : Set := {
  cupd_id : option string;
  cupd_sessionId : option string;
  cupd_error : option string;
  cupd_stackTrace : option string;
  cupd_staleContext : option (list string);
  cupd_cleanedContext : option (list string);
  cupd_retryCount : option Z;
  cupd_resolved : option bool;
  cupd_resolution : option string;
  cupd_timestamp : option Z
}.

(** A value of type [unknown]: the tool-call parameters and results are
    JSON values that the storage copies and never inspects. *)
#[local] Unset Elimination Schemes.
Inductive Json : Set :=
| JNull
| JBool (b : bool)
| JNumber (n : Z)
| JString (s : string)
| JArray (items : list Json)
| JObject (fields : list (string * Json)).
#[local] Set Elimination Schemes.

(** [type ToolCallStatus = "pending" | "executing" | "completed" | "failed"] *)
Inductive ToolCallStatus : Set :=
| tool_pending | tool_executing | tool_completed | tool_failed.

Record ToolCall : Set := {
  tool_id : string;
  tool_sessionId : string;
  tool_name : string;
  tool_description : string;
  tool_parameters : list (string * Json);
  tool_result : option Json;
  tool_status : ToolCallStatus;
  tool_duration : option Z;
  tool_mode : AgentMode;
  tool_pipelineStep : option Z;
  tool_timestamp : Z
}.

(** [Partial<ToolCall>] *)
Record ToolCallUpdates : Set := {
  tupd_id : option string;
  tupd_sessionId : option string;
  tupd_name : option string;
  tupd_description : option string;
  tupd_parameters : option (list (string * Json));
  tupd_result : option Json;
  tupd_status : option ToolCallStatus;
  tupd_duration : option Z;
  tupd_mode : option AgentMode;
  tupd_pipelineStep : option Z;
  tupd_timestamp : option Z
}.

(** The output of [insertToolCallSchema]. *)
Record InsertToolCall : Set := {
  inst_sessionId : string;
  inst_name : string;
  inst_description : string;
  inst_parameters : list (string * Json)
}.

(** A row of the [users] table and the output of [insertUserSchema]. *)
Record User : Set := {
  user_id : string;
  user_username : string;
  user_password : string
}.

Record InsertUser : Set := {
  insu_username : string;
  insu_password : string
}.

(** [relevance] is a number between 0 and 1, which the storage copies
    and never inspects; a fraction here. *)
Record ResearchFinding : Set := {
  finding_id : string;
  finding_source : string;
  finding_content : string;
  finding_relevance : QArith_base.Q;
  finding_toolCallId : string
}.

(** ["planning" | "researching" | "constructing" | "completed"] *)
Inductive PipelineStatus : Set :=
| pipeline_planning | pipeline_researching | pipeline_constructing | pipeline_completed.

Record ResearchPipeline : Set := {
  pipeline_id : string;
  pipeline_sessionId : string;
  pipeline_query : string;
  pipeline_status : PipelineStatus;
  pipeline_plannedSteps : list string;
  pipeline_completedSteps : list ToolCall;
  pipeline_findings : list ResearchFinding;
  pipeline_conclusion : string;
  pipeline_startedAt : Z;
  pipeline_completedAt : option Z
}.

(** [Partial<ResearchPipeline>] *)
Record ResearchPipelineUpdates : Set := {
  pupd_id : option string;
  pupd_sessionId : option string;
  pupd_query : option string;
  pupd_status : option PipelineStatus;
  pupd_plannedSteps : option (list string);
  pupd_completedSteps : option (list ToolCall);
  pupd_findings : option (list ResearchFinding);
  pupd_conclusion : option string;
  pupd_startedAt : option Z;
  pupd_completedAt : option Z
}.

(** ["proposing" | "executing" | "learning" | "complete"] *)
Inductive LoopState : Set :=
| loop_proposing | loop_executing | loop_learning | loop_complete.

Record ExecutionResult : Set := {
  result_success : bool;
  result_output : option string;
  result_error : option string
}.

Record PlanningLoop : Set := {
  loop_id : string;
  loop_sessionId : string;
  loop_state : LoopState;
  loop_currentState : list (string * Json);
  loop_proposedCode : string;
  loop_executionResult : option ExecutionResult;
  loop_lessonsLearned : list string;
  loop_nextActions : list string;
  loop_timestamp : Z
}.

(** [Partial<PlanningLoop>] *)
Record PlanningLoopUpdates : Set := {
  lupd_id : option string;
  lupd_sessionId : option string;
  lupd_state : option LoopState;
  lupd_currentState : option (list (string * Json));
  lupd_proposedCode : option string;
  lupd_executionResult : option ExecutionResult;
  lupd_lessonsLearned : option (list string);
  lupd_nextActions : option (list string);
  lupd_timestamp : option Z
}.

(** ["frontend" | "backend" | "database" | "styling" | "testing"] *)
Inductive Category : Set :=
| frontend | backend | database | styling | testing.

(** ["excellent" | "good" | "fair" | "poor"] *)
Inductive DocumentationQuality : Set :=
| excellent | good | fair | poor.

Record FrameworkRecommendation : Set := {
  rec_id : string;
  rec_sessionId : string;
  rec_category : Category;
  rec_recommended : string;
  rec_alternatives : list string;
  rec_reasoning : string;
  rec_withinKnowledgeHorizon : bool;
  rec_documentationQuality : DocumentationQuality
}.

(** The outputs of [insertSessionSchema], [insertArtifactSchema] and
    [updateArtifactSchema]. *)
Record InsertSession : Set := {
  ins_name : string;
  ins_description : string
}.

Record InsertArtifact : Set := {
  insa_sessionId : string;
  insa_name : string;
  insa_type : ArtifactType;
  insa_path : string;
  insa_content : string
}.

Record UpdateArtifact : Set := {
  upda_content : string;
  upda_decisionType : DecisionType
}.

Definition DEFAULT_SESSION_CONFIG : SessionConfig :=
  {| maxIterationsPerUpdate := 4;
     maxLinesForUpdate := 20;
     maxLocationsForUpdate := 5;
     charThresholdForArtifact := 1500;
     lineThresholdForArtifact := 20;
     blockLocalStorage := true;
     blockSessionStorage := true;
     blockHtmlForms := true;
     preferredStack := ["react"; "typescript"; "express"; "tailwindcss"] |}.

Definition DEFAULT_SESSION_METRICS : SessionMetrics :=
  {| linesGenerated := 0;
     artifactsCreated := 0;
     updatesPerformed := 0;
     rewritesPerformed := 0;
     toolCallsMade := 0;
     errorsRecovered := 0;
     iterationCount := 0 |}.

(** An update object with no field. *)
Definition noUpdates : SessionUpdates :=
  {| upd_id := None; upd_name := None; upd_description := None;
     upd_status := None; upd_currentMode := None; upd_startedAt := None;
     upd_lastActivityAt := None; upd_totalDuration := None;
     upd_metrics := None; upd_config := None;
     upd_conversationHistory := None |}.

(** [{ currentMode: mode }], [{ status }] and [{ metrics }] *)
Definition onlyMode (mode : AgentMode) : SessionUpdates :=
  {| upd_id := None; upd_name := None; upd_description := None;
     upd_status := None; upd_currentMode := Some mode; upd_startedAt := None;
     upd_lastActivityAt := None; upd_totalDuration := None;
     upd_metrics := None; upd_config := None;
     upd_conversationHistory := None |}.

Definition onlyStatus (status : SessionStatus) : SessionUpdates :=
  {| upd_id := None; upd_name := None; upd_description := None;
     upd_status := Some status; upd_currentMode := None; upd_startedAt := None;
     upd_lastActivityAt := None; upd_totalDuration := None;
     upd_metrics := None; upd_config := None;
     upd_conversationHistory := None |}.

Definition onlyMetrics (m : SessionMetrics) : SessionUpdates :=
  {| upd_id := None; upd_name := None; upd_description := None;
     upd_status := None; upd_currentMode := None; upd_startedAt := None;
     upd_lastActivityAt := None; upd_totalDuration := None;
     upd_metrics := Some m; upd_config := None;
     upd_conversationHistory := None |}.

End Schema.

(** The three thresholds the engine reads from a session's configuration. *)
Definition engineConfig (c : Schema.SessionConfig) : SessionConfig :=
  {| maxIterationsPerUpdate := Schema.maxIterationsPerUpdate c;
     maxLinesForUpdate := Schema.maxLinesForUpdate c;
     maxLocationsForUpdate := Schema.maxLocationsForUpdate c |}.

(** ** [MemStorage] in full (the storage module)

    [randomUUID()] and [new Date()] are inputs of the operations that call
    them: [id] is the fresh identifier, [now] the date the operation reads
    itself, and [touched] the date read inside the nested
    [updateSession] call that adjusts the session's metrics. *)

Module Storage.

(** The nine [Map]s of a [MemStorage]. *)
Record t : Type := {
  users : JsMap.t Schema.User;
  sessions : JsMap.t Schema.Session;
  artifacts : JsMap.t Schema.Artifact;
  decisions : JsMap.t Schema.Decision;
  toolCalls : JsMap.t Schema.ToolCall;
  researchPipelines : JsMap.t Schema.ResearchPipeline;
  planningLoops : JsMap.t Schema.PlanningLoop;
  errorContexts : JsMap.t Schema.ErrorContext;
  frameworkRecommendations : JsMap.t Schema.FrameworkRecommendation
}.

(** [new MemStorage()] *)
Definition empty : t :=
  {| users := JsMap.empty; sessions := JsMap.empty; artifacts := JsMap.empty;
     decisions := JsMap.empty; toolCalls := JsMap.empty;
     researchPipelines := JsMap.empty; planningLoops := JsMap.empty;
     errorContexts := JsMap.empty; frameworkRecommendations := JsMap.empty |}.

Definition withUsers (st : t) (m : JsMap.t Schema.User) : t :=
  {| users := m; sessions := sessions st; artifacts := artifacts st;
     decisions := decisions st; toolCalls := toolCalls st;
     researchPipelines := researchPipelines st; planningLoops := planningLoops st;
     errorContexts := errorContexts st;
     frameworkRecommendations := frameworkRecommendations st |}.

Definition withSessions (st : t) (m : JsMap.t Schema.Session) : t :=
  {| users := users st; sessions := m; artifacts := artifacts st;
     decisions := decisions st; toolCalls := toolCalls st;
     researchPipelines := researchPipelines st; planningLoops := planningLoops st;
     errorContexts := errorContexts st;
     frameworkRecommendations := frameworkRecommendations st |}.

Definition withArtifacts (st : t) (m : JsMap.t Schema.Artifact) : t :=
  {| users := users st; sessions := sessions st; artifacts := m;
     decisions := decisions st; toolCalls := toolCalls st;
     researchPipelines := researchPipelines st; planningLoops := planningLoops st;
     errorContexts := errorContexts st;
     frameworkRecommendations := frameworkRecommendations st |}.

Definition withDecisions (st : t) (m : JsMap.t Schema.Decision) : t :=
  {| users := users st; sessions := sessions st; artifacts := artifacts st;
     decisions := m; toolCalls := toolCalls st;
     researchPipelines := researchPipelines st; planningLoops := planningLoops st;
     errorContexts := errorContexts st;
     frameworkRecommendations := frameworkRecommendations st |}.

Definition withToolCalls (st : t) (m : JsMap.t Schema.ToolCall) : t :=
  {| users := users st; sessions := sessions st; artifacts := artifacts st;
     decisions := decisions st; toolCalls := m;
     researchPipelines := researchPipelines st; planningLoops := planningLoops st;
     errorContexts := errorContexts st;
     frameworkRecommendations := frameworkRecommendations st |}.

Definition withResearchPipelines (st : t) (m : JsMap.t Schema.ResearchPipeline) : t :=
  {| users := users st; sessions := sessions st; artifacts := artifacts st;
     decisions := decisions st; toolCalls := toolCalls st;
     researchPipelines := m; planningLoops := planningLoops st;
     errorContexts := errorContexts st;
     frameworkRecommendations := frameworkRecommendations st |}.

Definition withPlanningLoops (st : t) (m : JsMap.t Schema.PlanningLoop) : t :=
  {| users := users st; sessions := sessions st; artifacts := artifacts st;
     decisions := decisions st; toolCalls := toolCalls st;
     researchPipelines := researchPipelines st; planningLoops := m;
     errorContexts := errorContexts st;
     frameworkRecommendations := frameworkRecommendations st |}.

Definition withErrorContexts (st : t) (m : JsMap.t Schema.ErrorContext) : t :=
  {| users := users st; sessions := sessions st; artifacts := artifacts st;
     decisions := decisions st; toolCalls := toolCalls st;
     researchPipelines := researchPipelines st; planningLoops := planningLoops st;
     errorContexts := m;
     frameworkRecommendations := frameworkRecommendations st |}.

Definition withFrameworkRecommendations (st : t)
    (m : JsMap.t Schema.FrameworkRecommendation) : t :=
  {| users := users st; sessions := sessions st; artifacts := artifacts st;
     decisions := decisions st; toolCalls := toolCalls st;
     researchPipelines := researchPipelines st; planningLoops := planningLoops st;
     errorContexts := errorContexts st;
     frameworkRecommendations := m |}.

(** *** Users *)

Definition getUser (st : t) (id : string) : option Schema.User :=
  JsMap.get (users st) id.

(** [Array.from(this.users.values()).find(user => user.username === username)] *)
Definition getUserByUsername (st : t) (username : string) : option Schema.User :=
  List.find (fun user => String.eqb (Schema.user_username user) username)
    (JsMap.values (users st)).

Definition createUser (st : t) (id : string) (insertUser : Schema.InsertUser)
    : t * Schema.User :=
  let user :=
    {| Schema.user_id := id;
       Schema.user_username := Schema.insu_username insertUser;
       Schema.user_password := Schema.insu_password insertUser |} in
  (withUsers st (JsMap.set (users st) id user), user).

(** *** Sessions *)

(** [(a, b) => b.lastActivityAt.getTime() - a.lastActivityAt.getTime()] *)
Definition getSessions (st : t) : list Schema.Session :=
  Js.sort (fun a b => Schema.session_lastActivityAt b - Schema.session_lastActivityAt a)
    (JsMap.values (sessions st)).

Definition getSession (st : t) (id : string) : option Schema.Session :=
  JsMap.get (sessions st) id.

Definition createSession (st : t) (id : string) (now : Z)
    (insertSession : Schema.InsertSession) : t * Schema.Session :=
  let session :=
    {| Schema.session_id := id;
       Schema.session_name := Schema.ins_name insertSession;
       Schema.session_description :=
         match Schema.ins_description insertSession with
         | EmptyString => EmptyString
         | d => d
         end;
       Schema.session_status := Schema.active;
       Schema.session_currentMode := Schema.deliberation;
       Schema.session_startedAt := now;
       Schema.session_lastActivityAt := now;
       Schema.session_totalDuration := 0;
       Schema.session_metrics := Schema.DEFAULT_SESSION_METRICS;
       Schema.session_config := Schema.DEFAULT_SESSION_CONFIG;
       Schema.session_conversationHistory := [] |} in
  (withSessions st (JsMap.set (sessions st) id session), session).

(** [{ ...session, ...updates, lastActivityAt: new Date() }] *)
Definition mergeSession (session : Schema.Session) (updates : Schema.SessionUpdates)
    (now : Z) : Schema.Session :=
  {| Schema.session_id := default (Schema.session_id session) (Schema.upd_id updates);
     Schema.session_name := default (Schema.session_name session) (Schema.upd_name updates);
     Schema.session_description :=
       default (Schema.session_description session) (Schema.upd_description updates);
     Schema.session_status := default (Schema.session_status session) (Schema.upd_status updates);
     Schema.session_currentMode :=
       default (Schema.session_currentMode session) (Schema.upd_currentMode updates);
     Schema.session_startedAt :=
       default (Schema.session_startedAt session) (Schema.upd_startedAt updates);
     Schema.session_lastActivityAt := now;
     Schema.session_totalDuration :=
       default (Schema.session_totalDuration session) (Schema.upd_totalDuration updates);
     Schema.session_metrics := default (Schema.session_metrics session) (Schema.upd_metrics updates);
     Schema.session_config := default (Schema.session_config session) (Schema.upd_config updates);
     Schema.session_conversationHistory :=
       default (Schema.session_conversationHistory session)
         (Schema.upd_conversationHistory updates) |}.

Definition updateSession (st : t) (id : string) (updates : Schema.SessionUpdates)
    (now : Z) : t * option Schema.Session :=
  match JsMap.get (sessions st) id with
  | None => (st, None)
  | Some session =>
      let updated := mergeSession session updates now in
      (withSessions st (JsMap.set (sessions st) id updated), Some updated)
  end.

Definition deleteSession (st : t) (id : string) : t * bool :=
  (withSessions st (JsMap.delete (sessions st) id), JsMap.has (sessions st) id).

Definition updateSessionMode (st : t) (id : string) (mode : Schema.AgentMode)
    (now : Z) : t * option Schema.Session :=
  updateSession st id (Schema.onlyMode mode) now.

Definition updateSessionStatus (st : t) (id : string) (status : Schema.SessionStatus)
    (now : Z) : t * option Schema.Session :=
  updateSession st id (Schema.onlyStatus status) now.

(** The pattern shared by the operations that keep the session's
    counters: [if (session) await this.updateSession(sessionId,
    { metrics: ... })]. *)
Definition adjustMetrics (st : t) (sessionId : string)
    (f : Schema.SessionMetrics -> Schema.SessionMetrics) (touched : Z) : t :=
  match getSession st sessionId with
  | None => st
  | Some session =>
      fst (updateSession st sessionId
             (Schema.onlyMetrics (f (Schema.session_metrics session))) touched)
  end.

(** *** Artifacts *)

(** [content.split('\n').length] and [content.length] *)
Definition lineCountOf (content : string) : Z :=
  Z.of_nat (length (Js.split_lf content)).

Definition charCountOf (content : string) : Z :=
  Z.of_nat (String.length content).

(** [lineCount > 20 || charCount > 1500] *)
Definition promoted (lineCount charCount : Z) : bool :=
  (lineCount >? 20) || (charCount >? 1500).

Definition getArtifacts (st : t) (sessionId : string) : list Schema.Artifact :=
  Js.sort (fun a b => Schema.artifact_updatedAt b - Schema.artifact_updatedAt a)
    (List.filter (fun a => String.eqb (Schema.artifact_sessionId a) sessionId)
       (JsMap.values (artifacts st))).

Definition getArtifact (st : t) (id : string) : option Schema.Artifact :=
  JsMap.get (artifacts st) id.

Definition createArtifact (st : t) (id : string) (now touched : Z)
    (insertArtifact : Schema.InsertArtifact) : t * Schema.Artifact :=
  let lineCount := lineCountOf (Schema.insa_content insertArtifact) in
  let charCount := charCountOf (Schema.insa_content insertArtifact) in
  let artifact :=
    {| Schema.artifact_id := id;
       Schema.artifact_sessionId := Schema.insa_sessionId insertArtifact;
       Schema.artifact_name := Schema.insa_name insertArtifact;
       Schema.artifact_type := Schema.insa_type insertArtifact;
       Schema.artifact_path := Schema.insa_path insertArtifact;
       Schema.artifact_content := Schema.insa_content insertArtifact;
       Schema.artifact_version := 1;
       Schema.artifact_lineCount := lineCount;
       Schema.artifact_charCount := charCount;
       Schema.artifact_dependencies := [];
       Schema.artifact_isPromoted := promoted lineCount charCount;
       Schema.artifact_createdAt := now;
       Schema.artifact_updatedAt := now;
       Schema.artifact_history :=
         [ {| Schema.version_version := 1;
              Schema.version_content := Schema.insa_content insertArtifact;
              Schema.version_lineCount := lineCount;
              Schema.version_charCount := charCount;
              Schema.version_decisionType := create;
              Schema.version_decisionId := EmptyString;
              Schema.version_timestamp := now |} ] |} in
  let st1 := withArtifacts st (JsMap.set (artifacts st) id artifact) in
  (adjustMetrics st1 (Schema.insa_sessionId insertArtifact)
     (fun m =>
        {| Schema.linesGenerated := Schema.linesGenerated m + lineCount;
           Schema.artifactsCreated := Schema.artifactsCreated m + 1;
           Schema.updatesPerformed := Schema.updatesPerformed m;
           Schema.rewritesPerformed := Schema.rewritesPerformed m;
           Schema.toolCallsMade := Schema.toolCallsMade m;
           Schema.errorsRecovered := Schema.errorsRecovered m;
           Schema.iterationCount := Schema.iterationCount m |})
     touched,
   artifact).

Definition updateArtifact (st : t) (id : string) (update_ : Schema.UpdateArtifact)
    (now touched : Z) : t * option Schema.Artifact :=
  match JsMap.get (artifacts st) id with
  | None => (st, None)
  | Some artifact =>
      let lineCount := lineCountOf (Schema.upda_content update_) in
      let charCount := charCountOf (Schema.upda_content update_) in
      let newVersion := Schema.artifact_version artifact + 1 in
      let versionEntry :=
        {| Schema.version_version := newVersion;
           Schema.version_content := Schema.upda_content update_;
           Schema.version_lineCount := lineCount;
           Schema.version_charCount := charCount;
           Schema.version_decisionType := Schema.upda_decisionType update_;
           Schema.version_decisionId := EmptyString;
           Schema.version_timestamp := now |} in
      let updated :=
        {| Schema.artifact_id := Schema.artifact_id artifact;
           Schema.artifact_sessionId := Schema.artifact_sessionId artifact;
           Schema.artifact_name := Schema.artifact_name artifact;
           Schema.artifact_type := Schema.artifact_type artifact;
           Schema.artifact_path := Schema.artifact_path artifact;
           Schema.artifact_content := Schema.upda_content update_;
           Schema.artifact_version := newVersion;
           Schema.artifact_lineCount := lineCount;
           Schema.artifact_charCount := charCount;
           Schema.artifact_dependencies := Schema.artifact_dependencies artifact;
           Schema.artifact_isPromoted := promoted lineCount charCount;
           Schema.artifact_createdAt := Schema.artifact_createdAt artifact;
           Schema.artifact_updatedAt := now;
           Schema.artifact_history := Schema.artifact_history artifact ++ [versionEntry] |} in
      let st1 := withArtifacts st (JsMap.set (artifacts st) id updated) in
      (adjustMetrics st1 (Schema.artifact_sessionId artifact)
         (fun m =>
            {| Schema.linesGenerated :=
                 Schema.linesGenerated m
                 + Z.max 0 (lineCount - Schema.artifact_lineCount artifact);
               Schema.artifactsCreated := Schema.artifactsCreated m;
               Schema.updatesPerformed :=
                 if bool_decide (Schema.upda_decisionType update_ = update)
                 then Schema.updatesPerformed m + 1
                 else Schema.updatesPerformed m;
               Schema.rewritesPerformed :=
                 if bool_decide (Schema.upda_decisionType update_ = update)
                 then Schema.rewritesPerformed m
                 else Schema.rewritesPerformed m + 1;
               Schema.toolCallsMade := Schema.toolCallsMade m;
               Schema.errorsRecovered := Schema.errorsRecovered m;
               Schema.iterationCount := Schema.iterationCount m |})
         touched,
       Some updated)
  end.

Definition deleteArtifact (st : t) (id : string) : t * bool :=
  (withArtifacts st (JsMap.delete (artifacts st) id), JsMap.has (artifacts st) id).

(** [artifact?.history || []] *)
Definition getArtifactVersions (st : t) (id : string) : list Schema.ArtifactVersion :=
  match JsMap.get (artifacts st) id with
  | Some artifact => Schema.artifact_history artifact
  | None => []
  end.

(** *** Decisions *)

Definition getDecisions (st : t) (sessionId : string) : list Schema.Decision :=
  Js.sort (fun a b => Schema.decision_timestamp b - Schema.decision_timestamp a)
    (List.filter (fun d => String.eqb (Schema.decision_sessionId d) sessionId)
       (JsMap.values (decisions st))).

Definition getDecision (st : t) (id : string) : option Schema.Decision :=
  JsMap.get (decisions st) id.

(** [{ ...decision, id }] *)
Definition withDecisionId (d : Schema.Decision) (id : string) : Schema.Decision :=
  {| Schema.decision_id := id;
     Schema.decision_sessionId := Schema.decision_sessionId d;
     Schema.decision_artifactId := Schema.decision_artifactId d;
     Schema.decision_type := Schema.decision_type d;
     Schema.decision_reasoning := Schema.decision_reasoning d;
     Schema.decision_linesChanged := Schema.decision_linesChanged d;
     Schema.decision_locationsChanged := Schema.decision_locationsChanged d;
     Schema.decision_diffSummary := Schema.decision_diffSummary d;
     Schema.decision_wasAutomatic := Schema.decision_wasAutomatic d;
     Schema.decision_iterationNumber := Schema.decision_iterationNumber d;
     Schema.decision_mode := Schema.decision_mode d;
     Schema.decision_timestamp := Schema.decision_timestamp d |}.

Definition createDecision (st : t) (id : string) (decision : Schema.Decision)
    (touched : Z) : t * Schema.Decision :=
  let fullDecision := withDecisionId decision id in
  let st1 := withDecisions st (JsMap.set (decisions st) id fullDecision) in
  (adjustMetrics st1 (Schema.decision_sessionId decision)
     (fun m =>
        {| Schema.linesGenerated := Schema.linesGenerated m;
           Schema.artifactsCreated := Schema.artifactsCreated m;
           Schema.updatesPerformed := Schema.updatesPerformed m;
           Schema.rewritesPerformed := Schema.rewritesPerformed m;
           Schema.toolCallsMade := Schema.toolCallsMade m;
           Schema.errorsRecovered := Schema.errorsRecovered m;
           Schema.iterationCount := Schema.iterationCount m + 1 |})
     touched,
   fullDecision).

(** *** Tool calls *)

Definition getToolCalls (st : t) (sessionId : string) : list Schema.ToolCall :=
  Js.sort (fun a b => Schema.tool_timestamp b - Schema.tool_timestamp a)
    (List.filter (fun c => String.eqb (Schema.tool_sessionId c) sessionId)
       (JsMap.values (toolCalls st))).

Definition getToolCall (st : t) (id : string) : option Schema.ToolCall :=
  JsMap.get (toolCalls st) id.

(** The session is read first; [session?.currentMode || "action"] is the
    session's mode, or [action] without a session. *)
Definition createToolCall (st : t) (id : string) (now touched : Z)
    (insertToolCall : Schema.InsertToolCall) : t * Schema.ToolCall :=
  let session := getSession st (Schema.inst_sessionId insertToolCall) in
  let toolCall :=
    {| Schema.tool_id := id;
       Schema.tool_sessionId := Schema.inst_sessionId insertToolCall;
       Schema.tool_name := Schema.inst_name insertToolCall;
       Schema.tool_description := Schema.inst_description insertToolCall;
       Schema.tool_parameters := Schema.inst_parameters insertToolCall;
       Schema.tool_result := None;
       Schema.tool_status := Schema.tool_pending;
       Schema.tool_duration := None;
       Schema.tool_mode :=
         match session with
         | Some s => Schema.session_currentMode s
         | None => Schema.action
         end;
       Schema.tool_pipelineStep := None;
       Schema.tool_timestamp := now |} in
  let st1 := withToolCalls st (JsMap.set (toolCalls st) id toolCall) in
  (adjustMetrics st1 (Schema.inst_sessionId insertToolCall)
     (fun m =>
        {| Schema.linesGenerated := Schema.linesGenerated m;
           Schema.artifactsCreated := Schema.artifactsCreated m;
           Schema.updatesPerformed := Schema.updatesPerformed m;
           Schema.rewritesPerformed := Schema.rewritesPerformed m;
           Schema.toolCallsMade := Schema.toolCallsMade m + 1;
           Schema.errorsRecovered := Schema.errorsRecovered m;
           Schema.iterationCount := Schema.iterationCount m |})
     touched,
   toolCall).

(** [{ ...toolCall, ...updates }] *)
Definition mergeToolCall (c : Schema.ToolCall) (u : Schema.ToolCallUpdates)
    : Schema.ToolCall :=
  {| Schema.tool_id := default (Schema.tool_id c) (Schema.tupd_id u);
     Schema.tool_sessionId := default (Schema.tool_sessionId c) (Schema.tupd_sessionId u);
     Schema.tool_name := default (Schema.tool_name c) (Schema.tupd_name u);
     Schema.tool_description :=
       default (Schema.tool_description c) (Schema.tupd_description u);
     Schema.tool_parameters :=
       default (Schema.tool_parameters c) (Schema.tupd_parameters u);
     Schema.tool_result :=
       match Schema.tupd_result u with
       | Some r => Some r
       | None => Schema.tool_result c
       end;
     Schema.tool_status := default (Schema.tool_status c) (Schema.tupd_status u);
     Schema.tool_duration :=
       match Schema.tupd_duration u with
       | Some d => Some d
       | None => Schema.tool_duration c
       end;
     Schema.tool_mode := default (Schema.tool_mode c) (Schema.tupd_mode u);
     Schema.tool_pipelineStep :=
       match Schema.tupd_pipelineStep u with
       | Some n => Some n
       | None => Schema.tool_pipelineStep c
       end;
     Schema.tool_timestamp := default (Schema.tool_timestamp c) (Schema.tupd_timestamp u) |}.

Definition updateToolCall (st : t) (id : string) (updates : Schema.ToolCallUpdates)
    : t * option Schema.ToolCall :=
  match JsMap.get (toolCalls st) id with
  | None => (st, None)
  | Some toolCall =>
      let updated := mergeToolCall toolCall updates in
      (withToolCalls st (JsMap.set (toolCalls st) id updated), Some updated)
  end.

(** *** Research pipelines *)

Definition getResearchPipelines (st : t) (sessionId : string)
    : list Schema.ResearchPipeline :=
  Js.sort (fun a b => Schema.pipeline_startedAt b - Schema.pipeline_startedAt a)
    (List.filter (fun r => String.eqb (Schema.pipeline_sessionId r) sessionId)
       (JsMap.values (researchPipelines st))).

Definition getResearchPipeline (st : t) (id : string) : option Schema.ResearchPipeline :=
  JsMap.get (researchPipelines st) id.

Definition withPipelineId (r : Schema.ResearchPipeline) (id : string)
    : Schema.ResearchPipeline :=
  {| Schema.pipeline_id := id;
     Schema.pipeline_sessionId := Schema.pipeline_sessionId r;
     Schema.pipeline_query := Schema.pipeline_query r;
     Schema.pipeline_status := Schema.pipeline_status r;
     Schema.pipeline_plannedSteps := Schema.pipeline_plannedSteps r;
     Schema.pipeline_completedSteps := Schema.pipeline_completedSteps r;
     Schema.pipeline_findings := Schema.pipeline_findings r;
     Schema.pipeline_conclusion := Schema.pipeline_conclusion r;
     Schema.pipeline_startedAt := Schema.pipeline_startedAt r;
     Schema.pipeline_completedAt := Schema.pipeline_completedAt r |}.

Definition createResearchPipeline (st : t) (id : string)
    (pipeline : Schema.ResearchPipeline) : t * Schema.ResearchPipeline :=
  let fullPipeline := withPipelineId pipeline id in
  (withResearchPipelines st (JsMap.set (researchPipelines st) id fullPipeline),
   fullPipeline).

(** [{ ...pipeline, ...updates }] *)
Definition mergePipeline (r : Schema.ResearchPipeline)
    (u : Schema.ResearchPipelineUpdates) : Schema.ResearchPipeline :=
  {| Schema.pipeline_id := default (Schema.pipeline_id r) (Schema.pupd_id u);
     Schema.pipeline_sessionId :=
       default (Schema.pipeline_sessionId r) (Schema.pupd_sessionId u);
     Schema.pipeline_query := default (Schema.pipeline_query r) (Schema.pupd_query u);
     Schema.pipeline_status := default (Schema.pipeline_status r) (Schema.pupd_status u);
     Schema.pipeline_plannedSteps :=
       default (Schema.pipeline_plannedSteps r) (Schema.pupd_plannedSteps u);
     Schema.pipeline_completedSteps :=
       default (Schema.pipeline_completedSteps r) (Schema.pupd_completedSteps u);
     Schema.pipeline_findings :=
       default (Schema.pipeline_findings r) (Schema.pupd_findings u);
     Schema.pipeline_conclusion :=
       default (Schema.pipeline_conclusion r) (Schema.pupd_conclusion u);
     Schema.pipeline_startedAt :=
       default (Schema.pipeline_startedAt r) (Schema.pupd_startedAt u);
     Schema.pipeline_completedAt :=
       match Schema.pupd_completedAt u with
       | Some d => Some d
       | None => Schema.pipeline_completedAt r
       end |}.

Definition updateResearchPipeline (st : t) (id : string)
    (updates : Schema.ResearchPipelineUpdates) : t * option Schema.ResearchPipeline :=
  match JsMap.get (researchPipelines st) id with
  | None => (st, None)
  | Some pipeline =>
      let updated := mergePipeline pipeline updates in
      (withResearchPipelines st (JsMap.set (researchPipelines st) id updated),
       Some updated)
  end.

(** *** Planning loops *)

Definition getPlanningLoops (st : t) (sessionId : string) : list Schema.PlanningLoop :=
  Js.sort (fun a b => Schema.loop_timestamp b - Schema.loop_timestamp a)
    (List.filter (fun p => String.eqb (Schema.loop_sessionId p) sessionId)
       (JsMap.values (planningLoops st))).

Definition getPlanningLoop (st : t) (id : string) : option Schema.PlanningLoop :=
  JsMap.get (planningLoops st) id.

Definition withLoopId (l : Schema.PlanningLoop) (id : string) : Schema.PlanningLoop :=
  {| Schema.loop_id := id;
     Schema.loop_sessionId := Schema.loop_sessionId l;
     Schema.loop_state := Schema.loop_state l;
     Schema.loop_currentState := Schema.loop_currentState l;
     Schema.loop_proposedCode := Schema.loop_proposedCode l;
     Schema.loop_executionResult := Schema.loop_executionResult l;
     Schema.loop_lessonsLearned := Schema.loop_lessonsLearned l;
     Schema.loop_nextActions := Schema.loop_nextActions l;
     Schema.loop_timestamp := Schema.loop_timestamp l |}.

Definition createPlanningLoop (st : t) (id : string) (loop : Schema.PlanningLoop)
    : t * Schema.PlanningLoop :=
  let fullLoop := withLoopId loop id in
  (withPlanningLoops st (JsMap.set (planningLoops st) id fullLoop), fullLoop).

(** [{ ...loop, ...updates }] *)
Definition mergeLoop (l : Schema.PlanningLoop) (u : Schema.PlanningLoopUpdates)
    : Schema.PlanningLoop :=
  {| Schema.loop_id := default (Schema.loop_id l) (Schema.lupd_id u);
     Schema.loop_sessionId := default (Schema.loop_sessionId l) (Schema.lupd_sessionId u);
     Schema.loop_state := default (Schema.loop_state l) (Schema.lupd_state u);
     Schema.loop_currentState :=
       default (Schema.loop_currentState l) (Schema.lupd_currentState u);
     Schema.loop_proposedCode :=
       default (Schema.loop_proposedCode l) (Schema.lupd_proposedCode u);
     Schema.loop_executionResult :=
       match Schema.lupd_executionResult u with
       | Some r => Some r
       | None => Schema.loop_executionResult l
       end;
     Schema.loop_lessonsLearned :=
       default (Schema.loop_lessonsLearned l) (Schema.lupd_lessonsLearned u);
     Schema.loop_nextActions :=
       default (Schema.loop_nextActions l) (Schema.lupd_nextActions u);
     Schema.loop_timestamp := default (Schema.loop_timestamp l) (Schema.lupd_timestamp u) |}.

Definition updatePlanningLoop (st : t) (id : string)
    (updates : Schema.PlanningLoopUpdates) : t * option Schema.PlanningLoop :=
  match JsMap.get (planningLoops st) id with
  | None => (st, None)
  | Some loop =>
      let updated := mergeLoop loop updates in
      (withPlanningLoops st (JsMap.set (planningLoops st) id updated), Some updated)
  end.

(** *** Error contexts *)

Definition withContextId (c : Schema.ErrorContext) (id : string) : Schema.ErrorContext :=
  {| Schema.ctx_id := id;
     Schema.ctx_sessionId := Schema.ctx_sessionId c;
     Schema.ctx_error := Schema.ctx_error c;
     Schema.ctx_stackTrace := Schema.ctx_stackTrace c;
     Schema.ctx_staleContext := Schema.ctx_staleContext c;
     Schema.ctx_cleanedContext := Schema.ctx_cleanedContext c;
     Schema.ctx_retryCount := Schema.ctx_retryCount c;
     Schema.ctx_resolved := Schema.ctx_resolved c;
     Schema.ctx_resolution := Schema.ctx_resolution c;
     Schema.ctx_timestamp := Schema.ctx_timestamp c |}.

Definition createErrorContext (st : t) (id : string) (context : Schema.ErrorContext)
    : t * Schema.ErrorContext :=
  let fullContext := withContextId context id in
  (withErrorContexts st (JsMap.set (errorContexts st) id fullContext), fullContext).

(** [{ ...context, ...updates }]; an optional field of the context that
    the update object has replaces it. *)
Definition mergeContext (c : Schema.ErrorContext) (u : Schema.ErrorContextUpdates)
    : Schema.ErrorContext :=
  {| Schema.ctx_id := default (Schema.ctx_id c) (Schema.cupd_id u);
     Schema.ctx_sessionId := default (Schema.ctx_sessionId c) (Schema.cupd_sessionId u);
     Schema.ctx_error := default (Schema.ctx_error c) (Schema.cupd_error u);
     Schema.ctx_stackTrace :=
       match Schema.cupd_stackTrace u with
       | Some s => Some s
       | None => Schema.ctx_stackTrace c
       end;
     Schema.ctx_staleContext :=
       default (Schema.ctx_staleContext c) (Schema.cupd_staleContext u);
     Schema.ctx_cleanedContext :=
       default (Schema.ctx_cleanedContext c) (Schema.cupd_cleanedContext u);
     Schema.ctx_retryCount := default (Schema.ctx_retryCount c) (Schema.cupd_retryCount u);
     Schema.ctx_resolved := default (Schema.ctx_resolved c) (Schema.cupd_resolved u);
     Schema.ctx_resolution :=
       match Schema.cupd_resolution u with
       | Some s => Some s
       | None => Schema.ctx_resolution c
       end;
     Schema.ctx_timestamp := default (Schema.ctx_timestamp c) (Schema.cupd_timestamp u) |}.

(** [updates.resolved && !context.resolved] *)
Definition newlyResolved (c : Schema.ErrorContext) (u : Schema.ErrorContextUpdates) : bool :=
  default false (Schema.cupd_resolved u) && negb (Schema.ctx_resolved c).

Definition updateErrorContext (st : t) (id : string) (updates : Schema.ErrorContextUpdates)
    (touched : Z) : t * option Schema.ErrorContext :=
  match JsMap.get (errorContexts st) id with
  | None => (st, None)
  | Some context =>
      let updated := mergeContext context updates in
      let st1 := withErrorContexts st (JsMap.set (errorContexts st) id updated) in
      (if newlyResolved context updates
       then adjustMetrics st1 (Schema.ctx_sessionId context)
              (fun m =>
                 {| Schema.linesGenerated := Schema.linesGenerated m;
                    Schema.artifactsCreated := Schema.artifactsCreated m;
                    Schema.updatesPerformed := Schema.updatesPerformed m;
                    Schema.rewritesPerformed := Schema.rewritesPerformed m;
                    Schema.toolCallsMade := Schema.toolCallsMade m;
                    Schema.errorsRecovered := Schema.errorsRecovered m + 1;
                    Schema.iterationCount := Schema.iterationCount m |})
              touched
       else st1,
       Some updated)
  end.

Definition getErrorContexts (st : t) (sessionId : string) : list Schema.ErrorContext :=
  Js.sort (fun a b => Schema.ctx_timestamp b - Schema.ctx_timestamp a)
    (List.filter (fun e => String.eqb (Schema.ctx_sessionId e) sessionId)
       (JsMap.values (errorContexts st))).

(** *** Framework recommendations *)

(** The one listing that is not sorted: the rows in the order of the [Map]. *)
Definition getFrameworkRecommendations (st : t) (sessionId : string)
    : list Schema.FrameworkRecommendation :=
  List.filter (fun f => String.eqb (Schema.rec_sessionId f) sessionId)
    (JsMap.values (frameworkRecommendations st)).

Definition withRecommendationId (r : Schema.FrameworkRecommendation) (id : string)
    : Schema.FrameworkRecommendation :=
  {| Schema.rec_id := id;
     Schema.rec_sessionId := Schema.rec_sessionId r;
     Schema.rec_category := Schema.rec_category r;
     Schema.rec_recommended := Schema.rec_recommended r;
     Schema.rec_alternatives := Schema.rec_alternatives r;
     Schema.rec_reasoning := Schema.rec_reasoning r;
     Schema.rec_withinKnowledgeHorizon := Schema.rec_withinKnowledgeHorizon r;
     Schema.rec_documentationQuality := Schema.rec_documentationQuality r |}.

Definition createFrameworkRecommendation (st : t) (id : string)
    (rec : Schema.FrameworkRecommendation) : t * Schema.FrameworkRecommendation :=
  let fullRec := withRecommendationId rec id in
  (withFrameworkRecommendations st (JsMap.set (frameworkRecommendations st) id fullRec),
   fullRec).

(** *** Sequences of calls

    One constructor for each method of [MemStorage] that writes a table;
    the remaining methods only read. *)

Inductive Op : Type :=
| CreateSession (id : string) (now : Z) (ins : Schema.InsertSession)
| UpdateSession (id : string) (updates : Schema.SessionUpdates) (now : Z)
| DeleteSession (id : string)
| CreateArtifact (id : string) (now touched : Z) (ins : Schema.InsertArtifact)
| UpdateArtifact (id : string) (update_ : Schema.UpdateArtifact) (now touched : Z)
| DeleteArtifact (id : string)
| CreateDecision (id : string) (decision : Schema.Decision) (touched : Z)
| CreateErrorContext (id : string) (context : Schema.ErrorContext)
| UpdateErrorContext (id : string) (updates : Schema.ErrorContextUpdates) (touched : Z)
| UpdateSessionMode (id : string) (mode : Schema.AgentMode) (now : Z)
| UpdateSessionStatus (id : string) (status : Schema.SessionStatus) (now : Z)
| CreateToolCall (id : string) (now touched : Z) (ins : Schema.InsertToolCall)
| UpdateToolCall (id : string) (updates : Schema.ToolCallUpdates)
| CreateUser (id : string) (ins : Schema.InsertUser)
| CreateResearchPipeline (id : string) (pipeline : Schema.ResearchPipeline)
| UpdateResearchPipeline (id : string) (updates : Schema.ResearchPipelineUpdates)
| CreatePlanningLoop (id : string) (loop : Schema.PlanningLoop)
| UpdatePlanningLoop (id : string) (updates : Schema.PlanningLoopUpdates)
| CreateFrameworkRecommendation (id : string) (rec : Schema.FrameworkRecommendation).

(** The store a call leaves behind. *)
Definition exec (st : t) (op : Op) : t :=
  match op with
  | CreateSession id now ins => fst (createSession st id now ins)
  | UpdateSession id u now => fst (updateSession st id u now)
  | DeleteSession id => fst (deleteSession st id)
  | CreateArtifact id now touched ins => fst (createArtifact st id now touched ins)
  | UpdateArtifact id u now touched => fst (updateArtifact st id u now touched)
  | DeleteArtifact id => fst (deleteArtifact st id)
  | CreateDecision id d touched => fst (createDecision st id d touched)
  | CreateErrorContext id c => fst (createErrorContext st id c)
  | UpdateErrorContext id u touched => fst (updateErrorContext st id u touched)
  | UpdateSessionMode id mode now => fst (updateSessionMode st id mode now)
  | UpdateSessionStatus id status now => fst (updateSessionStatus st id status now)
  | CreateToolCall id now touched ins => fst (createToolCall st id now touched ins)
  | UpdateToolCall id u => fst (updateToolCall st id u)
  | CreateUser id ins => fst (createUser st id ins)
  | CreateResearchPipeline id r => fst (createResearchPipeline st id r)
  | UpdateResearchPipeline id u => fst (updateResearchPipeline st id u)
  | CreatePlanningLoop id l => fst (createPlanningLoop st id l)
  | UpdatePlanningLoop id u => fst (updatePlanningLoop st id u)
  | CreateFrameworkRecommendation id r => fst (createFrameworkRecommendation st id r)
  end.

(** The store after a sequence of calls on a new [MemStorage]. *)
Definition run (ops : list Op) : t := foldl exec empty ops.

End Storage.

(** ** Route handlers on the full store ([server/routes.ts]) *)

Module Routes.

(** What [broadcast] is called with by the two handlers below. *)
Inductive Event : Set :=
| SessionModeChanged (sessionId : string) (mode : Schema.AgentMode)
| SessionStatusChanged (sessionId : string) (status : Schema.SessionStatus).

Inductive Reply : Set :=
| Message (status : Z) (message : string)
| SessionJson (status : Z) (body : Schema.Session).

Record Outcome : Type := {
  store : Storage.t;
  reply : Reply;
  broadcasts : list Event
}.

(** [["deliberation", "action", "research"].includes(mode)], with the
    mode the string stands for. *)
Definition parseMode (mode : string) : option Schema.AgentMode :=
  if String.eqb mode "deliberation" then Some Schema.deliberation
  else if String.eqb mode "action" then Some Schema.action
  else if String.eqb mode "research" then Some Schema.research
  else None.

(** [["active", "paused", "completed", "error"].includes(status)] *)
Definition parseStatus (status : string) : option Schema.SessionStatus :=
  if String.eqb status "active" then Some Schema.active
  else if String.eqb status "paused" then Some Schema.paused
  else if String.eqb status "completed" then Some Schema.completed
  else if String.eqb status "error" then Some Schema.error
  else None.

(** [POST /api/sessions/:id/mode] (routes.ts 78-89) *)
Definition postSessionMode (st : Storage.t) (now : Z) (id mode : string) : Outcome :=
  match parseMode mode with
  | None => {| store := st; reply := Message 400 "Invalid mode"; broadcasts := [] |}
  | Some m =>
      match Storage.updateSessionMode st id m now with
      | (st', None) =>
          {| store := st'; reply := Message 404 "Session not found"; broadcasts := [] |}
      | (st', Some session) =>
          {| store := st';
             reply := SessionJson 200 session;
             broadcasts := [SessionModeChanged (Schema.session_id session) m] |}
      end
  end.

(** [POST /api/sessions/:id/status] (routes.ts 91-102) *)
Definition postSessionStatus (st : Storage.t) (now : Z) (id status : string) : Outcome :=
  match parseStatus status with
  | None => {| store := st; reply := Message 400 "Invalid status"; broadcasts := [] |}
  | Some s =>
      match Storage.updateSessionStatus st id s now with
      | (st', None) =>
          {| store := st'; reply := Message 404 "Session not found"; broadcasts := [] |}
      | (st', Some session) =>
          {| store := st';
             reply := SessionJson 200 session;
             broadcasts := [SessionStatusChanged (Schema.session_id session) s] |}
      end
  end.

(** The predicate of [recentDecisions.filter] (routes.ts 334-338). *)
Definition isRecentUpdate (artifactId : string) (now : Z) (d : Schema.Decision) : bool :=
  String.eqb (Schema.decision_artifactId d) artifactId &&
  bool_decide (Schema.decision_type d = update) &&
  (now - Schema.decision_timestamp d <? 3600000).

(** [recentUpdates.length] *)
Definition recentUpdateCount (st : Storage.t) (sessionId artifactId : string)
    (now : Z) : Z :=
  Z.of_nat (length (List.filter (isRecentUpdate artifactId now)
                      (Storage.getDecisions st sessionId))).

(** [POST /api/analyze-change] (routes.ts 295-357) on the full store. *)
Definition analyzeChange (st : Storage.t) (now : Z)
    (artifactId newContent : string) : Response :=
  match Storage.getArtifact st artifactId with
  | None => Status404 "Artifact not found"
  | Some artifact =>
      match Storage.getSession st (Schema.artifact_sessionId artifact) with
      | None => Status404 "Session not found"
      | Some session =>
          let oldLines := Js.split_lf (Schema.artifact_content artifact) in
          let newLines := Js.split_lf newContent in
          Status200
            (classify (computeDiffStats oldLines newLines)
               (engineConfig (Schema.session_config session))
               (recentUpdateCount st (Schema.session_id session) artifactId now))
      end
  end.

End Routes.

(** ** The store as the engine model sees it *)

Definition engineSession (s : Schema.Session) : Session :=
  {| session_id := Schema.session_id s;
     config := engineConfig (Schema.session_config s) |}.

Definition engineArtifact (a : Schema.Artifact) : Artifact :=
  {| artifact_sessionId := Schema.artifact_sessionId a;
     content := Schema.artifact_content a |}.

Definition engineDecision (d : Schema.Decision) : Decision :=
  {| decision_sessionId := Schema.decision_sessionId d;
     decision_artifactId := Schema.decision_artifactId d;
     decision_type := Schema.decision_type d;
     timestamp := Schema.decision_timestamp d |}.

Definition engineTable {V W : Type} (f : V -> W) (m : JsMap.t V) : gmap string W :=
  list_to_map (map (fun e => (fst e, f (snd e))) m).

Definition engineStore (st : Storage.t) : MemStorage :=
  {| sessions := engineTable engineSession (Storage.sessions st);
     artifacts := engineTable engineArtifact (Storage.artifacts st);
     decisions := map engineDecision (JsMap.values (Storage.decisions st)) |}.

(** ** Well-formed artifacts *)

(** The versions [first], [first + 1], ... in this order. *)
Fixpoint versionsFrom (first : Z) (h : list Schema.ArtifactVersion) : Prop :=
  match h with
  | [] => True
  | v :: r => Schema.version_version v = first /\ versionsFrom (first + 1) r
  end.

(** What [createArtifact] sets up for an artifact stored under [key] and
    [updateArtifact] keeps: derived fields agree with the content, the
    version is the length of the history, and the last history entry is
    the current state. *)
Record artifactOk (key : string) (a : Schema.Artifact) : Prop := {
  ok_id : Schema.artifact_id a = key;
  ok_lineCount : Schema.artifact_lineCount a = Storage.lineCountOf (Schema.artifact_content a);
  ok_charCount : Schema.artifact_charCount a = Storage.charCountOf (Schema.artifact_content a);
  ok_promoted :
    Schema.artifact_isPromoted a = true <->
    20 < Schema.artifact_lineCount a \/ 1500 < Schema.artifact_charCount a;
  ok_version : Schema.artifact_version a = Z.of_nat (length (Schema.artifact_history a));
  ok_versions : versionsFrom 1 (Schema.artifact_history a);
  ok_first :
    Schema.version_decisionType <$> head (Schema.artifact_history a) = Some create;
  ok_last :
    exists v, last (Schema.artifact_history a) = Some v /\
      Schema.version_version v = Schema.artifact_version a /\
      Schema.version_content v = Schema.artifact_content a /\
      Schema.version_lineCount v = Schema.artifact_lineCount a /\
      Schema.version_charCount v = Schema.artifact_charCount a /\
      Schema.version_timestamp v = Schema.artifact_updatedAt a
}.

Definition artifactsOk (st : Storage.t) : Prop :=
  forall key a, JsMap.get (Storage.artifacts st) key = Some a -> artifactOk key a.

(** The number of line feeds in a string. *)
Fixpoint countLf (s : string) : nat :=
  match s with
  | EmptyString => O
  | String c r => if Ascii.eqb c "010"%char then S (countLf r) else countLf r
  end.

(** [lines.join('\n')] *)
Fixpoint join_lf (lines : list string) : string :=
  match lines with
  | [] => EmptyString
  | [l] => l
  | l :: r => l +:+ lf +:+ join_lf r
  end.

(** Pointwise order on the seven counters. *)
Definition metricsLe (m m' : Schema.SessionMetrics) : Prop :=
  Schema.linesGenerated m <= Schema.linesGenerated m' /\
  Schema.artifactsCreated m <= Schema.artifactsCreated m' /\
  Schema.updatesPerformed m <= Schema.updatesPerformed m' /\
  Schema.rewritesPerformed m <= Schema.rewritesPerformed m' /\
  Schema.toolCallsMade m <= Schema.toolCallsMade m' /\
  Schema.errorsRecovered m <= Schema.errorsRecovered m' /\
  Schema.iterationCount m <= Schema.iterationCount m'.

(** The calls that can take a session away or replace its counters:
    [createSession] (on an id in use), [updateSession] with any update
    object, and [deleteSession]. *)
Definition isSessionCall (op : Storage.Op) : bool :=
  match op with
  | Storage.CreateSession _ _ _ | Storage.UpdateSession _ _ _
  | Storage.DeleteSession _ => true
  | _ => false
  end.

(** A sample sequence of calls: a session, an artifact of two lines in
    it, and a one-line rewrite of the artifact. *)
Definition sampleInsert : Schema.InsertArtifact :=
  {| Schema.insa_sessionId := "s1";
     Schema.insa_name := "App";
     Schema.insa_type := Schema.typescript;
     Schema.insa_path := "src/App.ts";
     Schema.insa_content := "a" +:+ lf +:+ "b" |}.

Definition sampleUpdate : Schema.UpdateArtifact :=
  {| Schema.upda_content := "a" +:+ lf +:+ "b" +:+ lf +:+ "c";
     Schema.upda_decisionType := rewrite |}.

Definition sampleOps : list Storage.Op :=
  [ Storage.CreateSession "s1" 100
      {| Schema.ins_name := "demo"; Schema.ins_description := EmptyString |};
    Storage.CreateArtifact "a1" 200 201 sampleInsert;
    Storage.UpdateArtifact "a1" sampleUpdate 300 301 ].

Definition sampleStore : Storage.t := Storage.run sampleOps.

(** The session of the sample store as the three calls leave it. *)
Definition sampleSession : Schema.Session :=
  {| Schema.session_id := "s1";
     Schema.session_name := "demo";
     Schema.session_description := EmptyString;
     Schema.session_status := Schema.active;
     Schema.session_currentMode := Schema.deliberation;
     Schema.session_startedAt := 100;
     Schema.session_lastActivityAt := 301;
     Schema.session_totalDuration := 0;
     Schema.session_metrics :=
       {| Schema.linesGenerated := 3;
          Schema.artifactsCreated := 1;
          Schema.updatesPerformed := 0;
          Schema.rewritesPerformed := 1;
          Schema.toolCallsMade := 0;
          Schema.errorsRecovered := 0;
          Schema.iterationCount := 0 |};
     Schema.session_config := Schema.DEFAULT_SESSION_CONFIG;
     Schema.session_conversationHistory := [] |}.

Definition sampleToolCall : Schema.InsertToolCall :=
  {| Schema.inst_sessionId := "s1";
     Schema.inst_name := "read_file";
     Schema.inst_description := "reads a file";
     Schema.inst_parameters := [("path", Schema.JString "src/App.ts")] |}.

(** What the handler counts, read off the decision table itself. *)
Definition countsAsRecent (sessionId artifactId : string) (now : Z)
    (d : Schema.Decision) : bool :=
  String.eqb (Schema.decision_sessionId d) sessionId &&
  Routes.isRecentUpdate artifactId now d.

Definition sampleDecision (artifactId : string) (ty : DecisionType) (t : Z)
    : Schema.Decision :=
  {| Schema.decision_id := EmptyString;
     Schema.decision_sessionId := "s1";
     Schema.decision_artifactId := artifactId;
     Schema.decision_type := ty;
     Schema.decision_reasoning := "small change";
     Schema.decision_linesChanged := 1;
     Schema.decision_locationsChanged := 1;
     Schema.decision_diffSummary := "+1 -1";
     Schema.decision_wasAutomatic := true;
     Schema.decision_iterationNumber := 1;
     Schema.decision_mode := Schema.action;
     Schema.decision_timestamp := t |}.

(** The sample store with a short decision log. *)
Definition sampleLog : list Storage.Op :=
  [ Storage.CreateDecision "d1" (sampleDecision "a1" update 1000) 1001;
    Storage.CreateDecision "d2" (sampleDecision "a1" rewrite 3000) 3001;
    Storage.CreateDecision "d3" (sampleDecision "a1" update 2000) 2001 ].

Definition sampleStoreWithLog : Storage.t := foldl Storage.exec sampleStore sampleLog.

(** The strings the two validating handlers accept. *)
Definition modeName (m : Schema.AgentMode) : string :=
  match m with
  | Schema.deliberation => "deliberation"
  | Schema.action => "action"
  | Schema.research => "research"
  end.

Definition statusName (s : Schema.SessionStatus) : string :=
  match s with
  | Schema.active => "active"
  | Schema.paused => "paused"
  | Schema.completed => "completed"
  | Schema.error => "error"
  end.

(** Two sessions agree on every field but [currentMode], [status] and
    [lastActivityAt]. *)
Definition sameButModeStatus (s s' : Schema.Session) : Prop :=
  Schema.session_id s' = Schema.session_id s /\
  Schema.session_name s' = Schema.session_name s /\
  Schema.session_description s' = Schema.session_description s /\
  Schema.session_startedAt s' = Schema.session_startedAt s /\
  Schema.session_totalDuration s' = Schema.session_totalDuration s /\
  Schema.session_metrics s' = Schema.session_metrics s /\
  Schema.session_config s' = Schema.session_config s /\
  Schema.session_conversationHistory s' = Schema.session_conversationHistory s.

Definition sampleContext : Schema.ErrorContext :=
  {| Schema.ctx_id := EmptyString;
     Schema.ctx_sessionId := "s1";
     Schema.ctx_error := "TypeError";
     Schema.ctx_stackTrace := None;
     Schema.ctx_staleContext := ["old"];
     Schema.ctx_cleanedContext := [];
     Schema.ctx_retryCount := 0;
     Schema.ctx_resolved := false;
     Schema.ctx_resolution := None;
     Schema.ctx_timestamp := 600 |}.

(** [{ resolved: true }] *)
Definition markResolved : Schema.ErrorContextUpdates :=
  {| Schema.cupd_id := None; Schema.cupd_sessionId := None;
     Schema.cupd_error := None; Schema.cupd_stackTrace := None;
     Schema.cupd_staleContext := None; Schema.cupd_cleanedContext := None;
     Schema.cupd_retryCount := None; Schema.cupd_resolved := Some true;
     Schema.cupd_resolution := None; Schema.cupd_timestamp := None |}.

(** [{ resolved: false }] *)
Definition markUnresolved : Schema.ErrorContextUpdates :=
  {| Schema.cupd_id := None; Schema.cupd_sessionId := None;
     Schema.cupd_error := None; Schema.cupd_stackTrace := None;
     Schema.cupd_staleContext := None; Schema.cupd_cleanedContext := None;
     Schema.cupd_retryCount := None; Schema.cupd_resolved := Some false;
     Schema.cupd_resolution := None; Schema.cupd_timestamp := None |}.

Definition sampleStoreWithError : Storage.t :=
  fst (Storage.createErrorContext sampleStore "e1" sampleContext).

(** Successive [updateErrorContext] calls on one context, each with its
    update object and the date of the call. *)
Definition updateErrorContexts (st : Storage.t) (id : string)
    (calls : list (Schema.ErrorContextUpdates * Z)) : Storage.t :=
  foldl (fun st call => fst (Storage.updateErrorContext st id (fst call) (snd call)))
    st calls.

(** How often a context goes from unresolved to resolved along the
    [resolved] fields of successive update objects: an object without
    the field leaves the context as it is, [resolved: false] puts it back
    to unresolved, [resolved: true] resolves it and counts when it was
    unresolved. *)
Fixpoint resolutions (resolved : bool) (fields : list (option bool)) : Z :=
  match fields with
  | [] => 0
  | None :: r => resolutions resolved r
  | Some false :: r => resolutions false r
  | Some true :: r => (if resolved then 0 else 1) + resolutions true r
  end.

(** Dates never rise along the list. *)
Fixpoint descendingBy {A : Type} (date : A -> Z) (l : list A) : Prop :=
  match l with
  | [] => True
  | x :: r => (forall y, In y r -> date y <= date x) /\ descendingBy date r
  end.

(** What a listing of [rows] by [date], latest first, is: the same rows,
    each as often as it occurs; no row before one with a later date; and
    rows of one date in the order they have in [rows]. *)
Definition listedLatestFirst {A : Type} (date : A -> Z) (rows listing : list A) : Prop :=
  listing ≡ₚ rows /\
  (forall i j x y, (i < j)%nat -> listing !! i = Some x -> listing !! j = Some y ->
                   date y <= date x) /\
  (forall t, List.filter (fun x => date x =? t) listing
             = List.filter (fun x => date x =? t) rows).

(** No table holds two rows under one key. *)
Definition keysDistinct (st : Storage.t) : Prop :=
  NoDup (JsMap.keys (Storage.users st)) /\
  NoDup (JsMap.keys (Storage.sessions st)) /\
  NoDup (JsMap.keys (Storage.artifacts st)) /\
  NoDup (JsMap.keys (Storage.decisions st)) /\
  NoDup (JsMap.keys (Storage.toolCalls st)) /\
  NoDup (JsMap.keys (Storage.researchPipelines st)) /\
  NoDup (JsMap.keys (Storage.planningLoops st)) /\
  NoDup (JsMap.keys (Storage.errorContexts st)) /\
  NoDup (JsMap.keys (Storage.frameworkRecommendations st)).

(** ** Scenarios of the specification, run on the embedding *)

Example scenario_A :
  computeDiffStats ["a"; "b"; "c"] ["a"; "x"; "c"]
    = {| linesChanged := 1; locationsChanged := 1 |} /\
  decisionType (evaluate ["a"; "b"; "c"] ["a"; "x"; "c"] thresholds_20_5_4 0) = update.
Proof. split; reflexivity. Qed.

Example scenario_B :
  computeDiffStats ["a"; "b"; "c"; "d"; "e"] ["a"; "X"; "Y"; "Z"; "e"]
    = {| linesChanged := 3; locationsChanged := 1 |} /\
  decisionType (evaluate ["a"; "b"; "c"; "d"; "e"] ["a"; "X"; "Y"; "Z"; "e"]
                  thresholds_20_5_4 0) = update.
Proof. split; reflexivity. Qed.

Example scenario_D :
  locationsChanged
    (computeDiffStats ["p"; "b"; "c"; "d"; "q"] ["P"; "b"; "c"; "d"; "Q"]) = 2.
Proof. reflexivity. Qed.

Example reasoning_update_A :
  reasoning (evaluate ["a"; "b"; "c"] ["a"; "x"; "c"] thresholds_20_5_4 0)
  = "Change is small enough (1 lines, 1 locations) for an update. Iteration 1/4.".
Proof. vm_compute. reflexivity. Qed.

Example reasoning_rewrite_iterations :
  reasoning (evaluate ["a"] ["a"] thresholds_20_5_4 4)
  = "Change requires rewrite:   Max iterations reached".
Proof. vm_compute. reflexivity. Qed.

Example split_lf_examples :
  Js.split_lf EmptyString = [EmptyString] /\
  Js.split_lf "a" = ["a"] /\
  Js.split_lf ("a" +:+ lf +:+ "b") = ["a"; "b"] /\
  Js.split_lf lf = [EmptyString; EmptyString].
Proof. repeat split; reflexivity. Qed.

Example trim_examples :
  Js.trim "  a  b  " = "a  b" /\
  Js.trim "Change requires rewrite: 32 lines exceeds 20 limit  "
  = "Change requires rewrite: 32 lines exceeds 20 limit" /\
  Js.trim "   " = EmptyString.
Proof. repeat split; reflexivity. Qed.

Example scenario_C :
  evaluate [] thirtyTwoLines thresholds_20_5_4 0
  = {| decisionType := rewrite;
       stats := {| linesChanged := 32; locationsChanged := 1 |};
       currentIterations := 0;
       maxIterations := 4;
       reasoning := "Change requires rewrite: 32 lines exceeds 20 limit" |}.
Proof. vm_compute. reflexivity. Qed.

(** ** The diff loop in closed form *)

Section DiffLoop.

Variables oldLines newLines : list string.

Lemma countIf_nil p : countIf p [] = 0.
Proof. reflexivity. Qed.

Lemma countIf_cons p i l :
  countIf p (i :: l) = (if p i then 1 else 0) + countIf p l.
Proof.
  unfold countIf. simpl. destruct (p i); simpl length; lia.
Qed.

Lemma countIf_nonneg p l : 0 <= countIf p l.
Proof. unfold countIf. lia. Qed.

Lemma countIf_le_length p l : countIf p l <= Z.of_nat (length l).
Proof.
  induction l as [|i l IH]; [rewrite countIf_nil; simpl; lia|].
  rewrite countIf_cons. simpl length. destruct (p i); lia.
Qed.

Lemma countIf_mono (p q : nat -> bool) l :
  (forall i, p i = true -> q i = true) -> countIf p l <= countIf q l.
Proof.
  intros Hpq. induction l as [|i l IH]; [reflexivity|].
  rewrite !countIf_cons. specialize (Hpq i).
  destruct (p i), (q i); try lia; discriminate (Hpq eq_refl).
Qed.

Lemma countIf_zero p l :
  countIf p l = 0 <-> (forall i, In i l -> p i = false).
Proof.
  induction l as [|i l IH].
  - split; [intros _ i []|reflexivity].
  - rewrite countIf_cons. pose proof (countIf_nonneg p l) as Hn. split.
    + intros H j [<-|Hj].
      * destruct (p i); [lia|reflexivity].
      * apply IH; [destruct (p i); lia|exact Hj].
    + intros H. rewrite (H i (or_introl eq_refl)).
      apply IH. intros j Hj. apply H. right. exact Hj.
Qed.

(** The loop from index [a] on, entered with the flag the previous index
    left behind. *)
Lemma diff_loop_from len : forall a s,
  foldl (diffStep oldLines newLines) (s, prevDiffers oldLines newLines a) (seq a len)
  = ({| linesChanged :=
          linesChanged s + countIf (differsAt oldLines newLines) (seq a len);
        locationsChanged :=
          locationsChanged s + countIf (startsRun oldLines newLines) (seq a len) |},
     prevDiffers oldLines newLines (a + len)).
Proof.
  induction len as [|len IH]; intros a s.
  - simpl. rewrite !countIf_nil, !Z.add_0_r, Nat.add_0_r. destruct s; reflexivity.
  - simpl seq. simpl foldl. rewrite !countIf_cons.
    unfold startsRun at 1.
    pose proof (IH (S a)) as IH'. cbn [prevDiffers] in IH'.
    replace (a + S len)%nat with (S a + len)%nat by lia.
    destruct (differsAt oldLines newLines a) eqn:Hd; rewrite IH'.
    + cbn [linesChanged locationsChanged]. f_equal. f_equal; [lia|].
      destruct (prevDiffers oldLines newLines a); simpl; lia.
    + simpl. rewrite !Z.add_0_l. reflexivity.
Qed.

Lemma computeDiffStats_counts :
  computeDiffStats oldLines newLines
  = {| linesChanged := differingCount oldLines newLines;
       locationsChanged := runStartCount oldLines newLines |}.
Proof.
  unfold computeDiffStats, diffInit, differingCount, runStartCount.
  change false with (prevDiffers oldLines newLines 0).
  rewrite diff_loop_from. reflexivity.
Qed.

End DiffLoop.

(** ** Facts about differing indices *)

Lemma differsAt_false (oldLines newLines : list string) i :
  differsAt oldLines newLines i = false <-> oldLines !! i = newLines !! i.
Proof.
  unfold differsAt. rewrite bool_decide_eq_false. split.
  - intros H. destruct (decide (oldLines !! i = newLines !! i)) as [E|E]; [exact E|].
    contradiction.
  - intros E N. exact (N E).
Qed.

Lemma differsAt_refl (x : list string) i : differsAt x x i = false.
Proof. apply differsAt_false. reflexivity. Qed.

Lemma differsAt_sym (a b : list string) i : differsAt a b i = differsAt b a i.
Proof.
  unfold differsAt. apply bool_decide_ext. split; intros H E; apply H; symmetry; exact E.
Qed.

Lemma startsRun_sym (a b : list string) i : startsRun a b i = startsRun b a i.
Proof.
  unfold startsRun, prevDiffers. rewrite (differsAt_sym a b i).
  destruct i as [|j]; [reflexivity|]. rewrite (differsAt_sym a b j). reflexivity.
Qed.

Lemma countIf_ext (p q : nat -> bool) l :
  (forall i, p i = q i) -> countIf p l = countIf q l.
Proof.
  intros E. induction l as [|i l IH]; [reflexivity|].
  rewrite !countIf_cons, E, IH. reflexivity.
Qed.

(** No differing index below the longer length means the two sequences are
    the same sequence. *)
Lemma differingCount_zero (before after : list string) :
  differingCount before after = 0 <-> before = after.
Proof.
  unfold differingCount. rewrite countIf_zero. split.
  - intros H. apply list_eq. intros i.
    destruct (Nat.lt_ge_cases i (Nat.max (length before) (length after))) as [Hlt|Hge].
    + apply differsAt_false. apply H. apply in_seq. lia.
    + rewrite !lookup_ge_None_2 by lia. reflexivity.
  - intros -> i _. apply differsAt_refl.
Qed.

(** With no run beginning in a stretch that is entered outside a run, the
    stretch has no differing index at all. *)
Lemma no_run_no_diff (oldLines newLines : list string) len : forall a,
  prevDiffers oldLines newLines a = false ->
  countIf (startsRun oldLines newLines) (seq a len) = 0 ->
  countIf (differsAt oldLines newLines) (seq a len) = 0.
Proof.
  induction len as [|len IH]; intros a Hp H0; [reflexivity|].
  simpl seq in *. rewrite countIf_cons in *.
  pose proof (countIf_nonneg (startsRun oldLines newLines) (seq (S a) len)) as Hn.
  unfold startsRun at 1 in H0. rewrite Hp in H0.
  destruct (differsAt oldLines newLines a) eqn:Hd; simpl in H0; [lia|].
  rewrite IH; [reflexivity|exact Hd|lia].
Qed.

Lemma runStartCount_zero (before after : list string) :
  runStartCount before after = 0 <-> before = after.
Proof.
  rewrite <- differingCount_zero. unfold runStartCount, differingCount.
  set (n := Nat.max (length before) (length after)). split.
  - apply no_run_no_diff. reflexivity.
  - intros H.
    pose proof (countIf_mono (startsRun before after) (differsAt before after) (seq 0 n)) as Hm.
    pose proof (countIf_nonneg (startsRun before after) (seq 0 n)) as Hn.
    assert (countIf (startsRun before after) (seq 0 n)
            <= countIf (differsAt before after) (seq 0 n)); [|lia].
    apply Hm. intros i Hi. unfold startsRun in Hi.
    apply andb_true_iff in Hi. tauto.
Qed.

Lemma computeDiffStats_same (x : list string) :
  computeDiffStats x x = {| linesChanged := 0; locationsChanged := 0 |}.
Proof.
  rewrite computeDiffStats_counts. f_equal.
  - apply differingCount_zero. reflexivity.
  - apply runStartCount_zero. reflexivity.
Qed.

(** ** The code's comparison and the specification's *)

Lemma lookup_nth_error {A : Type} (l : list A) (i : nat) : l !! i = nth_error l i.
Proof.
  revert i. induction l as [|x l IH]; intros [|i]; try reflexivity. apply IH.
Qed.

(** Below the longer length, [oldLines[i] !== newLines[i]] is the
    specification's "differ". *)
Lemma differsAt_specDiffer (before after : list string) (i : nat) :
  (i < specLength before after)%nat ->
  differsAt before after i = specDiffer before after i.
Proof.
  unfold specLength, differsAt, specDiffer. intros Hi.
  rewrite !lookup_nth_error.
  destruct (nth_error before i) as [x|] eqn:Eb, (nth_error after i) as [y|] eqn:Ea.
  - destruct (String.eqb_spec x y) as [->|Hne]; cbn [negb].
    + apply bool_decide_eq_false. intros H. apply H. reflexivity.
    + apply bool_decide_eq_true. intros [= E]. exact (Hne E).
  - apply bool_decide_eq_true. discriminate.
  - apply bool_decide_eq_true. discriminate.
  - apply nth_error_None in Eb, Ea. lia.
Qed.

Lemma startsRun_beginsRun (before after : list string) (i : nat) :
  (i < specLength before after)%nat ->
  startsRun before after i = beginsRun (specDiffer before after) i.
Proof.
  intros Hi. unfold startsRun, beginsRun, prevDiffers.
  rewrite (differsAt_specDiffer before after i Hi).
  destruct i as [|j]; [reflexivity|].
  rewrite (differsAt_specDiffer before after j) by lia. reflexivity.
Qed.

Lemma countIf_app (p : nat -> bool) (l1 l2 : list nat) :
  countIf p (l1 ++ l2) = countIf p l1 + countIf p l2.
Proof.
  induction l1 as [|i l1 IH]; [unfold countIf at 2; simpl; lia|].
  simpl app. rewrite !countIf_cons, IH. lia.
Qed.

Lemma countIf_seq_split (p : nat -> bool) (a n1 n2 : nat) :
  countIf p (seq a (n1 + n2)) = countIf p (seq a n1) + countIf p (seq (a + n1) n2).
Proof. rewrite seq_app. apply countIf_app. Qed.

Lemma countIf_ext_in (p q : nat -> bool) (l : list nat) :
  (forall i, In i l -> p i = q i) -> countIf p l = countIf q l.
Proof.
  intros E. induction l as [|i l IH]; [reflexivity|].
  rewrite !countIf_cons, (E i (or_introl eq_refl)), IH; [reflexivity|].
  intros j Hj. apply E. right. exact Hj.
Qed.

Lemma differingCount_spec (before after : list string) :
  differingCount before after = specLinesChanged before after.
Proof.
  unfold differingCount, specLinesChanged. fold (specLength before after).
  apply countIf_ext_in. intros i Hi. apply in_seq in Hi.
  apply differsAt_specDiffer. lia.
Qed.

Lemma runStartCount_spec (before after : list string) :
  runStartCount before after = specRunStarts before after.
Proof.
  unfold runStartCount, specRunStarts. fold (specLength before after).
  apply countIf_ext_in. intros i Hi. apply in_seq in Hi.
  apply startsRun_beginsRun. lia.
Qed.

(** ** Every run has one beginning *)

Section Runs.

Variables (d : nat -> bool) (n : nat).

Lemma forallb_seq_snoc (a b : nat) :
  (a <= b)%nat ->
  forallb d (seq a (S b - a)) = forallb d (seq a (b - a)) && d b.
Proof.
  intros Hab. replace (S b - a)%nat with (S (b - a)) by lia.
  rewrite seq_S, forallb_app. cbn [forallb].
  replace (a + (b - a))%nat with b by lia. rewrite andb_true_r. reflexivity.
Qed.

(** A run from [a] cannot reach past an index that does not differ. *)
Lemma maximalRun_blocked (a c b : nat) :
  (a <= c)%nat -> (c <= b)%nat -> d c = false -> maximalRun d n a b = false.
Proof.
  intros Hac Hcb Hc. unfold maximalRun.
  assert (H : forallb d (seq a (S b - a)) = false).
  { apply not_true_is_false. intros H. rewrite forallb_forall in H.
    rewrite (H c) in Hc; [discriminate Hc|]. apply in_seq. lia. }
  rewrite H, andb_false_r. reflexivity.
Qed.

(** With everything from [a] up to [b0] differing, exactly one run from
    [a] ends at or after [b0] when [b0] differs, and none otherwise. *)
Lemma maximalRun_count_from (a : nat) : forall len b0,
  (b0 + len = n)%nat -> (a <= b0)%nat ->
  forallb d (seq a (b0 - a)) = true ->
  match a with O => true | S a' => negb (d a') end = true ->
  countIf (maximalRun d n a) (seq b0 len) = if (b0 <? n)%nat && d b0 then 1 else 0.
Proof.
  induction len as [|len IH]; intros b0 Hn Hab Hpre Hleft.
  - rewrite countIf_nil. replace (b0 <? n)%nat with false; [reflexivity|].
    symmetry. apply Nat.ltb_ge. lia.
  - cbn [seq]. rewrite countIf_cons.
    assert (Hb0 : (b0 <? n)%nat = true) by (apply Nat.ltb_lt; lia).
    rewrite Hb0. cbn [andb].
    assert (Hrun : maximalRun d n a b0
                   = d b0 && ((S b0 =? n)%nat || negb (d (S b0)))).
    { unfold maximalRun. rewrite Hb0, Hleft, (forallb_seq_snoc a b0 Hab), Hpre.
      replace (a <=? b0)%nat with true by (symmetry; apply Nat.leb_le; exact Hab).
      cbn [andb]. rewrite andb_true_r. reflexivity. }
    rewrite Hrun. destruct (d b0) eqn:Hd; cbn [andb].
    + rewrite (IH (S b0)); [|lia|lia| |exact Hleft].
      * destruct (Nat.eqb_spec (S b0) n) as [E|E]; cbn [orb].
        -- replace (S b0 <? n)%nat with false by (symmetry; apply Nat.ltb_ge; lia).
           reflexivity.
        -- replace (S b0 <? n)%nat with true by (symmetry; apply Nat.ltb_lt; lia).
           cbn [andb]. destruct (d (S b0)); reflexivity.
      * rewrite (forallb_seq_snoc a b0 Hab), Hpre, Hd. reflexivity.
    + replace (countIf (maximalRun d n a) (seq (S b0) len)) with 0; [reflexivity|].
      symmetry. apply countIf_zero. intros b Hb. apply in_seq in Hb.
      apply (maximalRun_blocked a b0 b); [exact Hab|lia|exact Hd].
Qed.

Lemma maximalRun_count (a : nat) :
  (a < n)%nat ->
  countIf (maximalRun d n a) (seq 0 n) = if beginsRun d a then 1 else 0.
Proof.
  intros Ha. replace n with (a + (n - a))%nat at 2 by lia.
  rewrite countIf_seq_split. cbn [Nat.add].
  replace (countIf (maximalRun d n a) (seq 0 a)) with 0.
  - unfold beginsRun.
    destruct (match a with O => true | S a' => negb (d a') end) eqn:Hleft.
    + rewrite (maximalRun_count_from a (n - a) a); [|lia|lia| |exact Hleft].
      * replace (a <? n)%nat with true by (symmetry; apply Nat.ltb_lt; exact Ha).
        cbn [andb]. rewrite andb_true_r. lia.
      * rewrite Nat.sub_diag. reflexivity.
    + rewrite andb_false_r.
      replace (countIf (maximalRun d n a) (seq a (n - a))) with 0; [reflexivity|].
      symmetry. apply countIf_zero. intros b _. unfold maximalRun.
      rewrite Hleft, andb_false_r. reflexivity.
  - symmetry. apply countIf_zero. intros b Hb. apply in_seq in Hb. unfold maximalRun.
    replace (a <=? b)%nat with false by (symmetry; apply Nat.leb_gt; lia). reflexivity.
Qed.

(** Counting the pairs row by row. *)
Lemma count_pairs (l1 l2 : list nat) :
  (forall a, In a l1 -> countIf (maximalRun d n a) l2 = if beginsRun d a then 1 else 0) ->
  Z.of_nat (length (List.filter (fun ab => maximalRun d n (fst ab) (snd ab))
                      (list_prod l1 l2)))
  = countIf (beginsRun d) l1.
Proof.
  induction l1 as [|a l1 IH]; intros H; [reflexivity|].
  cbn [list_prod]. rewrite List.filter_app, length_app, Nat2Z.inj_add.
  rewrite IH by (intros b Hb; apply H; right; exact Hb).
  rewrite countIf_cons, <- (H a (or_introl eq_refl)). f_equal.
  unfold countIf. f_equal. clear.
  induction l2 as [|b l2 IH2]; [reflexivity|]. cbn [map List.filter fst snd].
  destruct (maximalRun d n a b); cbn [length]; rewrite IH2; reflexivity.
Qed.

Lemma maximalRuns_are_starts :
  Z.of_nat (length (List.filter (fun ab => maximalRun d n (fst ab) (snd ab))
                      (list_prod (seq 0 n) (seq 0 n))))
  = countIf (beginsRun d) (seq 0 n).
Proof.
  apply count_pairs. intros a Ha. apply in_seq in Ha. apply maximalRun_count. lia.
Qed.

End Runs.

Lemma specLocationsChanged_starts (before after : list string) :
  specLocationsChanged before after = specRunStarts before after.
Proof. unfold specLocationsChanged, specRunStarts. cbv zeta. apply maximalRuns_are_starts. Qed.

(** ** Diff statistics: the claims *)

(** Two runs, the second reaching past the end of the shorter sequence. *)
Example spec_counts_two_runs :
  specLinesChanged ["a"; "b"; "c"; "d"; "e"] ["a"; "x"; "c"; "y"; "z"; "w"] = 4 /\
  specLocationsChanged ["a"; "b"; "c"; "d"; "e"] ["a"; "x"; "c"; "y"; "z"; "w"] = 2 /\
  maximalRun (specDiffer ["a"; "b"; "c"; "d"; "e"] ["a"; "x"; "c"; "y"; "z"; "w"]) 6 3 5
  = true /\
  maximalRun (specDiffer ["a"; "b"; "c"; "d"; "e"] ["a"; "x"; "c"; "y"; "z"; "w"]) 6 3 4
  = false.
Proof. vm_compute. repeat split. Qed.

(** C2. For every pair of line sequences, [computeDiffStats] returns as
    [linesChanged] the number of indices [i] in
    [0 .. max(len(before), len(after)) - 1] at which [before[i]] and
    [after[i]] differ by exact string equality, an index past the end of
    the shorter sequence counting as a difference; and as
    [locationsChanged] the number of maximal contiguous runs of such
    indices, which is also the number of differing indices that are not
    immediately preceded by a differing index. *)
Theorem computeDiffStats_spec (before after : list string) :
  linesChanged (computeDiffStats before after) = specLinesChanged before after /\
  locationsChanged (computeDiffStats before after) = specLocationsChanged before after /\
  specLocationsChanged before after = specRunStarts before after.
Proof.
  rewrite computeDiffStats_counts. cbn [linesChanged locationsChanged].
  rewrite differingCount_spec, runStartCount_spec, specLocationsChanged_starts.
  repeat split.
Qed.

(** C9. For every pair of line sequences,
    [0 <= locationsChanged <= linesChanged <= max(len(before), len(after))];
    [linesChanged = 0] exactly when the two sequences are equal, and so
    is [locationsChanged = 0]. *)
Theorem computeDiffStats_bounds (before after : list string) :
  let s := computeDiffStats before after in
  (0 <= locationsChanged s /\
   locationsChanged s <= linesChanged s /\
   linesChanged s <= Z.of_nat (Nat.max (length before) (length after))) /\
  (linesChanged s = 0 <-> before = after) /\
  (locationsChanged s = 0 <-> before = after).
Proof.
  cbv zeta. rewrite computeDiffStats_counts. cbn [linesChanged locationsChanged].
  split; [|split].
  - unfold runStartCount, differingCount. repeat split.
    + apply countIf_nonneg.
    + apply countIf_mono. intros i Hi. unfold startsRun in Hi.
      apply andb_true_iff in Hi. tauto.
    + etransitivity; [apply countIf_le_length|]. rewrite length_seq. reflexivity.
  - apply differingCount_zero.
  - apply runStartCount_zero.
Qed.

(** C10. Swapping the two sequences changes neither count:
    [computeDiffStats(before, after) = computeDiffStats(after, before)]. *)
Theorem computeDiffStats_sym (before after : list string) :
  computeDiffStats before after = computeDiffStats after before.
Proof.
  rewrite !computeDiffStats_counts.
  unfold differingCount, runStartCount.
  rewrite (Nat.max_comm (length after)).
  f_equal; apply countIf_ext; intros i.
  - apply differsAt_sym.
  - apply startsRun_sym.
Qed.

(** ** The policy *)

Lemma shouldUpdate_true (s : DiffStats) (c : SessionConfig) (k : Z) :
  shouldUpdate s c k = true <->
  linesChanged s <= maxLinesForUpdate c /\
  locationsChanged s <= maxLocationsForUpdate c /\
  k < maxIterationsPerUpdate c.
Proof.
  unfold shouldUpdate. rewrite !andb_true_iff, !Z.leb_le, Z.ltb_lt. tauto.
Qed.

Lemma shouldUpdate_false (s : DiffStats) (c : SessionConfig) (k : Z) :
  shouldUpdate s c k = false <->
  maxLinesForUpdate c < linesChanged s \/
  maxLocationsForUpdate c < locationsChanged s \/
  maxIterationsPerUpdate c <= k.
Proof.
  unfold shouldUpdate. rewrite !andb_false_iff, !Z.leb_gt, Z.ltb_ge. tauto.
Qed.

Lemma decisionType_update (s : DiffStats) (c : SessionConfig) (k : Z) :
  decisionType (classify s c k) = update <-> shouldUpdate s c k = true.
Proof.
  unfold classify. cbn [decisionType].
  destruct (shouldUpdate s c k); split; intros H; try reflexivity; discriminate H.
Qed.

Lemma decisionType_rewrite (s : DiffStats) (c : SessionConfig) (k : Z) :
  decisionType (classify s c k) = rewrite <-> shouldUpdate s c k = false.
Proof.
  unfold classify. cbn [decisionType].
  destruct (shouldUpdate s c k); split; intros H; try reflexivity; discriminate H.
Qed.

(** The decision only moves towards [rewrite] when the counts grow. *)
Lemma shouldUpdate_antitone (s s' : DiffStats) (c : SessionConfig) (k : Z) :
  linesChanged s <= linesChanged s' ->
  locationsChanged s <= locationsChanged s' ->
  shouldUpdate s c k = false -> shouldUpdate s' c k = false.
Proof. rewrite !shouldUpdate_false. lia. Qed.

(** The counts of a diff are never negative. *)
Lemma computeDiffStats_nonneg (before after : list string) :
  0 <= linesChanged (computeDiffStats before after) /\
  0 <= locationsChanged (computeDiffStats before after).
Proof.
  rewrite computeDiffStats_counts. split; apply countIf_nonneg.
Qed.

(** What the handler answers once the artifact and its session are found. *)
Lemma analyzeChange_found (st : MemStorage) (now : Z) (artifactId newContent : string)
    (artifact : Artifact) (session : Session) :
  getArtifact st artifactId = Some artifact ->
  getSession st (artifact_sessionId artifact) = Some session ->
  analyzeChange st now artifactId newContent
  = Status200
      (evaluate (Js.split_lf (content artifact)) (Js.split_lf newContent)
         (config session)
         (Z.of_nat (length (List.filter (isRecentUpdate artifactId now)
                              (getDecisions st (session_id session)))))).
Proof. intros Ha Hs. unfold analyzeChange. rewrite Ha, Hs. reflexivity. Qed.

(** ** The policy: the claims *)

(** C1. For all diff statistics, thresholds and recent-update counts,
    [classify] answers [update] if and only if
    [linesChanged <= maxLinesForUpdate], [locationsChanged <=
    maxLocationsForUpdate] and [recentUpdateCount <
    maxIterationsPerUpdate] all hold, and [rewrite] in every other case.
    The comparisons are those of the source on any integers, so the
    statement holds in particular on the non-negative ones. *)
Theorem classify_update_iff (s : DiffStats) (c : SessionConfig) (recentUpdateCount : Z) :
  (decisionType (classify s c recentUpdateCount) = update <->
     linesChanged s <= maxLinesForUpdate c /\
     locationsChanged s <= maxLocationsForUpdate c /\
     recentUpdateCount < maxIterationsPerUpdate c) /\
  (decisionType (classify s c recentUpdateCount) = rewrite <->
     ~ (linesChanged s <= maxLinesForUpdate c /\
        locationsChanged s <= maxLocationsForUpdate c /\
        recentUpdateCount < maxIterationsPerUpdate c)).
Proof.
  rewrite decisionType_update, decisionType_rewrite.
  rewrite <- shouldUpdate_true. split; [reflexivity|].
  destruct (shouldUpdate s c recentUpdateCount); split; intros H;
    try reflexivity; try discriminate H.
  - exfalso. apply H. reflexivity.
  - intros E. discriminate E.
Qed.

(** C5. The line and location comparisons are inclusive and the iteration
    comparison is strict.  With [linesChanged = 0] and [locationsChanged =
    0], [classify] answers [rewrite] when the recent-update count equals
    [maxIterationsPerUpdate], and, on thresholds that are not negative
    and with [maxIterationsPerUpdate >= 1], answers [update] when the
    count is [maxIterationsPerUpdate - 1].  A diff sitting exactly on both
    bounds is still an [update] while the count is below the cap. *)
Theorem classify_boundary (s : DiffStats) (c : SessionConfig) :
  linesChanged s = 0 -> locationsChanged s = 0 ->
  decisionType (classify s c (maxIterationsPerUpdate c)) = rewrite /\
  (validThresholds c -> 1 <= maxIterationsPerUpdate c ->
   decisionType (classify s c (maxIterationsPerUpdate c - 1)) = update) /\
  (forall k, k < maxIterationsPerUpdate c ->
   decisionType
     (classify {| linesChanged := maxLinesForUpdate c;
                  locationsChanged := maxLocationsForUpdate c |} c k) = update).
Proof.
  intros Hl Hc. split; [|split].
  - apply decisionType_rewrite, shouldUpdate_false. lia.
  - intros (Hml & Hmc & _) _. apply decisionType_update, shouldUpdate_true. lia.
  - intros k Hk. apply decisionType_update, shouldUpdate_true.
    cbn [linesChanged locationsChanged]. lia.
Qed.

Lemma classify_boundary_witness :
  decisionType (classify {| linesChanged := 0; locationsChanged := 0 |}
                  thresholds_20_5_4 4) = rewrite /\
  decisionType (classify {| linesChanged := 0; locationsChanged := 0 |}
                  thresholds_20_5_4 3) = update /\
  decisionType (classify {| linesChanged := 20; locationsChanged := 5 |}
                  thresholds_20_5_4 3) = update.
Proof.
  pose proof (classify_boundary {| linesChanged := 0; locationsChanged := 0 |}
                thresholds_20_5_4 eq_refl eq_refl) as (Hr & Hu & Hi).
  split; [exact Hr|split].
  - apply Hu; [unfold validThresholds; simpl; lia|simpl; lia].
  - apply (Hi 3). simpl. lia.
Defined.

(** C6. Monotonicity.  If [classify] answers [rewrite] for some
    statistics, it answers [rewrite] as well for statistics with a larger
    [linesChanged] and the same [locationsChanged], and for statistics
    with a larger [locationsChanged] and the same [linesChanged]: raising
    a count never turns a [rewrite] back into an [update]. *)
Theorem classify_monotone (s : DiffStats) (c : SessionConfig) (recentUpdateCount : Z) :
  decisionType (classify s c recentUpdateCount) = rewrite ->
  (forall lines', linesChanged s <= lines' ->
     decisionType
       (classify {| linesChanged := lines'; locationsChanged := locationsChanged s |}
          c recentUpdateCount) = rewrite) /\
  (forall locations', locationsChanged s <= locations' ->
     decisionType
       (classify {| linesChanged := linesChanged s; locationsChanged := locations' |}
          c recentUpdateCount) = rewrite).
Proof.
  intros H. apply decisionType_rewrite in H.
  split; intros n Hn; apply decisionType_rewrite;
    apply (shouldUpdate_antitone s); cbn [linesChanged locationsChanged];
    first [exact H | lia].
Qed.

Lemma classify_monotone_witness :
  decisionType (classify {| linesChanged := 21; locationsChanged := 1 |}
                  thresholds_20_5_4 0) = rewrite /\
  decisionType (classify {| linesChanged := 32; locationsChanged := 1 |}
                  thresholds_20_5_4 0) = rewrite /\
  decisionType (classify {| linesChanged := 21; locationsChanged := 9 |}
                  thresholds_20_5_4 0) = rewrite.
Proof.
  pose proof (classify_monotone {| linesChanged := 21; locationsChanged := 1 |}
                thresholds_20_5_4 0 eq_refl) as (Hl & Hc).
  split; [reflexivity|split].
  - apply (Hl 32). simpl. lia.
  - apply (Hc 9). simpl. lia.
Defined.

(** C7. [computeDiffStats(x, x)] is [{0, 0}] for every [x]; and for equal
    [before] and [after], on thresholds that are not negative, the
    classification is [update] whenever the recent-update count is below
    [maxIterationsPerUpdate]. *)
Theorem identical_content_update (before after : list string) (c : SessionConfig)
    (recentUpdateCount : Z) :
  before = after ->
  computeDiffStats before after = {| linesChanged := 0; locationsChanged := 0 |} /\
  (validThresholds c -> recentUpdateCount < maxIterationsPerUpdate c ->
   decisionType (evaluate before after c recentUpdateCount) = update).
Proof.
  intros <-. split; [apply computeDiffStats_same|].
  intros (Hl & Hc & _) Hk. unfold evaluate.
  apply decisionType_update, shouldUpdate_true.
  rewrite computeDiffStats_same. cbn [linesChanged locationsChanged]. lia.
Qed.

Lemma identical_content_update_witness :
  computeDiffStats ["a"; "b"] ["a"; "b"] = {| linesChanged := 0; locationsChanged := 0 |} /\
  decisionType (evaluate ["a"; "b"] ["a"; "b"] thresholds_20_5_4 3) = update.
Proof.
  pose proof (identical_content_update ["a"; "b"] ["a"; "b"] thresholds_20_5_4 3 eq_refl)
    as (H0 & Hu).
  split; [exact H0|].
  apply Hu; [unfold validThresholds; simpl; lia|simpl; lia].
Defined.

(** C3, as the claim states it, fails: with [maxIterationsPerUpdate = -1]
    the handler signals nothing and answers with a classification. *)
Lemma negative_iterations_classified :
  invalidConfiguration negativeIterations 0 /\
  analyzeChange storeNegative 0 "a1" ("a" +:+ lf +:+ "x" +:+ lf +:+ "c")
  = Status200
      {| decisionType := rewrite;
         stats := {| linesChanged := 1; locationsChanged := 1 |};
         currentIterations := 0;
         maxIterations := -1;
         reasoning := "Change requires rewrite:   Max iterations reached" |} /\
  evaluate ["a"; "b"; "c"] ["a"; "x"; "c"] negativeIterations 0
  = {| decisionType := rewrite;
       stats := {| linesChanged := 1; locationsChanged := 1 |};
       currentIterations := 0;
       maxIterations := -1;
       reasoning := "Change requires rewrite:   Max iterations reached" |}.
Proof.
  split; [right; right; left; reflexivity|].
  split; vm_compute; reflexivity.
Qed.

(** C3, amended.  The engine has no error path.  Whenever one of the
    three thresholds is negative, the handler, having found the artifact
    and its session, answers with a classification and its decision is
    [rewrite]; so does [evaluate] on any count that is not negative (the
    handler's count is an array length). *)
Theorem negative_threshold_rewrite :
  (forall before after c recentUpdateCount,
     0 <= recentUpdateCount ->
     maxLinesForUpdate c < 0 \/ maxLocationsForUpdate c < 0 \/
       maxIterationsPerUpdate c < 0 ->
     decisionType (evaluate before after c recentUpdateCount) = rewrite) /\
  (forall st now artifactId newContent artifact session,
     getArtifact st artifactId = Some artifact ->
     getSession st (artifact_sessionId artifact) = Some session ->
     maxLinesForUpdate (config session) < 0 \/
       maxLocationsForUpdate (config session) < 0 \/
       maxIterationsPerUpdate (config session) < 0 ->
     exists r, analyzeChange st now artifactId newContent = Status200 r /\
               decisionType r = rewrite).
Proof.
  assert (Hev : forall before after c k, 0 <= k ->
            maxLinesForUpdate c < 0 \/ maxLocationsForUpdate c < 0 \/
              maxIterationsPerUpdate c < 0 ->
            decisionType (evaluate before after c k) = rewrite).
  { intros before after c k Hk Hneg. unfold evaluate.
    apply decisionType_rewrite, shouldUpdate_false.
    pose proof (computeDiffStats_nonneg before after) as (Hl & Hc). lia. }
  split; [exact Hev|].
  intros st now artifactId newContent artifact session Ha Hs Hneg.
  eexists. split; [apply analyzeChange_found; eassumption|].
  apply Hev; [lia|exact Hneg].
Qed.

Lemma negative_threshold_rewrite_witness :
  decisionType (evaluate ["a"] ["a"] negativeIterations 0) = rewrite /\
  exists r, analyzeChange storeNegative 0 "a1" "a" = Status200 r /\
            decisionType r = rewrite.
Proof.
  destruct negative_threshold_rewrite as (Hev & Hh). split.
  - apply Hev; [lia|]. right. right. simpl. lia.
  - apply (Hh storeNegative 0 "a1" "a"
             {| artifact_sessionId := "s1"; content := "a" +:+ lf +:+ "b" +:+ lf +:+ "c" |}
             {| session_id := "s1"; config := negativeIterations |}).
    + vm_compute. reflexivity.
    + vm_compute. reflexivity.
    + right. right. simpl. lia.
Defined.

(** ** Facts about the string primitives *)

Section JsFacts.

Import Js.

#[local] Arguments String.append !s1 s2 : simpl nomatch.

Lemma append_assoc (a b c : string) : (a +:+ b) +:+ c = a +:+ (b +:+ c).
Proof. induction a as [|x a IH]; simpl; [reflexivity|]. rewrite IH. reflexivity. Qed.

Lemma append_empty_r (a : string) : a +:+ EmptyString = a.
Proof. induction a as [|x a IH]; simpl; [reflexivity|]. rewrite IH. reflexivity. Qed.

(** *** [includes] sees through [trim] *)

Lemma startsWith_after_space a p c r :
  isWhiteSpace a = false -> isWhiteSpace c = true ->
  startsWith (String a p) (String c r) = false.
Proof.
  intros Ha Hc. simpl. destruct (Ascii.eqb_spec a c) as [->|_]; [|reflexivity].
  rewrite Ha in Hc. discriminate Hc.
Qed.

Lemma includes_trimStart a p s :
  isWhiteSpace a = false ->
  includes (String a p) (trimStart s) = includes (String a p) s.
Proof.
  intros Ha. induction s as [|c r IH]; [reflexivity|].
  cbn [trimStart]. destruct (isWhiteSpace c) eqn:Hc; [|reflexivity].
  rewrite IH. cbn [includes]. rewrite (startsWith_after_space a p c r Ha Hc).
  reflexivity.
Qed.

Lemma trimEnd_tail a p : trimEnd (String a p) = String a p -> trimEnd p = p.
Proof.
  cbn [trimEnd]. destruct (trimEnd p) as [|x q] eqn:E.
  - destruct (isWhiteSpace a); intros H; [discriminate H|].
    injection H as <-. reflexivity.
  - intros H. injection H as <-. reflexivity.
Qed.

Lemma startsWith_empty pat : startsWith pat EmptyString = match pat with EmptyString => true | _ => false end.
Proof. destruct pat; reflexivity. Qed.

Lemma startsWith_trimEnd pat : forall s,
  trimEnd pat = pat -> startsWith pat (trimEnd s) = startsWith pat s.
Proof.
  induction pat as [|a p IHp]; intros s Hpat; [reflexivity|].
  pose proof (trimEnd_tail a p Hpat) as Hp.
  destruct s as [|c r]; [reflexivity|].
  cbn [trimEnd]. cbn [startsWith]. rewrite <- (IHp r Hp).
  destruct (trimEnd r) as [|x q] eqn:E; [|reflexivity].
  destruct (isWhiteSpace c) eqn:Hc; [|reflexivity].
  cbn [startsWith]. destruct (Ascii.eqb_spec a c) as [->|_]; [|reflexivity].
  rewrite startsWith_empty. destruct p as [|y p']; [|reflexivity].
  exfalso. cbn [trimEnd] in Hpat. rewrite Hc in Hpat. discriminate Hpat.
Qed.

Lemma includes_empty a p : includes (String a p) EmptyString = false.
Proof. reflexivity. Qed.

Lemma includes_trimEnd a p s :
  trimEnd (String a p) = String a p ->
  includes (String a p) (trimEnd s) = includes (String a p) s.
Proof.
  intros Hpat. induction s as [|c r IH]; [reflexivity|].
  cbn [includes]. rewrite <- IH, <- (startsWith_trimEnd _ (String c r) Hpat).
  cbn [trimEnd]. destruct (trimEnd r) as [|x q] eqn:E.
  - rewrite includes_empty, orb_false_r.
    destruct (isWhiteSpace c); [reflexivity|].
    cbn [includes startsWith]. rewrite !orb_false_r. reflexivity.
  - reflexivity.
Qed.

(** A pattern that neither begins nor ends with white space is found in
    [s.trim()] exactly when it is found in [s]. *)
Lemma includes_trim a p s :
  isWhiteSpace a = false -> trimEnd (String a p) = String a p ->
  includes (String a p) (trim s) = includes (String a p) s.
Proof.
  intros Ha Hpat. unfold trim.
  rewrite (includes_trimEnd a p _ Hpat). apply includes_trimStart. exact Ha.
Qed.

(** *** Finding and excluding a pattern *)

Lemma includes_skip pat l s :
  includes pat s = true -> includes pat (l +:+ s) = true.
Proof.
  intros H. induction l as [|c l IH]; [exact H|].
  simpl append. cbn [includes]. rewrite IH. apply orb_true_r.
Qed.

Lemma startsWith_hasBigram a b pat : forall s,
  startsWith pat s = true -> hasBigram a b pat = true -> hasBigram a b s = true.
Proof.
  induction pat as [|x p IH]; intros s Hs Hb; [discriminate Hb|].
  destruct s as [|c r]; [discriminate Hs|].
  cbn [startsWith] in Hs. apply andb_true_iff in Hs as [Hxc Hpr].
  apply Ascii.eqb_eq in Hxc. subst c.
  cbn [hasBigram] in *. apply orb_true_iff in Hb as [Hb|Hb].
  - apply andb_true_iff in Hb as [Hxa Hh]. rewrite Hxa. cbn [andb].
    destruct p as [|y p']; [discriminate Hh|].
    destruct r as [|d r']; [discriminate Hpr|].
    cbn [startsWith] in Hpr. apply andb_true_iff in Hpr as [Hyd _].
    apply Ascii.eqb_eq in Hyd. subst d. cbn [headIs] in *. rewrite Hh. reflexivity.
  - rewrite (IH r Hpr Hb). apply orb_true_r.
Qed.

Lemma includes_hasBigram a b pat s :
  hasBigram a b pat = true -> includes pat s = true -> hasBigram a b s = true.
Proof.
  intros Hb. induction s as [|c r IH]; cbn [includes]; intros H.
  - rewrite orb_false_r in H. exact (startsWith_hasBigram a b pat EmptyString H Hb).
  - apply orb_true_iff in H as [H|H].
    + exact (startsWith_hasBigram a b pat _ H Hb).
    + cbn [hasBigram]. rewrite (IH H). apply orb_true_r.
Qed.

(** A string that lacks a pair of adjacent characters of the pattern
    does not contain the pattern. *)
Lemma not_includes a b pat s :
  hasBigram a b pat = true -> hasBigram a b s = false -> includes pat s = false.
Proof.
  intros Hb Hs. destruct (includes pat s) eqn:E; [|reflexivity].
  rewrite (includes_hasBigram a b pat s Hb E) in Hs. discriminate Hs.
Qed.

(** *** Numerals *)

Lemma isNumeral_neq c a : isNumeral c = true -> isNumeral a = false -> Ascii.eqb c a = false.
Proof.
  intros Hc Ha. destruct (Ascii.eqb_spec c a) as [->|_]; [|reflexivity].
  rewrite Hc in Ha. discriminate Ha.
Qed.

Lemma hasBigram_numeral a b d s :
  allNumeral d = true -> isNumeral a = false ->
  hasBigram a b (d +:+ s) = hasBigram a b s.
Proof.
  intros Hd Ha. induction d as [|c d IH]; [reflexivity|].
  cbn [allNumeral] in Hd. apply andb_true_iff in Hd as [Hc Hd].
  simpl append. cbn [hasBigram]. rewrite (isNumeral_neq c a Hc Ha), (IH Hd).
  reflexivity.
Qed.

Lemma allNumeral_uint u : allNumeral (NilEmpty.string_of_uint u) = true.
Proof. induction u; simpl; try reflexivity; exact IHu. Qed.

Lemma allNumeral_show n : allNumeral (show n) = true.
Proof.
  unfold show, NilZero.string_of_int, NilZero.string_of_uint.
  destruct (Z.to_int n) as [u|u]; cbn [allNumeral];
    [|change (isNumeral "-") with true; cbn [andb]];
    destruct u; try reflexivity; apply allNumeral_uint.
Qed.

End JsFacts.

(** ** The rationale of a [rewrite] *)

Section Rationale.

Import Js.

#[local] Arguments String.append !s1 s2 : simpl nomatch.

Ltac mention_yes :=
  unfold rewriteTemplate; rewrite ?append_assoc;
  solve [ repeat first [ reflexivity | apply includes_skip ] ].

Ltac mention_no a b :=
  apply (not_includes a b);
  [ reflexivity
  | unfold rewriteTemplate; rewrite ?append_assoc;
    repeat (simpl; rewrite ?hasBigram_numeral by (assumption || reflexivity));
    reflexivity ].

(** Whatever numerals fill the template, each of the three phrases is in
    the trimmed text exactly when its clause was put in. *)
Lemma template_mentions (dl dml dc dmc : string) (bl bc bi : bool) :
  allNumeral dl = true -> allNumeral dml = true ->
  allNumeral dc = true -> allNumeral dmc = true ->
  let t :=
    trim (rewriteTemplate
            (if bl then dl +:+ " lines exceeds " +:+ dml +:+ " limit" else EmptyString)
            (if bc then dc +:+ " locations exceeds " +:+ dmc +:+ " limit" else EmptyString)
            (if bi then "Max iterations reached" else EmptyString)) in
  mentionsLines t = bl /\ mentionsLocations t = bc /\ mentionsIterations t = bi.
Proof.
  intros Hdl Hdml Hdc Hdmc. cbv zeta.
  unfold mentionsLines, mentionsLocations, mentionsIterations.
  rewrite !includes_trim by reflexivity.
  destruct bl, bc, bi; repeat split;
    first [ mention_yes
          | mention_no "i"%char "n"%char
          | mention_no "o"%char "c"%char
          | mention_no "M"%char "a"%char ].
Qed.

Lemma rewriteReasoning_mentions (s : DiffStats) (c : SessionConfig) (k : Z) :
  let t := rewriteReasoning s c k in
  mentionsLines t = (linesChanged s >? maxLinesForUpdate c) /\
  mentionsLocations t = (locationsChanged s >? maxLocationsForUpdate c) /\
  mentionsIterations t = (k >=? maxIterationsPerUpdate c).
Proof.
  unfold rewriteReasoning, linesClause, locationsClause, iterationsClause.
  apply template_mentions; apply allNumeral_show.
Qed.

End Rationale.

(** A diff against nothing: every line of a non-empty [after] differs, in
    one run. *)
Lemma countIf_all (p : nat -> bool) l :
  (forall i, In i l -> p i = true) -> countIf p l = Z.of_nat (length l).
Proof.
  induction l as [|i l IH]; intros H; [reflexivity|].
  rewrite countIf_cons, (H i (or_introl eq_refl)), IH.
  - simpl length. lia.
  - intros j Hj. apply H. right. exact Hj.
Qed.

Lemma differsAt_nil_l (after : list string) i :
  (i < length after)%nat -> differsAt [] after i = true.
Proof.
  intros Hi. unfold differsAt. apply bool_decide_eq_true.
  destruct (lookup_lt_is_Some_2 after i Hi) as [x Hx]. rewrite Hx. discriminate.
Qed.

Lemma computeDiffStats_creation (after : list string) :
  after <> [] ->
  computeDiffStats [] after
  = {| linesChanged := Z.of_nat (length after); locationsChanged := 1 |}.
Proof.
  intros Hne. rewrite computeDiffStats_counts.
  unfold differingCount, runStartCount. cbn [length Nat.max].
  f_equal.
  - rewrite countIf_all, length_seq; [reflexivity|].
    intros i Hi. apply in_seq in Hi. apply differsAt_nil_l. lia.
  - destruct after as [|x after]; [contradiction|]. cbn [length seq].
    rewrite countIf_cons.
    replace (countIf (startsRun [] (x :: after)) (seq 1 (length after))) with 0.
    + reflexivity.
    + symmetry. apply countIf_zero. intros i Hi. apply in_seq in Hi.
      destruct i as [|j]; [lia|]. unfold startsRun, prevDiffers.
      rewrite (differsAt_nil_l (x :: after) j) by (simpl; lia).
      apply andb_false_r.
Qed.

(** ** The rationale: the claim *)

(** C4. For every evaluation classified [rewrite], the rationale mentions
    the line-count violation exactly when [linesChanged] exceeds
    [maxLinesForUpdate], the location-count violation exactly when
    [locationsChanged] exceeds [maxLocationsForUpdate], and the iteration
    cap exactly when the recent-update count has reached
    [maxIterationsPerUpdate]; the three phrases are told apart also when
    several are present.  In particular, against an empty [before], any
    [after] of 32 lines (distinct or not) under thresholds [{20, 5, 4}]
    and count [0] gives the statistics [{32, 1}], the decision [rewrite],
    and a rationale that mentions the line count and not the location
    count. *)
Theorem rewrite_rationale_names_violations :
  (forall (s : DiffStats) (c : SessionConfig) (recentUpdateCount : Z),
     decisionType (classify s c recentUpdateCount) = rewrite ->
     let r := reasoning (classify s c recentUpdateCount) in
     (mentionsLines r = true <-> linesChanged s > maxLinesForUpdate c) /\
     (mentionsLocations r = true <-> locationsChanged s > maxLocationsForUpdate c) /\
     (mentionsIterations r = true <-> recentUpdateCount >= maxIterationsPerUpdate c)) /\
  (forall after : list string,
     length after = 32%nat ->
     let r := evaluate [] after thresholds_20_5_4 0 in
     stats r = {| linesChanged := 32; locationsChanged := 1 |} /\
     decisionType r = rewrite /\
     reasoning r = "Change requires rewrite: 32 lines exceeds 20 limit" /\
     mentionsLines (reasoning r) = true /\
     mentionsLocations (reasoning r) = false).
Proof.
  split.
  - intros s c k Hrw. apply decisionType_rewrite in Hrw.
    unfold classify. cbn [reasoning]. rewrite Hrw. cbv zeta.
    destruct (rewriteReasoning_mentions s c k) as (-> & -> & ->).
    rewrite Z.gtb_gt, Z.gtb_gt, Z.geb_ge. repeat split; intros H; exact H.
  - intros after Hlen. cbv zeta. unfold evaluate.
    rewrite computeDiffStats_creation by (intros ->; discriminate Hlen).
    rewrite Hlen. vm_compute. repeat split; reflexivity.
Qed.

Lemma rewrite_rationale_names_violations_witness :
  (mentionsLines
     (reasoning (classify {| linesChanged := 32; locationsChanged := 6 |}
                   thresholds_20_5_4 0)) = true <-> 32 > 20) /\
  reasoning (evaluate [] thirtyTwoLines thresholds_20_5_4 0)
  = "Change requires rewrite: 32 lines exceeds 20 limit".
Proof.
  destruct rewrite_rationale_names_violations as (Hgen & Hscn). split.
  - exact (proj1 (Hgen {| linesChanged := 32; locationsChanged := 6 |}
                    thresholds_20_5_4 0 eq_refl)).
  - exact (proj1 (proj2 (proj2 (Hscn thirtyTwoLines eq_refl)))).
Defined.

(** ** Facts about the insertion-ordered map *)

Section JsMapFacts.

Context {V : Type}.
Implicit Types (m : JsMap.t V) (k : string) (v : V).

Lemma JsMap_get_set_eq m k v : JsMap.get (JsMap.set m k v) k = Some v.
Proof.
  induction m as [|[k' v'] m IH]; simpl.
  - rewrite String.eqb_refl. reflexivity.
  - destruct (String.eqb_spec k' k) as [->|Hne]; simpl.
    + rewrite String.eqb_refl. reflexivity.
    + destruct (String.eqb_spec k' k) as [E|_]; [contradiction|exact IH].
Qed.

Lemma JsMap_get_set_ne m k k' v :
  k <> k' -> JsMap.get (JsMap.set m k v) k' = JsMap.get m k'.
Proof.
  intros Hne. induction m as [|[k0 v0] m IH]; simpl.
  - destruct (String.eqb_spec k k') as [E|_]; [contradiction|reflexivity].
  - destruct (String.eqb_spec k0 k) as [->|Hk0]; simpl.
    + destruct (String.eqb_spec k k') as [E|_]; [contradiction|reflexivity].
    + rewrite IH. reflexivity.
Qed.

Lemma JsMap_get_delete_eq m k : JsMap.get (JsMap.delete m k) k = None.
Proof.
  unfold JsMap.delete. induction m as [|[k' v'] m IH]; simpl; [reflexivity|].
  destruct (String.eqb_spec k' k) as [->|Hne]; simpl; [exact IH|].
  destruct (String.eqb_spec k' k) as [E|_]; [contradiction|exact IH].
Qed.

Lemma JsMap_get_delete_ne m k k' :
  k <> k' -> JsMap.get (JsMap.delete m k) k' = JsMap.get m k'.
Proof.
  intros Hne. unfold JsMap.delete. induction m as [|[k0 v0] m IH]; simpl; [reflexivity|].
  destruct (String.eqb_spec k0 k) as [->|Hk0]; simpl.
  - destruct (String.eqb_spec k k') as [E|_]; [contradiction|exact IH].
  - rewrite IH. reflexivity.
Qed.

Lemma JsMap_get_None_keys m k : JsMap.get m k = None <-> ~ In k (JsMap.keys m).
Proof.
  induction m as [|[k' v'] m IH]; simpl; [tauto|].
  destruct (String.eqb_spec k' k) as [->|Hne].
  - split; [discriminate|]. intros H. exfalso. apply H. left. reflexivity.
  - rewrite IH. split; [intros H [E|E]; [contradiction|exact (H E)]|tauto].
Qed.

Lemma JsMap_get_In m k v : JsMap.get m k = Some v -> In v (JsMap.values m).
Proof.
  induction m as [|[k' v'] m IH]; simpl; [discriminate|].
  destruct (String.eqb k' k); [intros [= ->]; left; reflexivity|].
  intros H. right. exact (IH H).
Qed.

(** A new key goes to the end. *)
Lemma JsMap_set_fresh m k v :
  JsMap.get m k = None -> JsMap.set m k v = (m ++ [(k, v)])%list.
Proof.
  induction m as [|[k' v'] m IH]; simpl; [reflexivity|].
  destruct (String.eqb k' k); [discriminate|]. intros H. rewrite (IH H). reflexivity.
Qed.

(** A present key keeps its place. *)
Lemma JsMap_keys_set_present m k v :
  JsMap.get m k <> None -> JsMap.keys (JsMap.set m k v) = JsMap.keys m.
Proof.
  induction m as [|[k' v'] m IH]; simpl; [congruence|].
  destruct (String.eqb_spec k' k) as [->|Hne]; simpl; [reflexivity|].
  intros H. rewrite (IH H). reflexivity.
Qed.

Lemma JsMap_values_set_In m k v x :
  In x (JsMap.values (JsMap.set m k v)) -> x = v \/ In x (JsMap.values m).
Proof.
  induction m as [|[k' v'] m IH]; simpl.
  - intros [<-|[]]. left. reflexivity.
  - destruct (String.eqb k' k); simpl.
    + intros [<-|H]; [left; reflexivity|right; right; exact H].
    + intros [<-|H]; [right; left; reflexivity|].
      destruct (IH H) as [->|H']; [left; reflexivity|right; right; exact H'].
Qed.

Lemma JsMap_values_set_has m k v : In v (JsMap.values (JsMap.set m k v)).
Proof. apply JsMap_get_In with (k := k). apply JsMap_get_set_eq. Qed.

Lemma JsMap_keys_NoDup_set m k v :
  NoDup (JsMap.keys m) -> NoDup (JsMap.keys (JsMap.set m k v)).
Proof.
  intros Hnd. destruct (JsMap.get m k) as [x|] eqn:E.
  - rewrite JsMap_keys_set_present by congruence. exact Hnd.
  - rewrite (JsMap_set_fresh m k v E). unfold JsMap.keys. rewrite map_app. simpl.
    apply NoDup_app. split; [exact Hnd|]. split.
    + intros x Hx [->|[]]%list_elem_of_In. apply JsMap_get_None_keys in E.
      apply E. apply list_elem_of_In. exact Hx.
    + apply NoDup_singleton.
Qed.

Lemma JsMap_keys_NoDup_delete m k :
  NoDup (JsMap.keys m) -> NoDup (JsMap.keys (JsMap.delete m k)).
Proof.
  unfold JsMap.delete, JsMap.keys. induction m as [|[k' v'] m IH]; simpl; [trivial|].
  rewrite !NoDup_cons. intros [Hk Hnd].
  destruct (String.eqb k' k); simpl; [exact (IH Hnd)|].
  rewrite NoDup_cons. split; [|exact (IH Hnd)].
  intros Hin. apply Hk. apply list_elem_of_In in Hin. apply list_elem_of_In.
  apply in_map_iff in Hin as ([k0 v0] & <- & H0). apply filter_In in H0 as [H0 _].
  apply in_map_iff. exists (k0, v0). split; [reflexivity|exact H0].
Qed.

End JsMapFacts.

Lemma engineTable_lookup {V W : Type} (f : V -> W) (m : JsMap.t V) (k : string) :
  engineTable f m !! k = f <$> JsMap.get m k.
Proof.
  unfold engineTable. induction m as [|[k' v'] m IH]; simpl.
  - apply lookup_empty.
  - rewrite lookup_insert. destruct (String.eqb_spec k' k) as [->|Hne].
    + rewrite decide_True by reflexivity. reflexivity.
    + rewrite decide_False by exact Hne. exact IH.
Qed.

(** ** Facts about [split('\n')] *)

Lemma split_lf_nonempty s : Js.split_lf s <> [].
Proof.
  destruct s as [|c r]; simpl; [discriminate|].
  destruct (Ascii.eqb c "010"); [discriminate|].
  destruct (Js.split_lf r); discriminate.
Qed.

Lemma split_lf_length s : length (Js.split_lf s) = S (countLf s).
Proof.
  induction s as [|c r IH]; simpl; [reflexivity|].
  destruct (Ascii.eqb c "010"); simpl; [rewrite IH; reflexivity|].
  destruct (Js.split_lf r) as [|l ls] eqn:E; [discriminate IH|exact IH].
Qed.

Lemma join_lf_cons l ls :
  ls <> [] -> join_lf (l :: ls) = l +:+ lf +:+ join_lf ls.
Proof. destruct ls; [contradiction|reflexivity]. Qed.

Lemma join_split_lf s : join_lf (Js.split_lf s) = s.
Proof.
  induction s as [|c r IH]; [reflexivity|]. cbn [Js.split_lf].
  pose proof (split_lf_nonempty r) as Hne.
  destruct (Ascii.eqb_spec c "010") as [->|Hc].
  - rewrite join_lf_cons by exact Hne. rewrite IH. reflexivity.
  - destruct (Js.split_lf r) as [|l ls]; [contradiction|].
    destruct ls as [|l' ls'].
    + simpl in *. rewrite IH. reflexivity.
    + rewrite join_lf_cons by discriminate. rewrite join_lf_cons in IH by discriminate.
      rewrite <- IH. reflexivity.
Qed.

Lemma split_lf_inj s s' : Js.split_lf s = Js.split_lf s' -> s = s'.
Proof.
  intros E. rewrite <- (join_split_lf s), <- (join_split_lf s'), E. reflexivity.
Qed.

(** ** Facts about the storage operations *)

Section StorageFacts.

Implicit Types (st : Storage.t) (id sid k : string).

(** *** The nested metrics update touches the session table only *)

Lemma adjustMetrics_artifacts st sid f touched :
  Storage.artifacts (Storage.adjustMetrics st sid f touched) = Storage.artifacts st.
Proof.
  unfold Storage.adjustMetrics, Storage.updateSession, Storage.getSession.
  destruct (JsMap.get (Storage.sessions st) sid); reflexivity.
Qed.

Lemma adjustMetrics_decisions st sid f touched :
  Storage.decisions (Storage.adjustMetrics st sid f touched) = Storage.decisions st.
Proof.
  unfold Storage.adjustMetrics, Storage.updateSession, Storage.getSession.
  destruct (JsMap.get (Storage.sessions st) sid); reflexivity.
Qed.

Lemma adjustMetrics_users st sid f touched :
  Storage.users (Storage.adjustMetrics st sid f touched) = Storage.users st.
Proof.
  unfold Storage.adjustMetrics, Storage.updateSession, Storage.getSession.
  destruct (JsMap.get (Storage.sessions st) sid); reflexivity.
Qed.

Lemma adjustMetrics_researchPipelines st sid f touched :
  Storage.researchPipelines (Storage.adjustMetrics st sid f touched)
  = Storage.researchPipelines st.
Proof.
  unfold Storage.adjustMetrics, Storage.updateSession, Storage.getSession.
  destruct (JsMap.get (Storage.sessions st) sid); reflexivity.
Qed.

Lemma adjustMetrics_planningLoops st sid f touched :
  Storage.planningLoops (Storage.adjustMetrics st sid f touched) = Storage.planningLoops st.
Proof.
  unfold Storage.adjustMetrics, Storage.updateSession, Storage.getSession.
  destruct (JsMap.get (Storage.sessions st) sid); reflexivity.
Qed.

Lemma adjustMetrics_frameworkRecommendations st sid f touched :
  Storage.frameworkRecommendations (Storage.adjustMetrics st sid f touched)
  = Storage.frameworkRecommendations st.
Proof.
  unfold Storage.adjustMetrics, Storage.updateSession, Storage.getSession.
  destruct (JsMap.get (Storage.sessions st) sid); reflexivity.
Qed.

Lemma adjustMetrics_errorContexts st sid f touched :
  Storage.errorContexts (Storage.adjustMetrics st sid f touched) = Storage.errorContexts st.
Proof.
  unfold Storage.adjustMetrics, Storage.updateSession, Storage.getSession.
  destruct (JsMap.get (Storage.sessions st) sid); reflexivity.
Qed.

Lemma adjustMetrics_toolCalls st sid f touched :
  Storage.toolCalls (Storage.adjustMetrics st sid f touched) = Storage.toolCalls st.
Proof.
  unfold Storage.adjustMetrics, Storage.updateSession, Storage.getSession.
  destruct (JsMap.get (Storage.sessions st) sid); reflexivity.
Qed.

Lemma adjustMetrics_missing st sid f touched :
  Storage.getSession st sid = None -> Storage.adjustMetrics st sid f touched = st.
Proof. unfold Storage.adjustMetrics. intros ->. reflexivity. Qed.

Lemma adjustMetrics_session_same st sid f touched s :
  Storage.getSession st sid = Some s ->
  Storage.getSession (Storage.adjustMetrics st sid f touched) sid
  = Some (Storage.mergeSession s (Schema.onlyMetrics (f (Schema.session_metrics s))) touched).
Proof.
  unfold Storage.adjustMetrics, Storage.updateSession, Storage.getSession.
  intros H. rewrite !H. cbn [fst Storage.sessions Storage.withSessions].
  apply JsMap_get_set_eq.
Qed.

Lemma adjustMetrics_session_other st sid f touched k :
  sid <> k ->
  Storage.getSession (Storage.adjustMetrics st sid f touched) k = Storage.getSession st k.
Proof.
  unfold Storage.adjustMetrics, Storage.updateSession, Storage.getSession.
  intros Hne. destruct (JsMap.get (Storage.sessions st) sid) eqn:E; [|reflexivity].
  cbn [fst Storage.sessions Storage.withSessions].
  apply JsMap_get_set_ne. exact Hne.
Qed.

(** Whichever session it is, the metrics update keeps it in the table,
    with its identity and configuration. *)
Lemma adjustMetrics_session st sid f touched k s :
  Storage.getSession st k = Some s ->
  exists s', Storage.getSession (Storage.adjustMetrics st sid f touched) k = Some s' /\
    Schema.session_id s' = Schema.session_id s /\
    Schema.session_config s' = Schema.session_config s /\
    (Schema.session_metrics s' = Schema.session_metrics s \/
     (k = sid /\ Schema.session_metrics s' = f (Schema.session_metrics s))).
Proof.
  intros H. destruct (String.eqb_spec sid k) as [->|Hne].
  - eexists. split; [apply adjustMetrics_session_same; exact H|].
    cbn. repeat split. right. split; reflexivity.
  - exists s. rewrite adjustMetrics_session_other by exact Hne.
    repeat split; [exact H|]. left. reflexivity.
Qed.

Lemma adjustMetrics_session_None st sid f touched k :
  Storage.getSession st k = None ->
  Storage.getSession (Storage.adjustMetrics st sid f touched) k = None.
Proof.
  intros H. destruct (String.eqb_spec sid k) as [->|Hne].
  - rewrite adjustMetrics_missing by exact H. exact H.
  - rewrite adjustMetrics_session_other by exact Hne. exact H.
Qed.

(** *** Reading back what the artifact operations wrote *)

Lemma createArtifact_get st id now touched ins :
  Storage.getArtifact (fst (Storage.createArtifact st id now touched ins)) id
  = Some (snd (Storage.createArtifact st id now touched ins)).
Proof.
  unfold Storage.createArtifact, Storage.getArtifact. cbn [fst snd].
  rewrite adjustMetrics_artifacts. cbn [Storage.artifacts Storage.withArtifacts].
  apply JsMap_get_set_eq.
Qed.

Lemma createArtifact_get_other st id now touched ins k :
  id <> k ->
  Storage.getArtifact (fst (Storage.createArtifact st id now touched ins)) k
  = Storage.getArtifact st k.
Proof.
  intros Hne. unfold Storage.createArtifact, Storage.getArtifact. cbn [fst snd].
  rewrite adjustMetrics_artifacts. cbn [Storage.artifacts Storage.withArtifacts].
  apply JsMap_get_set_ne. exact Hne.
Qed.

Lemma updateArtifact_None st id u now touched :
  Storage.getArtifact st id = None ->
  Storage.updateArtifact st id u now touched = (st, None).
Proof. unfold Storage.updateArtifact, Storage.getArtifact. intros ->. reflexivity. Qed.

Lemma updateArtifact_get st id u now touched a :
  Storage.getArtifact st id = Some a ->
  exists a',
    Storage.updateArtifact st id u now touched
    = (Storage.adjustMetrics
         (Storage.withArtifacts st (JsMap.set (Storage.artifacts st) id a'))
         (Schema.artifact_sessionId a)
         (fun m =>
            {| Schema.linesGenerated :=
                 Schema.linesGenerated m
                 + Z.max 0 (Storage.lineCountOf (Schema.upda_content u)
                            - Schema.artifact_lineCount a);
               Schema.artifactsCreated := Schema.artifactsCreated m;
               Schema.updatesPerformed :=
                 if bool_decide (Schema.upda_decisionType u = update)
                 then Schema.updatesPerformed m + 1
                 else Schema.updatesPerformed m;
               Schema.rewritesPerformed :=
                 if bool_decide (Schema.upda_decisionType u = update)
                 then Schema.rewritesPerformed m
                 else Schema.rewritesPerformed m + 1;
               Schema.toolCallsMade := Schema.toolCallsMade m;
               Schema.errorsRecovered := Schema.errorsRecovered m;
               Schema.iterationCount := Schema.iterationCount m |})
         touched,
       Some a') /\
    Storage.getArtifact (fst (Storage.updateArtifact st id u now touched)) id = Some a' /\
    Schema.artifact_id a' = Schema.artifact_id a /\
    Schema.artifact_sessionId a' = Schema.artifact_sessionId a /\
    Schema.artifact_content a' = Schema.upda_content u /\
    Schema.artifact_version a' = Schema.artifact_version a + 1 /\
    Schema.artifact_lineCount a' = Storage.lineCountOf (Schema.upda_content u) /\
    Schema.artifact_charCount a' = Storage.charCountOf (Schema.upda_content u) /\
    Schema.artifact_isPromoted a'
    = Storage.promoted (Storage.lineCountOf (Schema.upda_content u))
        (Storage.charCountOf (Schema.upda_content u)) /\
    Schema.artifact_updatedAt a' = now /\
    Schema.artifact_createdAt a' = Schema.artifact_createdAt a /\
    Schema.artifact_history a'
    = (Schema.artifact_history a ++
       [ {| Schema.version_version := Schema.artifact_version a + 1;
            Schema.version_content := Schema.upda_content u;
            Schema.version_lineCount := Storage.lineCountOf (Schema.upda_content u);
            Schema.version_charCount := Storage.charCountOf (Schema.upda_content u);
            Schema.version_decisionType := Schema.upda_decisionType u;
            Schema.version_decisionId := EmptyString;
            Schema.version_timestamp := now |} ])%list.
Proof.
  intros Ha. unfold Storage.updateArtifact, Storage.getArtifact in *. rewrite Ha.
  eexists. split; [reflexivity|]. cbn [fst].
  rewrite adjustMetrics_artifacts. cbn [Storage.artifacts Storage.withArtifacts].
  split; [apply JsMap_get_set_eq|]. cbn. repeat split.
Qed.

Lemma updateArtifact_get_other st id u now touched k :
  id <> k ->
  Storage.getArtifact (fst (Storage.updateArtifact st id u now touched)) k
  = Storage.getArtifact st k.
Proof.
  intros Hne. unfold Storage.updateArtifact, Storage.getArtifact.
  destruct (JsMap.get (Storage.artifacts st) id); [|reflexivity]. cbn [fst].
  rewrite adjustMetrics_artifacts. cbn [Storage.artifacts Storage.withArtifacts].
  apply JsMap_get_set_ne. exact Hne.
Qed.

Lemma promoted_true l c : Storage.promoted l c = true <-> 20 < l \/ 1500 < c.
Proof. unfold Storage.promoted. rewrite orb_true_iff, !Z.gtb_gt. lia. Qed.

Lemma lineCountOf_countLf s : Storage.lineCountOf s = 1 + Z.of_nat (countLf s).
Proof. unfold Storage.lineCountOf. rewrite split_lf_length. lia. Qed.

(** *** Each operation on the artifact table of any store *)

Lemma artifacts_exec st op :
  match op with
  | Storage.CreateArtifact _ _ _ _ | Storage.UpdateArtifact _ _ _ _
  | Storage.DeleteArtifact _ => True
  | _ => Storage.artifacts (Storage.exec st op) = Storage.artifacts st
  end.
Proof.
  destruct op; cbn [Storage.exec]; try exact I.
  - reflexivity.
  - unfold Storage.updateSession.
    destruct (JsMap.get (Storage.sessions st) id); reflexivity.
  - reflexivity.
  - unfold Storage.createDecision. cbn [fst]. rewrite adjustMetrics_artifacts. reflexivity.
  - reflexivity.
  - unfold Storage.updateErrorContext.
    destruct (JsMap.get (Storage.errorContexts st) id); [|reflexivity]. cbn [fst].
    destruct (Storage.newlyResolved _ _); [rewrite adjustMetrics_artifacts|]; reflexivity.
  - unfold Storage.updateSessionMode, Storage.updateSession.
    destruct (JsMap.get (Storage.sessions st) id); reflexivity.
  - unfold Storage.updateSessionStatus, Storage.updateSession.
    destruct (JsMap.get (Storage.sessions st) id); reflexivity.
  - unfold Storage.createToolCall. cbn [fst]. rewrite adjustMetrics_artifacts. reflexivity.
  - unfold Storage.updateToolCall.
    destruct (JsMap.get (Storage.toolCalls st) id); reflexivity.
  - reflexivity.
  - reflexivity.
  - unfold Storage.updateResearchPipeline.
    destruct (JsMap.get (Storage.researchPipelines st) id); reflexivity.
  - reflexivity.
  - unfold Storage.updatePlanningLoop.
    destruct (JsMap.get (Storage.planningLoops st) id); reflexivity.
  - reflexivity.
Qed.

Lemma versionsFrom_snoc first h v :
  versionsFrom first h ->
  Schema.version_version v = first + Z.of_nat (length h) ->
  versionsFrom first (h ++ [v]).
Proof.
  revert first. induction h as [|x h IH]; intros first Hh Hv; simpl in *.
  - split; [lia|exact I].
  - destruct Hh as [Hx Hh]. split; [exact Hx|]. apply IH; [exact Hh|lia].
Qed.

Lemma createArtifact_ok st id now touched ins :
  artifactOk id (snd (Storage.createArtifact st id now touched ins)).
Proof.
  unfold Storage.createArtifact. cbn [snd]. constructor; cbn; try reflexivity.
  - apply promoted_true.
  - split; [reflexivity|exact I].
  - eexists. split; [reflexivity|]. cbn. repeat split.
Qed.

Lemma updateArtifact_ok st id u now touched a a' :
  Storage.getArtifact st id = Some a ->
  artifactOk id a ->
  snd (Storage.updateArtifact st id u now touched) = Some a' ->
  artifactOk id a'.
Proof.
  intros Ha Hok He.
  destruct (updateArtifact_get st id u now touched a Ha)
    as (b & Hupd & _ & Hid & _ & Hc & Hv & Hl & Hch & Hp & Ht & _ & Hh).
  rewrite Hupd in He. cbn [snd] in He. injection He as ->.
  destruct Hok as [Kid Kl Kc Kp Kv Kvs Kf (w & Kw & _)].
  destruct (Schema.artifact_history a) as [|h0 hs] eqn:Eh; [discriminate Kw|].
  constructor.
  - rewrite Hid. exact Kid.
  - rewrite Hl, Hc. reflexivity.
  - rewrite Hch, Hc. reflexivity.
  - rewrite Hp, Hl, Hch. apply promoted_true.
  - rewrite Hv, Hh, Kv, length_app. simpl length. lia.
  - rewrite Hh. apply versionsFrom_snoc; [exact Kvs|]. cbn. rewrite Kv. simpl length. lia.
  - rewrite Hh. exact Kf.
  - rewrite Hh. eexists. split; [apply last_snoc|]. cbn.
    rewrite Hv, Hc, Hl, Hch, Ht. repeat split.
Qed.

Lemma artifactsOk_exec st op : artifactsOk st -> artifactsOk (Storage.exec st op).
Proof.
  intros Hok. pose proof (artifacts_exec st op) as Hfr.
  destruct op; try (intros key a; rewrite Hfr; apply Hok).
  - intros key a. cbn [Storage.exec].
    destruct (String.eqb_spec id key) as [->|Hne].
    + change (JsMap.get ?m key) with (Storage.getArtifact
        (fst (Storage.createArtifact st key now touched ins)) key).
      rewrite createArtifact_get. intros [= <-].
      apply (createArtifact_ok st key now touched ins).
    + change (JsMap.get ?m key) with (Storage.getArtifact
        (fst (Storage.createArtifact st id now touched ins)) key).
      rewrite createArtifact_get_other by exact Hne. apply Hok.
  - intros key a. cbn [Storage.exec].
    destruct (String.eqb_spec id key) as [->|Hne].
    + destruct (Storage.getArtifact st key) as [a0|] eqn:Ha.
      * destruct (updateArtifact_get st key update_ now touched a0 Ha)
          as (b & Hupd & Hget & _).
        change (JsMap.get ?m key) with (Storage.getArtifact
          (fst (Storage.updateArtifact st key update_ now touched)) key).
        rewrite Hget. intros [= <-].
        apply (updateArtifact_ok st key update_ now touched a0 b Ha (Hok key a0 Ha)).
        rewrite Hupd. reflexivity.
      * rewrite (updateArtifact_None st key update_ now touched Ha). apply Hok.
    + change (JsMap.get ?m key) with (Storage.getArtifact
        (fst (Storage.updateArtifact st id update_ now touched)) key).
      rewrite updateArtifact_get_other by exact Hne. apply Hok.
  - intros key a. cbn [Storage.exec Storage.deleteArtifact fst
                       Storage.artifacts Storage.withArtifacts].
    destruct (String.eqb_spec id key) as [->|Hne].
    + rewrite JsMap_get_delete_eq. discriminate.
    + rewrite JsMap_get_delete_ne by exact Hne. apply Hok.
Qed.

Lemma foldl_invariant {S O : Type} (P : S -> Prop) (f : S -> O -> S) ops : forall s,
  (forall s o, P s -> P (f s o)) -> P s -> P (foldl f s ops).
Proof.
  induction ops as [|o ops IH]; intros s Hstep Hs; [exact Hs|].
  simpl. apply IH; [exact Hstep|apply Hstep; exact Hs].
Qed.

End StorageFacts.

(** ** Artifacts in the store *)

(** X1. The [lineCount] that [createArtifact] and [updateArtifact] store
    is one more than the number of line feeds of the content, so at least
    [1] even for the empty content; [charCount] is the length of the
    content. *)
Theorem artifact_lineCount_counts_line_feeds :
  (forall st id now touched ins,
     let a := snd (Storage.createArtifact st id now touched ins) in
     Schema.artifact_lineCount a = 1 + Z.of_nat (countLf (Schema.insa_content ins)) /\
     1 <= Schema.artifact_lineCount a /\
     Schema.artifact_charCount a = Z.of_nat (String.length (Schema.insa_content ins))) /\
  (forall st id u now touched a,
     snd (Storage.updateArtifact st id u now touched) = Some a ->
     Schema.artifact_lineCount a = 1 + Z.of_nat (countLf (Schema.upda_content u)) /\
     1 <= Schema.artifact_lineCount a /\
     Schema.artifact_charCount a = Z.of_nat (String.length (Schema.upda_content u))).
Proof.
  split.
  - intros st id now touched ins. cbv zeta. unfold Storage.createArtifact. cbn [snd].
    cbn [Schema.artifact_lineCount Schema.artifact_charCount].
    rewrite lineCountOf_countLf. repeat split. lia.
  - intros st id u now touched a Hu.
    destruct (Storage.getArtifact st id) as [a0|] eqn:Ha.
    + destruct (updateArtifact_get st id u now touched a0 Ha)
        as (b & Hupd & _ & _ & _ & _ & _ & Hl & Hc & _).
      rewrite Hupd in Hu. cbn [snd] in Hu. injection Hu as <-.
      rewrite Hl, Hc, lineCountOf_countLf. repeat split. lia.
    + rewrite (updateArtifact_None st id u now touched Ha) in Hu. discriminate Hu.
Qed.

Lemma artifact_lineCount_counts_line_feeds_witness :
  Schema.artifact_lineCount
    (snd (Storage.createArtifact Storage.empty "a1" 0 0 sampleInsert)) = 2 /\
  exists a, snd (Storage.updateArtifact sampleStore "a1" sampleUpdate 400 401) = Some a /\
            Schema.artifact_lineCount a = 3.
Proof.
  destruct artifact_lineCount_counts_line_feeds as (Hc & Hu). split.
  - exact (proj1 (Hc Storage.empty "a1" 0 0 sampleInsert)).
  - eexists. split; [vm_compute; reflexivity|].
    refine (proj1 (Hu sampleStore "a1" sampleUpdate 400 401 _ _)).
    vm_compute. reflexivity.
Defined.

(** X2. After any sequence of storage calls on a new store, every stored
    artifact is well formed: its [id] is its key, [lineCount],
    [charCount] and [isPromoted] agree with its content ([isPromoted]
    exactly when more than 20 lines or more than 1500 characters), its
    [version] is the length of its history, the history carries the
    versions 1, 2, ... in order and starts with the [create] entry, and
    the last history entry is the current content. *)
Theorem run_artifactsOk (ops : list Storage.Op) (key : string) (a : Schema.Artifact) :
  Storage.getArtifact (Storage.run ops) key = Some a -> artifactOk key a.
Proof.
  revert key a. change (artifactsOk (Storage.run ops)). unfold Storage.run.
  apply foldl_invariant.
  - intros s o. apply artifactsOk_exec.
  - intros key a H. discriminate H.
Qed.

Lemma run_artifactsOk_witness :
  exists a, Storage.getArtifact sampleStore "a1" = Some a /\
            Schema.artifact_version a = 2 /\ artifactOk "a1" a.
Proof.
  eexists. split; [vm_compute; reflexivity|]. split; [reflexivity|].
  apply (run_artifactsOk sampleOps "a1"). vm_compute. reflexivity.
Defined.

(** X3. [createArtifact] followed by [getArtifact] on the new id gives the
    artifact that was returned; its version list is the single [create]
    entry with the content; every other artifact and all decisions are
    as before, and so are the sessions when the named session does not
    exist (the artifact is stored all the same). *)
Theorem createArtifact_round_trip (st : Storage.t) (id : string) (now touched : Z)
    (ins : Schema.InsertArtifact) :
  let st' := fst (Storage.createArtifact st id now touched ins) in
  let a := snd (Storage.createArtifact st id now touched ins) in
  Storage.getArtifact st' id = Some a /\
  Schema.artifact_content a = Schema.insa_content ins /\
  Schema.artifact_version a = 1 /\
  (exists v, Storage.getArtifactVersions st' id = [v] /\
             Schema.version_decisionType v = create /\
             Schema.version_content v = Schema.insa_content ins) /\
  (forall k, k <> id -> Storage.getArtifact st' k = Storage.getArtifact st k) /\
  Storage.decisions st' = Storage.decisions st /\
  (Storage.getSession st (Schema.insa_sessionId ins) = None ->
   Storage.sessions st' = Storage.sessions st).
Proof.
  cbv zeta. pose proof (createArtifact_get st id now touched ins) as Hget.
  split; [exact Hget|]. split; [reflexivity|]. split; [reflexivity|]. split; [|split; [|split]].
  - unfold Storage.getArtifactVersions. unfold Storage.getArtifact in Hget. rewrite Hget.
    eexists. split; [reflexivity|]. split; reflexivity.
  - intros k Hk. apply createArtifact_get_other. congruence.
  - unfold Storage.createArtifact. cbn [fst]. rewrite adjustMetrics_decisions. reflexivity.
  - intros Hs. unfold Storage.createArtifact. cbn [fst].
    rewrite adjustMetrics_missing; [reflexivity|exact Hs].
Qed.

Lemma createArtifact_round_trip_witness :
  Storage.getArtifact (fst (Storage.createArtifact sampleStore "a2" 500 501 sampleInsert)) "a1"
  = Storage.getArtifact sampleStore "a1".
Proof.
  destruct (createArtifact_round_trip sampleStore "a2" 500 501 sampleInsert)
    as (_ & _ & _ & _ & Hother & _).
  apply Hother. discriminate.
Defined.

(** X4. [updateArtifact] on a missing id returns [undefined] and leaves
    the store as it was.  On a stored artifact it appends exactly one
    entry to the version list, carrying the new content and decision
    type; the version goes up by one, [id], [sessionId] and [createdAt]
    stay, and no other artifact changes. *)
Theorem updateArtifact_appends_version (st : Storage.t) (id : string)
    (u : Schema.UpdateArtifact) (now touched : Z) :
  let st' := fst (Storage.updateArtifact st id u now touched) in
  (Storage.getArtifact st id = None ->
   Storage.updateArtifact st id u now touched = (st, None)) /\
  (forall a, Storage.getArtifact st id = Some a ->
     exists a' v,
       snd (Storage.updateArtifact st id u now touched) = Some a' /\
       Storage.getArtifact st' id = Some a' /\
       Storage.getArtifactVersions st' id = (Storage.getArtifactVersions st id ++ [v])%list /\
       Schema.version_content v = Schema.upda_content u /\
       Schema.version_decisionType v = Schema.upda_decisionType u /\
       Schema.version_version v = Schema.artifact_version a + 1 /\
       Schema.artifact_version a' = Schema.artifact_version a + 1 /\
       Schema.artifact_content a' = Schema.upda_content u /\
       Schema.artifact_id a' = Schema.artifact_id a /\
       Schema.artifact_sessionId a' = Schema.artifact_sessionId a /\
       Schema.artifact_createdAt a' = Schema.artifact_createdAt a) /\
  (forall k, k <> id -> Storage.getArtifact st' k = Storage.getArtifact st k).
Proof.
  cbv zeta. split; [apply updateArtifact_None|]. split.
  - intros a Ha.
    destruct (updateArtifact_get st id u now touched a Ha)
      as (b & Hupd & Hget & Hid & Hsid & Hc & Hv & _ & _ & _ & _ & Hcr & Hh).
    eexists b, _. split; [rewrite Hupd; reflexivity|]. split; [exact Hget|].
    split.
    + unfold Storage.getArtifactVersions. unfold Storage.getArtifact in Hget, Ha.
      rewrite Hget, Ha. exact Hh.
    + cbn. repeat split; assumption.
  - intros k Hk. apply updateArtifact_get_other. congruence.
Qed.

Lemma updateArtifact_appends_version_witness :
  Storage.updateArtifact sampleStore "zz" sampleUpdate 400 401 = (sampleStore, None) /\
  length (Storage.getArtifactVersions
            (fst (Storage.updateArtifact sampleStore "a1" sampleUpdate 400 401)) "a1")
  = 3%nat.
Proof.
  split.
  - apply (proj1 (updateArtifact_appends_version sampleStore "zz" sampleUpdate 400 401)).
    vm_compute. reflexivity.
  - destruct (proj1 (proj2 (updateArtifact_appends_version sampleStore "a1" sampleUpdate 400 401))
                _ eq_refl) as (a' & v & _ & _ & Hh & _).
    rewrite Hh. rewrite length_app. vm_compute. reflexivity.
Defined.

(** ** Session counters *)

Lemma updateSession_found (st : Storage.t) (id : string) (u : Schema.SessionUpdates)
    (now : Z) (s : Schema.Session) :
  Storage.getSession st id = Some s ->
  Storage.updateSession st id u now
  = (Storage.withSessions st
       (JsMap.set (Storage.sessions st) id (Storage.mergeSession s u now)),
     Some (Storage.mergeSession s u now)).
Proof. unfold Storage.updateSession, Storage.getSession. intros ->. reflexivity. Qed.

Lemma updateSession_missing (st : Storage.t) (id : string) (u : Schema.SessionUpdates)
    (now : Z) :
  Storage.getSession st id = None -> Storage.updateSession st id u now = (st, None).
Proof. unfold Storage.updateSession, Storage.getSession. intros ->. reflexivity. Qed.

Lemma metricsLe_refl m : metricsLe m m.
Proof. unfold metricsLe. lia. Qed.

Lemma lineCountOf_pos s : 1 <= Storage.lineCountOf s.
Proof. rewrite lineCountOf_countLf. lia. Qed.

(** A metrics update with a function that only raises counters. *)
Lemma adjustMetrics_le st sid f touched k s :
  (forall m, metricsLe m (f m)) ->
  Storage.getSession st k = Some s ->
  exists s', Storage.getSession (Storage.adjustMetrics st sid f touched) k = Some s' /\
    metricsLe (Schema.session_metrics s) (Schema.session_metrics s') /\
    Schema.session_id s' = Schema.session_id s /\
    Schema.session_config s' = Schema.session_config s.
Proof.
  intros Hf Hs.
  destruct (adjustMetrics_session st sid f touched k s Hs) as (s' & Hs' & Hid & Hc & Hm).
  exists s'. split; [exact Hs'|]. split; [|split; assumption].
  destruct Hm as [->|[_ ->]]; [apply metricsLe_refl|apply Hf].
Qed.

(** X5. A successful [updateArtifact] on an artifact whose session exists
    adds one to exactly one of [updatesPerformed] and
    [rewritesPerformed] ([updatesPerformed] for the decision type
    [update], [rewritesPerformed] for any other type), adds
    [max(0, new lineCount - old lineCount)] to [linesGenerated], leaves
    the other counters, and stamps the session's [lastActivityAt]. *)
Theorem updateArtifact_metrics (st : Storage.t) (id : string) (u : Schema.UpdateArtifact)
    (now touched : Z) (a : Schema.Artifact) (s : Schema.Session) :
  Storage.getArtifact st id = Some a ->
  Storage.getSession st (Schema.artifact_sessionId a) = Some s ->
  exists s',
    Storage.getSession (fst (Storage.updateArtifact st id u now touched))
      (Schema.artifact_sessionId a) = Some s' /\
    let m := Schema.session_metrics s in
    let m' := Schema.session_metrics s' in
    Schema.linesGenerated m'
    = Schema.linesGenerated m
      + Z.max 0 (Storage.lineCountOf (Schema.upda_content u) - Schema.artifact_lineCount a) /\
    Schema.updatesPerformed m' + Schema.rewritesPerformed m'
    = Schema.updatesPerformed m + Schema.rewritesPerformed m + 1 /\
    (Schema.upda_decisionType u = update ->
     Schema.updatesPerformed m' = Schema.updatesPerformed m + 1) /\
    (Schema.upda_decisionType u <> update ->
     Schema.rewritesPerformed m' = Schema.rewritesPerformed m + 1) /\
    Schema.artifactsCreated m' = Schema.artifactsCreated m /\
    Schema.toolCallsMade m' = Schema.toolCallsMade m /\
    Schema.errorsRecovered m' = Schema.errorsRecovered m /\
    Schema.iterationCount m' = Schema.iterationCount m /\
    Schema.session_lastActivityAt s' = touched.
Proof.
  intros Ha Hs.
  destruct (updateArtifact_get st id u now touched a Ha) as (b & Hupd & _).
  rewrite Hupd. cbn [fst]. eexists. split.
  - apply adjustMetrics_session_same. exact Hs.
  - cbn. destruct (bool_decide_reflect (Schema.upda_decisionType u = update)) as [E|E];
      repeat split; try lia; intros H; congruence.
Qed.

Lemma updateArtifact_metrics_witness :
  exists s', Storage.getSession
               (fst (Storage.updateArtifact sampleStore "a1" sampleUpdate 400 401)) "s1"
             = Some s' /\
             Schema.rewritesPerformed (Schema.session_metrics s') = 2.
Proof.
  destruct (updateArtifact_metrics sampleStore "a1" sampleUpdate 400 401 _ _ eq_refl eq_refl)
    as (s' & Hs' & _ & _ & _ & Hr & _).
  exists s'. split; [exact Hs'|]. rewrite Hr; [reflexivity|discriminate].
Defined.

(** X6. Of all the calls of [MemStorage] that write a table, only
    [createSession], [updateSession] and [deleteSession] can remove a
    session or lower one of its seven counters: after any other call,
    [updateSessionMode], [updateSessionStatus] and [createToolCall]
    included, every session is still stored, under its key, with its
    [id] and configuration, and with each counter at least what it
    was. *)
Theorem counters_never_decrease (st : Storage.t) (op : Storage.Op) (k : string)
    (s : Schema.Session) :
  isSessionCall op = false ->
  Storage.getSession st k = Some s ->
  exists s', Storage.getSession (Storage.exec st op) k = Some s' /\
    metricsLe (Schema.session_metrics s) (Schema.session_metrics s') /\
    Schema.session_id s' = Schema.session_id s /\
    Schema.session_config s' = Schema.session_config s.
Proof.
  intros Hop Hs.
  assert (Hsame : exists s', Storage.getSession st k = Some s' /\
            metricsLe (Schema.session_metrics s) (Schema.session_metrics s') /\
            Schema.session_id s' = Schema.session_id s /\
            Schema.session_config s' = Schema.session_config s).
  { exists s. split; [exact Hs|]. split; [apply metricsLe_refl|]. split; reflexivity. }
  assert (Hpatch : forall id u now,
            Schema.upd_id u = None -> Schema.upd_metrics u = None ->
            Schema.upd_config u = None ->
            exists s', Storage.getSession (fst (Storage.updateSession st id u now)) k
                       = Some s' /\
              metricsLe (Schema.session_metrics s) (Schema.session_metrics s') /\
              Schema.session_id s' = Schema.session_id s /\
              Schema.session_config s' = Schema.session_config s).
  { intros id u now Hi Hm Hc.
    destruct (Storage.getSession st id) as [s0|] eqn:Hs0.
    - rewrite (updateSession_found _ _ _ _ _ Hs0). cbn [fst].
      destruct (String.eqb_spec id k) as [->|Hne].
      + rewrite Hs in Hs0. injection Hs0 as <-. eexists.
        split; [apply JsMap_get_set_eq|].
        cbn. rewrite Hi, Hm, Hc. cbn. split; [apply metricsLe_refl|]. split; reflexivity.
      + unfold Storage.getSession. cbn [Storage.sessions Storage.withSessions].
        rewrite JsMap_get_set_ne by exact Hne. exact Hsame.
    - rewrite (updateSession_missing _ _ _ _ Hs0). exact Hsame. }
  destruct op; try discriminate Hop; cbn [Storage.exec].
  - unfold Storage.createArtifact. cbn [fst]. apply adjustMetrics_le; [|exact Hs].
    intros m. unfold metricsLe. cbn.
    pose proof (lineCountOf_pos (Schema.insa_content ins)). lia.
  - destruct (Storage.getArtifact st id) as [a|] eqn:Ha.
    + destruct (updateArtifact_get st id update_ now touched a Ha) as (b & Hupd & _).
      rewrite Hupd. cbn [fst]. apply adjustMetrics_le; [|exact Hs].
      intros m. unfold metricsLe. cbn.
      destruct (bool_decide (Schema.upda_decisionType update_ = update)); lia.
    + rewrite (updateArtifact_None st id update_ now touched Ha). exact Hsame.
  - exact Hsame.
  - unfold Storage.createDecision. cbn [fst]. apply adjustMetrics_le; [|exact Hs].
    intros m. unfold metricsLe. cbn. lia.
  - exact Hsame.
  - unfold Storage.updateErrorContext.
    destruct (JsMap.get (Storage.errorContexts st) id) as [c|]; [|exact Hsame].
    cbn [fst]. destruct (Storage.newlyResolved c updates); [|exact Hsame].
    apply adjustMetrics_le; [|exact Hs].
    intros m. unfold metricsLe. cbn. lia.
  - apply Hpatch; reflexivity.
  - apply Hpatch; reflexivity.
  - unfold Storage.createToolCall. cbn [fst]. apply adjustMetrics_le; [|exact Hs].
    intros m. unfold metricsLe. cbn. lia.
  - unfold Storage.updateToolCall.
    destruct (JsMap.get (Storage.toolCalls st) id); exact Hsame.
  - exact Hsame.
  - exact Hsame.
  - unfold Storage.updateResearchPipeline.
    destruct (JsMap.get (Storage.researchPipelines st) id); exact Hsame.
  - exact Hsame.
  - unfold Storage.updatePlanningLoop.
    destruct (JsMap.get (Storage.planningLoops st) id); exact Hsame.
  - exact Hsame.
Qed.

Lemma counters_never_decrease_witness :
  exists s', Storage.getSession
               (Storage.exec sampleStore
                  (Storage.CreateToolCall "t1" 600 601 sampleToolCall)) "s1" = Some s' /\
             Schema.toolCallsMade (Schema.session_metrics sampleSession) <=
             Schema.toolCallsMade (Schema.session_metrics s').
Proof.
  destruct (counters_never_decrease sampleStore
              (Storage.CreateToolCall "t1" 600 601 sampleToolCall) "s1" sampleSession
              eq_refl ltac:(vm_compute; reflexivity)) as (s' & Hs' & Hle & _).
  exists s'. split; [exact Hs'|]. apply Hle.
Defined.

(** ** Facts about the stable sort *)

Section SortFacts.

Context {A : Type} (date : A -> Z).

Let cmp : A -> A -> Z := fun a b => date b - date a.

Lemma insertBy_Permutation (c : A -> A -> Z) (x : A) (l : list A) :
  Js.insertBy c x l ≡ₚ x :: l.
Proof.
  induction l as [|y r IH]; simpl; [reflexivity|].
  destruct (c x y <=? 0); [reflexivity|].
  rewrite IH. apply perm_swap.
Qed.

Lemma Js_sort_Permutation (c : A -> A -> Z) (l : list A) : Js.sort c l ≡ₚ l.
Proof.
  induction l as [|x l IH]; simpl; [reflexivity|].
  rewrite insertBy_Permutation, IH. reflexivity.
Qed.

Lemma insertBy_descending (x : A) (l : list A) :
  descendingBy date l -> descendingBy date (Js.insertBy cmp x l).
Proof.
  induction l as [|y r IH]; simpl.
  - intros _. split; [intros y []|exact I].
  - intros [Hy Hr]. unfold cmp at 1.
    destruct (Z.leb_spec (date y - date x) 0) as [Hle|Hgt].
    + split; [|split; assumption].
      intros z [<-|Hz]; [lia|]. specialize (Hy z Hz). lia.
    + split; [|exact (IH Hr)].
      intros z Hz. apply (Permutation_in _ (insertBy_Permutation cmp x r)) in Hz.
      destruct Hz as [<-|Hz]; [lia|exact (Hy z Hz)].
Qed.

Lemma Js_sort_descending (l : list A) : descendingBy date (Js.sort cmp l).
Proof.
  induction l as [|x l IH]; simpl; [exact I|]. apply insertBy_descending. exact IH.
Qed.

Lemma descendingBy_lookup (l : list A) : descendingBy date l ->
  forall i j x y, (i < j)%nat -> l !! i = Some x -> l !! j = Some y -> date y <= date x.
Proof.
  induction l as [|h r IH]; intros Hd i j x y Hij Hx Hy; [discriminate Hx|].
  destruct Hd as [Hh Hr]. destruct j as [|j]; [lia|]. cbn in Hy.
  destruct i as [|i].
  - cbn in Hx. injection Hx as <-. apply Hh. apply list_elem_of_In.
    apply list_elem_of_lookup. exists j. exact Hy.
  - cbn in Hx. apply (IH Hr i j); [lia|exact Hx|exact Hy].
Qed.

(** Rows of one date keep their order: [x] is inserted before every row
    of its own date. *)
Lemma insertBy_filter_date (t : Z) (x : A) (l : list A) :
  List.filter (fun z => date z =? t) (Js.insertBy cmp x l)
  = List.filter (fun z => date z =? t) (x :: l).
Proof.
  induction l as [|y r IH]; [reflexivity|]. cbn [Js.insertBy]. unfold cmp at 1.
  destruct (Z.leb_spec (date y - date x) 0) as [Hle|Hgt]; [reflexivity|].
  cbn [List.filter] in *. rewrite IH.
  destruct (Z.eqb_spec (date y) t) as [Ey|Ey]; [|reflexivity].
  destruct (Z.eqb_spec (date x) t) as [Ex|Ex]; [lia|reflexivity].
Qed.

Lemma Js_sort_filter_date (t : Z) (l : list A) :
  List.filter (fun z => date z =? t) (Js.sort cmp l)
  = List.filter (fun z => date z =? t) l.
Proof.
  induction l as [|x l IH]; [reflexivity|]. cbn [Js.sort fold_right].
  change (fold_right (Js.insertBy cmp) [] l) with (Js.sort cmp l).
  rewrite insertBy_filter_date. cbn [List.filter]. rewrite IH. reflexivity.
Qed.

Lemma Js_sort_listed (rows : list A) :
  listedLatestFirst date rows (Js.sort (fun a b => date b - date a) rows).
Proof.
  split; [apply Js_sort_Permutation|]. split.
  - apply descendingBy_lookup. apply Js_sort_descending.
  - intros t. apply Js_sort_filter_date.
Qed.

End SortFacts.

(** ** The recent-update count *)

Lemma length_filter_Permutation {A : Type} (p : A -> bool) (l l' : list A) :
  l ≡ₚ l' -> length (List.filter p l) = length (List.filter p l').
Proof.
  induction 1 as [|x l l' _ IH|x y l|l l' l'' _ IH1 _ IH2]; simpl.
  - reflexivity.
  - destruct (p x); simpl; rewrite IH; reflexivity.
  - destruct (p x), (p y); reflexivity.
  - rewrite IH1. exact IH2.
Qed.

Lemma filter_filter_andb {A : Type} (p q : A -> bool) (l : list A) :
  List.filter p (List.filter q l) = List.filter (fun x => q x && p x) l.
Proof.
  induction l as [|x l IH]; simpl; [reflexivity|].
  destruct (q x); simpl; [destruct (p x)|]; rewrite IH; reflexivity.
Qed.

Lemma filter_map_comm {A B : Type} (f : A -> B) (p : B -> bool) (l : list A) :
  List.filter p (map f l) = map f (List.filter (fun x => p (f x)) l).
Proof.
  induction l as [|x l IH]; simpl; [reflexivity|].
  destruct (p (f x)); simpl; rewrite IH; reflexivity.
Qed.

Lemma length_filter_le {A : Type} (p q : A -> bool) (l : list A) :
  (forall x, p x = true -> q x = true) ->
  (length (List.filter p l) <= length (List.filter q l))%nat.
Proof.
  intros Hpq. induction l as [|x l IH]; simpl; [lia|].
  specialize (Hpq x).
  destruct (p x), (q x); simpl; first [lia | discriminate (Hpq eq_refl)].
Qed.

Lemma recentUpdateCount_table (st : Storage.t) (sessionId artifactId : string) (now : Z) :
  Routes.recentUpdateCount st sessionId artifactId now
  = Z.of_nat (length (List.filter (countsAsRecent sessionId artifactId now)
                        (JsMap.values (Storage.decisions st)))).
Proof.
  unfold Routes.recentUpdateCount, Storage.getDecisions.
  rewrite (length_filter_Permutation _ _ _ (Js_sort_Permutation _ _)).
  rewrite filter_filter_andb. reflexivity.
Qed.

Lemma engine_recent_count (st : Storage.t) (sessionId artifactId : string) (now : Z) :
  Z.of_nat (length (List.filter (isRecentUpdate artifactId now)
                      (getDecisions (engineStore st) sessionId)))
  = Routes.recentUpdateCount st sessionId artifactId now.
Proof.
  rewrite recentUpdateCount_table. unfold getDecisions, engineStore. cbn [decisions].
  rewrite (length_filter_Permutation _ _ _ (Js_sort_Permutation _ _)).
  rewrite filter_filter_andb, filter_map_comm, length_map. reflexivity.
Qed.

Lemma Routes_analyzeChange_found (st : Storage.t) (now : Z) (artifactId newContent : string)
    (a : Schema.Artifact) (s : Schema.Session) :
  Storage.getArtifact st artifactId = Some a ->
  Storage.getSession st (Schema.artifact_sessionId a) = Some s ->
  Routes.analyzeChange st now artifactId newContent
  = Status200
      (classify
         (computeDiffStats (Js.split_lf (Schema.artifact_content a)) (Js.split_lf newContent))
         (engineConfig (Schema.session_config s))
         (Routes.recentUpdateCount st (Schema.session_id s) artifactId now)).
Proof. intros Ha Hs. unfold Routes.analyzeChange. rewrite Ha, Hs. reflexivity. Qed.

(** X7. The handler on the full store answers exactly as the engine model
    does on the store cut down to what the engine reads (a session's id
    and three thresholds, an artifact's session id and content, a
    decision's session id, artifact id, type and timestamp): nothing
    else in the store can change the answer. *)
Theorem analyzeChange_engine_view (st : Storage.t) (now : Z)
    (artifactId newContent : string) :
  Routes.analyzeChange st now artifactId newContent
  = analyzeChange (engineStore st) now artifactId newContent.
Proof.
  unfold Routes.analyzeChange, analyzeChange, getArtifact, getSession,
    Storage.getArtifact, Storage.getSession.
  cbn [artifacts sessions engineStore].
  rewrite engineTable_lookup.
  destruct (JsMap.get (Storage.artifacts st) artifactId) as [a|]; [|reflexivity].
  cbn [fmap option_fmap option_map engineArtifact artifact_sessionId content].
  rewrite engineTable_lookup.
  destruct (JsMap.get (Storage.sessions st) (Schema.artifact_sessionId a)) as [s|];
    [|reflexivity].
  cbn [fmap option_fmap option_map engineSession session_id config].
  change {| sessions := engineTable engineSession (Storage.sessions st);
            artifacts := engineTable engineArtifact (Storage.artifacts st);
            decisions := map engineDecision (JsMap.values (Storage.decisions st)) |}
    with (engineStore st).
  rewrite engine_recent_count. reflexivity.
Qed.

(** X8. The iteration number the handler reports is the number of stored
    decisions of the session that are for this artifact, of type
    [update], and less than an hour (3 600 000 ms) older than the clock,
    whatever the order of the table; a decision dated in the future
    counts as well. *)
Theorem currentIterations_counts_table (st : Storage.t) (now : Z)
    (artifactId newContent : string) (a : Schema.Artifact) (s : Schema.Session) :
  Storage.getArtifact st artifactId = Some a ->
  Storage.getSession st (Schema.artifact_sessionId a) = Some s ->
  exists r, Routes.analyzeChange st now artifactId newContent = Status200 r /\
    currentIterations r
    = Z.of_nat (length (List.filter
                          (fun d =>
                             String.eqb (Schema.decision_sessionId d) (Schema.session_id s) &&
                             String.eqb (Schema.decision_artifactId d) artifactId &&
                             bool_decide (Schema.decision_type d = update) &&
                             (now - 3600000 <? Schema.decision_timestamp d))
                          (JsMap.values (Storage.decisions st)))).
Proof.
  intros Ha Hs. eexists. split; [apply Routes_analyzeChange_found; eassumption|].
  cbn [currentIterations classify]. rewrite recentUpdateCount_table.
  f_equal. f_equal. apply filter_ext. intros d.
  unfold countsAsRecent, Routes.isRecentUpdate. rewrite !andb_assoc. f_equal.
  destruct (Z.ltb_spec (now - Schema.decision_timestamp d) 3600000);
    destruct (Z.ltb_spec (now - 3600000) (Schema.decision_timestamp d)); try reflexivity; lia.
Qed.

Ltac pose_found name t :=
  let v := eval vm_compute in t in
  lazymatch v with
  | Some ?x => pose (name := x)
  end.

Lemma currentIterations_counts_table_witness :
  exists r, Routes.analyzeChange sampleStoreWithLog 5000 "a1" "x" = Status200 r /\
            currentIterations r = 2.
Proof.
  pose_found a (Storage.getArtifact sampleStoreWithLog "a1").
  pose_found s (Storage.getSession sampleStoreWithLog "s1").
  destruct (currentIterations_counts_table sampleStoreWithLog 5000 "a1" "x" a s
              ltac:(vm_compute; reflexivity) ltac:(vm_compute; reflexivity))
    as (r & Hr & Hc).
  exists r. split; [exact Hr|].
  etransitivity; [exact Hc|]. vm_compute. reflexivity.
Defined.

Lemma createDecision_artifacts st id d touched :
  Storage.artifacts (fst (Storage.createDecision st id d touched)) = Storage.artifacts st.
Proof.
  unfold Storage.createDecision. cbn [fst]. rewrite adjustMetrics_artifacts. reflexivity.
Qed.

Lemma createDecision_decisions st id d touched :
  Storage.decisions (fst (Storage.createDecision st id d touched))
  = JsMap.set (Storage.decisions st) id (Storage.withDecisionId d id).
Proof.
  unfold Storage.createDecision. cbn [fst]. rewrite adjustMetrics_decisions. reflexivity.
Qed.

Lemma createDecision_recent_count st id d touched sid aid now :
  JsMap.get (Storage.decisions st) id = None ->
  Routes.recentUpdateCount (fst (Storage.createDecision st id d touched)) sid aid now
  = Routes.recentUpdateCount st sid aid now
    + (if countsAsRecent sid aid now d then 1 else 0).
Proof.
  intros Hfresh. rewrite !recentUpdateCount_table, createDecision_decisions.
  rewrite (JsMap_set_fresh _ _ _ Hfresh). unfold JsMap.values.
  rewrite map_app, List.filter_app, length_app. cbn [map snd List.filter].
  change (countsAsRecent sid aid now (Storage.withDecisionId d id))
    with (countsAsRecent sid aid now d).
  destruct (countsAsRecent sid aid now d); simpl length; lia.
Qed.

(** X9. Recording a decision under a fresh id raises the iteration number
    of the next analysis of an artifact by one exactly when the decision
    names the session and the artifact, has type [update] and is less
    than an hour old; any other decision leaves the answer as it was.
    The diff statistics and the thresholds are never affected. *)
Theorem createDecision_raises_iterations (st : Storage.t) (id : string)
    (d : Schema.Decision) (touched now : Z) (artifactId newContent : string)
    (a : Schema.Artifact) (s : Schema.Session) :
  JsMap.get (Storage.decisions st) id = None ->
  Storage.getArtifact st artifactId = Some a ->
  Storage.getSession st (Schema.artifact_sessionId a) = Some s ->
  exists r r',
    Routes.analyzeChange st now artifactId newContent = Status200 r /\
    Routes.analyzeChange (fst (Storage.createDecision st id d touched)) now
      artifactId newContent = Status200 r' /\
    stats r' = stats r /\
    maxIterations r' = maxIterations r /\
    currentIterations r'
    = currentIterations r
      + (if String.eqb (Schema.decision_sessionId d) (Schema.session_id s) &&
            String.eqb (Schema.decision_artifactId d) artifactId &&
            bool_decide (Schema.decision_type d = update) &&
            (now - Schema.decision_timestamp d <? 3600000)
         then 1 else 0).
Proof.
  intros Hfresh Ha Hs.
  assert (Hs' : exists s', Storage.getSession (fst (Storage.createDecision st id d touched))
                             (Schema.artifact_sessionId a) = Some s' /\
                           Schema.session_id s' = Schema.session_id s /\
                           Schema.session_config s' = Schema.session_config s).
  { unfold Storage.createDecision. cbn [fst].
    destruct (adjustMetrics_session
                (Storage.withDecisions st
                   (JsMap.set (Storage.decisions st) id (Storage.withDecisionId d id)))
                (Schema.decision_sessionId d)
                (fun m =>
                   {| Schema.linesGenerated := Schema.linesGenerated m;
                      Schema.artifactsCreated := Schema.artifactsCreated m;
                      Schema.updatesPerformed := Schema.updatesPerformed m;
                      Schema.rewritesPerformed := Schema.rewritesPerformed m;
                      Schema.toolCallsMade := Schema.toolCallsMade m;
                      Schema.errorsRecovered := Schema.errorsRecovered m;
                      Schema.iterationCount := Schema.iterationCount m + 1 |})
                touched (Schema.artifact_sessionId a) s Hs)
      as (s' & H1 & H2 & H3 & _).
    exists s'. repeat split; assumption. }
  destruct Hs' as (s' & Hs' & Hid & Hcfg).
  assert (Ha' : Storage.getArtifact (fst (Storage.createDecision st id d touched)) artifactId
                = Some a).
  { unfold Storage.getArtifact. rewrite createDecision_artifacts. exact Ha. }
  eexists _, _.
  split; [apply Routes_analyzeChange_found; eassumption|].
  split; [apply Routes_analyzeChange_found; eassumption|].
  cbn [stats maxIterations currentIterations classify]. rewrite Hid, Hcfg.
  split; [reflexivity|]. split; [reflexivity|].
  rewrite (createDecision_recent_count st id d touched _ _ _ Hfresh).
  unfold countsAsRecent, Routes.isRecentUpdate. rewrite !andb_assoc. reflexivity.
Qed.

Lemma createDecision_raises_iterations_witness :
  exists r', Routes.analyzeChange
               (fst (Storage.createDecision sampleStoreWithLog "d4"
                       (sampleDecision "a1" update 4000) 4001)) 5000 "a1" "x"
             = Status200 r' /\
             currentIterations r' = 3.
Proof.
  pose_found a (Storage.getArtifact sampleStoreWithLog "a1").
  pose_found s (Storage.getSession sampleStoreWithLog "s1").
  destruct (createDecision_raises_iterations sampleStoreWithLog "d4"
              (sampleDecision "a1" update 4000) 4001 5000 "a1" "x" a s
              ltac:(vm_compute; reflexivity) ltac:(vm_compute; reflexivity)
              ltac:(vm_compute; reflexivity)) as (r & r' & Hr & Hr' & _ & _ & Hc).
  exists r'. split; [exact Hr'|].
  pose proof (f_equal (fun x => match x with
                                | Status200 r0 => currentIterations r0
                                | _ => 0
                                end) Hr) as H2.
  vm_compute in H2.
  assert (H3 : currentIterations r = 2) by (symmetry; exact H2).
  rewrite Hc, H3. reflexivity.
Defined.

(** X10. With the store fixed, the recent-update count never grows as the
    clock advances, and it is zero once every stored decision is an hour
    old or older. *)
Theorem recentUpdateCount_decays (st : Storage.t) (sessionId artifactId : string)
    (now now' : Z) :
  (now <= now' ->
   Routes.recentUpdateCount st sessionId artifactId now'
   <= Routes.recentUpdateCount st sessionId artifactId now) /\
  ((forall d, In d (JsMap.values (Storage.decisions st)) ->
              Schema.decision_timestamp d + 3600000 <= now) ->
   Routes.recentUpdateCount st sessionId artifactId now = 0).
Proof.
  rewrite !recentUpdateCount_table. split.
  - intros Hle. apply inj_le. apply length_filter_le. intros d.
    unfold countsAsRecent, Routes.isRecentUpdate.
    rewrite !andb_true_iff, !Z.ltb_lt. intros (H1 & (H2 & H3) & H4).
    repeat split; try assumption. lia.
  - intros Hold.
    replace (List.filter (countsAsRecent sessionId artifactId now)
               (JsMap.values (Storage.decisions st))) with (@nil Schema.Decision);
      [reflexivity|].
    symmetry. induction (JsMap.values (Storage.decisions st)) as [|d l IH]; [reflexivity|].
    simpl. replace (countsAsRecent sessionId artifactId now d) with false.
    + apply IH. intros x Hx. apply Hold. right. exact Hx.
    + symmetry. unfold countsAsRecent, Routes.isRecentUpdate.
      rewrite !andb_false_iff, Z.ltb_ge. right. right.
      specialize (Hold d (or_introl eq_refl)). lia.
Qed.

Lemma recentUpdateCount_decays_witness :
  Routes.recentUpdateCount sampleStoreWithLog "s1" "a1" 3601500
  <= Routes.recentUpdateCount sampleStoreWithLog "s1" "a1" 5000 /\
  Routes.recentUpdateCount sampleStoreWithLog "s1" "a1" 3603000 = 0.
Proof.
  split.
  - apply (proj1 (recentUpdateCount_decays sampleStoreWithLog "s1" "a1" 5000 3601500)). lia.
  - apply (proj2 (recentUpdateCount_decays sampleStoreWithLog "s1" "a1" 3603000 0)).
    intros d Hd. vm_compute in Hd.
    destruct Hd as [<-|[<-|[<-|[]]]]; vm_compute; discriminate.
Defined.

(** ** Analysing against what is stored *)

(** X11. For a stored artifact whose session exists, the handler answers
    200, and the reported [linesChanged] is [0] exactly when the
    submitted content is, character for character, the stored content;
    the same holds for [locationsChanged]. *)
Theorem analyzeChange_zero_iff_same_content (st : Storage.t) (now : Z)
    (artifactId newContent : string) (a : Schema.Artifact) (s : Schema.Session) :
  Storage.getArtifact st artifactId = Some a ->
  Storage.getSession st (Schema.artifact_sessionId a) = Some s ->
  exists r, Routes.analyzeChange st now artifactId newContent = Status200 r /\
    (linesChanged (stats r) = 0 <-> newContent = Schema.artifact_content a) /\
    (locationsChanged (stats r) = 0 <-> newContent = Schema.artifact_content a).
Proof.
  intros Ha Hs. eexists. split; [apply Routes_analyzeChange_found; eassumption|].
  cbn [stats classify]. rewrite computeDiffStats_counts.
  cbn [linesChanged locationsChanged].
  rewrite differingCount_zero, runStartCount_zero.
  assert (H : Js.split_lf (Schema.artifact_content a) = Js.split_lf newContent
              <-> newContent = Schema.artifact_content a).
  { split; [intros E; symmetry; apply split_lf_inj; exact E|intros ->; reflexivity]. }
  split; exact H.
Qed.

Lemma analyzeChange_zero_iff_same_content_witness :
  exists r, Routes.analyzeChange sampleStore 5000 "a1" ("a" +:+ lf +:+ "b") = Status200 r /\
            linesChanged (stats r) <> 0.
Proof.
  destruct (analyzeChange_zero_iff_same_content sampleStore 5000 "a1" ("a" +:+ lf +:+ "b")
              _ _ eq_refl eq_refl) as (r & Hr & Hl & _).
  exists r. split; [exact Hr|]. intros H0. apply Hl in H0. vm_compute in H0.
  discriminate H0.
Defined.

(** X12. Analysing an artifact against the content it was just given, by
    [createArtifact] or by [updateArtifact], reports no change at all:
    the statistics are [{0, 0}]. *)
Theorem analyzeChange_after_store (st : Storage.t) (id : string) (now touched later : Z) :
  (forall ins s,
     Storage.getSession st (Schema.insa_sessionId ins) = Some s ->
     exists r,
       Routes.analyzeChange (fst (Storage.createArtifact st id now touched ins)) later id
         (Schema.insa_content ins) = Status200 r /\
       stats r = {| linesChanged := 0; locationsChanged := 0 |}) /\
  (forall u a s,
     Storage.getArtifact st id = Some a ->
     Storage.getSession st (Schema.artifact_sessionId a) = Some s ->
     exists r,
       Routes.analyzeChange (fst (Storage.updateArtifact st id u now touched)) later id
         (Schema.upda_content u) = Status200 r /\
       stats r = {| linesChanged := 0; locationsChanged := 0 |}).
Proof.
  split.
  - intros ins s Hs.
    pose proof (createArtifact_get st id now touched ins) as Hget.
    assert (Hs' : exists s', Storage.getSession
                    (fst (Storage.createArtifact st id now touched ins))
                    (Schema.insa_sessionId ins) = Some s').
    { unfold Storage.createArtifact. cbn [fst]. eexists.
      apply adjustMetrics_session_same. exact Hs. }
    destruct Hs' as (s' & Hs').
    eexists. split; [apply (Routes_analyzeChange_found _ _ _ _ _ s' Hget); exact Hs'|].
    cbn [stats classify]. apply computeDiffStats_same.
  - intros u a s Ha Hs.
    destruct (updateArtifact_get st id u now touched a Ha)
      as (b & Hupd & Hget & _ & Hsid & Hc & _).
    assert (Hs' : exists s', Storage.getSession
                    (fst (Storage.updateArtifact st id u now touched))
                    (Schema.artifact_sessionId b) = Some s').
    { rewrite Hupd, Hsid. cbn [fst]. eexists.
      apply adjustMetrics_session_same. exact Hs. }
    destruct Hs' as (s' & Hs').
    eexists. split; [apply (Routes_analyzeChange_found _ _ _ _ b s' Hget); exact Hs'|].
    cbn [stats classify]. rewrite Hc. apply computeDiffStats_same.
Qed.

Lemma analyzeChange_after_store_witness :
  exists r,
    Routes.analyzeChange (fst (Storage.updateArtifact sampleStore "a1" sampleUpdate 400 401))
      5000 "a1" (Schema.upda_content sampleUpdate) = Status200 r /\
    stats r = {| linesChanged := 0; locationsChanged := 0 |}.
Proof.
  exact (proj2 (analyzeChange_after_store sampleStore "a1" 400 401 5000)
           sampleUpdate _ _ eq_refl eq_refl).
Defined.

(** X13. [deleteSession] removes the session and nothing else: artifacts
    and decisions of the session stay in their tables, and from then on
    the analysis of any of its artifacts answers 404 "Session not found". *)
Theorem deleteSession_orphans (st : Storage.t) (sessionId : string) :
  let st' := fst (Storage.deleteSession st sessionId) in
  Storage.getSession st' sessionId = None /\
  Storage.artifacts st' = Storage.artifacts st /\
  Storage.decisions st' = Storage.decisions st /\
  (forall k, k <> sessionId -> Storage.getSession st' k = Storage.getSession st k) /\
  (forall artifactId a now newContent,
     Storage.getArtifact st artifactId = Some a ->
     Schema.artifact_sessionId a = sessionId ->
     Routes.analyzeChange st' now artifactId newContent = Status404 "Session not found").
Proof.
  cbv zeta. unfold Storage.deleteSession. cbn [fst].
  assert (Hnone : Storage.getSession
            (Storage.withSessions st (JsMap.delete (Storage.sessions st) sessionId))
            sessionId = None) by apply JsMap_get_delete_eq.
  split; [exact Hnone|]. split; [reflexivity|]. split; [reflexivity|]. split.
  - intros k Hk. apply JsMap_get_delete_ne. congruence.
  - intros artifactId a now newContent Ha Hsid. unfold Routes.analyzeChange.
    change (Storage.getArtifact (Storage.withSessions st _) artifactId)
      with (Storage.getArtifact st artifactId).
    rewrite Ha, Hsid, Hnone. reflexivity.
Qed.

Lemma deleteSession_orphans_witness :
  Routes.analyzeChange (fst (Storage.deleteSession sampleStore "s1")) 5000 "a1" "x"
  = Status404 "Session not found".
Proof.
  destruct (deleteSession_orphans sampleStore "s1") as (_ & _ & _ & _ & H).
  apply (H "a1" _ 5000 "x" eq_refl). reflexivity.
Defined.

(** X14. No storage call removes or alters a stored decision: whatever
    the call, a decision found under an id is still found there
    afterwards, unchanged, unless the call is a [createDecision] with
    that same id. *)
Theorem decisions_are_kept (st : Storage.t) (op : Storage.Op) (id : string)
    (d : Schema.Decision) :
  Storage.getDecision st id = Some d ->
  (forall id' d' touched, op = Storage.CreateDecision id' d' touched -> id' <> id) ->
  Storage.getDecision (Storage.exec st op) id = Some d.
Proof.
  intros Hd Hop. unfold Storage.getDecision in *.
  destruct op; cbn [Storage.exec].
  - exact Hd.
  - unfold Storage.updateSession.
    destruct (JsMap.get (Storage.sessions st) id0); exact Hd.
  - exact Hd.
  - unfold Storage.createArtifact. cbn [fst]. rewrite adjustMetrics_decisions. exact Hd.
  - unfold Storage.updateArtifact.
    destruct (JsMap.get (Storage.artifacts st) id0); [|exact Hd].
    cbn [fst]. rewrite adjustMetrics_decisions. exact Hd.
  - exact Hd.
  - rewrite createDecision_decisions, JsMap_get_set_ne; [exact Hd|].
    exact (Hop id0 decision touched eq_refl).
  - exact Hd.
  - unfold Storage.updateErrorContext.
    destruct (JsMap.get (Storage.errorContexts st) id0); [|exact Hd].
    cbn [fst]. destruct (Storage.newlyResolved _ _);
      [rewrite adjustMetrics_decisions|]; exact Hd.
  - unfold Storage.updateSessionMode, Storage.updateSession.
    destruct (JsMap.get (Storage.sessions st) id0); exact Hd.
  - unfold Storage.updateSessionStatus, Storage.updateSession.
    destruct (JsMap.get (Storage.sessions st) id0); exact Hd.
  - unfold Storage.createToolCall. cbn [fst]. rewrite adjustMetrics_decisions. exact Hd.
  - unfold Storage.updateToolCall.
    destruct (JsMap.get (Storage.toolCalls st) id0); exact Hd.
  - exact Hd.
  - exact Hd.
  - unfold Storage.updateResearchPipeline.
    destruct (JsMap.get (Storage.researchPipelines st) id0); exact Hd.
  - exact Hd.
  - unfold Storage.updatePlanningLoop.
    destruct (JsMap.get (Storage.planningLoops st) id0); exact Hd.
  - exact Hd.
Qed.

Lemma decisions_are_kept_witness :
  Storage.getDecision (Storage.exec sampleStoreWithLog (Storage.DeleteSession "s1")) "d1"
  = Some (Storage.withDecisionId (sampleDecision "a1" update 1000) "d1").
Proof.
  apply decisions_are_kept; [vm_compute; reflexivity|].
  intros id' d' touched H. discriminate H.
Defined.

(** ** The listings *)

(** X15. Each listing returns exactly the rows it selects, each as often
    as it is stored; no row comes before a row with a later date; and
    rows with the same date come in the order of the table, the sort
    being stable.  [getSessions] lists all sessions by [lastActivityAt],
    [getArtifacts] the session's artifacts by [updatedAt],
    [getResearchPipelines] its pipelines by [startedAt], and
    [getDecisions], [getToolCalls], [getPlanningLoops] and
    [getErrorContexts] the session's rows by [timestamp]. *)
Theorem listings_sorted (st : Storage.t) (sessionId : string) :
  listedLatestFirst Schema.session_lastActivityAt
    (JsMap.values (Storage.sessions st)) (Storage.getSessions st) /\
  listedLatestFirst Schema.artifact_updatedAt
    (List.filter (fun a => String.eqb (Schema.artifact_sessionId a) sessionId)
       (JsMap.values (Storage.artifacts st)))
    (Storage.getArtifacts st sessionId) /\
  listedLatestFirst Schema.decision_timestamp
    (List.filter (fun d => String.eqb (Schema.decision_sessionId d) sessionId)
       (JsMap.values (Storage.decisions st)))
    (Storage.getDecisions st sessionId) /\
  listedLatestFirst Schema.tool_timestamp
    (List.filter (fun c => String.eqb (Schema.tool_sessionId c) sessionId)
       (JsMap.values (Storage.toolCalls st)))
    (Storage.getToolCalls st sessionId) /\
  listedLatestFirst Schema.pipeline_startedAt
    (List.filter (fun r => String.eqb (Schema.pipeline_sessionId r) sessionId)
       (JsMap.values (Storage.researchPipelines st)))
    (Storage.getResearchPipelines st sessionId) /\
  listedLatestFirst Schema.loop_timestamp
    (List.filter (fun p => String.eqb (Schema.loop_sessionId p) sessionId)
       (JsMap.values (Storage.planningLoops st)))
    (Storage.getPlanningLoops st sessionId) /\
  listedLatestFirst Schema.ctx_timestamp
    (List.filter (fun e => String.eqb (Schema.ctx_sessionId e) sessionId)
       (JsMap.values (Storage.errorContexts st)))
    (Storage.getErrorContexts st sessionId).
Proof.
  unfold Storage.getSessions, Storage.getArtifacts, Storage.getDecisions,
    Storage.getToolCalls, Storage.getResearchPipelines, Storage.getPlanningLoops,
    Storage.getErrorContexts.
  repeat split; apply Js_sort_listed.
Qed.

(** Three sessions created at one date are listed in the order they were
    created. *)
Example getSessions_equal_dates :
  map Schema.session_id
    (Storage.getSessions
       (Storage.run
          [Storage.CreateSession "s1" 100
             {| Schema.ins_name := "one"; Schema.ins_description := EmptyString |};
           Storage.CreateSession "s2" 100
             {| Schema.ins_name := "two"; Schema.ins_description := EmptyString |};
           Storage.CreateSession "s3" 100
             {| Schema.ins_name := "three"; Schema.ins_description := EmptyString |};
           Storage.CreateSession "s4" 200
             {| Schema.ins_name := "four"; Schema.ins_description := EmptyString |}]))
  = ["s4"; "s1"; "s2"; "s3"].
Proof. vm_compute. reflexivity. Qed.

(** X16. [updateSession] at a date later than every session's
    [lastActivityAt] puts the updated session first in [getSessions]. *)
Theorem updateSession_moves_to_front (st : Storage.t) (id : string)
    (u : Schema.SessionUpdates) (now : Z) (s0 : Schema.Session) :
  Storage.getSession st id = Some s0 ->
  (forall s, In s (JsMap.values (Storage.sessions st)) ->
             Schema.session_lastActivityAt s < now) ->
  head (Storage.getSessions (fst (Storage.updateSession st id u now)))
  = Some (Storage.mergeSession s0 u now).
Proof.
  intros Hs Hold. unfold Storage.updateSession, Storage.getSession in *. rewrite Hs.
  cbn [fst]. unfold Storage.getSessions. cbn [Storage.sessions Storage.withSessions].
  set (v := Storage.mergeSession s0 u now).
  set (vals := JsMap.values (JsMap.set (Storage.sessions st) id v)).
  set (cmp := fun a b : Schema.Session =>
                Schema.session_lastActivityAt b - Schema.session_lastActivityAt a).
  pose proof (Js_sort_Permutation cmp vals) as Hperm.
  pose proof (Js_sort_descending Schema.session_lastActivityAt vals) as Hsorted.
  fold cmp in Hsorted.
  assert (Hv : In v (Js.sort cmp vals)).
  { apply (Permutation_in _ (Permutation_sym Hperm)). apply JsMap_values_set_has. }
  destruct (Js.sort cmp vals) as [|h t]; [destruct Hv|].
  cbn [head]. f_equal.
  assert (Hh : h = v \/ In h (JsMap.values (Storage.sessions st))).
  { apply (JsMap_values_set_In _ id). apply (Permutation_in _ Hperm). left. reflexivity. }
  destruct Hh as [->|Hh]; [reflexivity|].
  destruct Hv as [->|Hv]; [reflexivity|]. exfalso.
  destruct Hsorted as [Hall _]. specialize (Hall v Hv).
  specialize (Hold h Hh). subst v. cbn in *. lia.
Qed.

Lemma updateSession_moves_to_front_witness :
  Schema.session_name <$>
    head (Storage.getSessions
            (fst (Storage.updateSession
                    (fst (Storage.createSession sampleStore "s2" 900
                            {| Schema.ins_name := "later";
                               Schema.ins_description := EmptyString |}))
                    "s1" Schema.noUpdates 1000)))
  = Some "demo".
Proof.
  set (st := fst (Storage.createSession sampleStore "s2" 900
                    {| Schema.ins_name := "later"; Schema.ins_description := EmptyString |})).
  rewrite (updateSession_moves_to_front st "s1" Schema.noUpdates 1000 _ eq_refl).
  - reflexivity.
  - intros s Hs. vm_compute in Hs. destruct Hs as [<-|[<-|[]]]; vm_compute; reflexivity.
Defined.

(** ** The validating handlers *)

Lemma parseMode_spec (mode : string) (m : Schema.AgentMode) :
  Routes.parseMode mode = Some m <-> mode = modeName m.
Proof.
  unfold Routes.parseMode.
  destruct (String.eqb_spec mode "deliberation") as [->|H1].
  { split; [intros [= <-]; reflexivity|destruct m; intros H; try discriminate H; reflexivity]. }
  destruct (String.eqb_spec mode "action") as [->|H2].
  { split; [intros [= <-]; reflexivity|destruct m; intros H; try discriminate H; reflexivity]. }
  destruct (String.eqb_spec mode "research") as [->|H3].
  { split; [intros [= <-]; reflexivity|destruct m; intros H; try discriminate H; reflexivity]. }
  split; [discriminate|]. destruct m; simpl; intros ->; contradiction.
Qed.

Lemma parseStatus_spec (status : string) (s : Schema.SessionStatus) :
  Routes.parseStatus status = Some s <-> status = statusName s.
Proof.
  unfold Routes.parseStatus.
  destruct (String.eqb_spec status "active") as [->|H1].
  { split; [intros [= <-]; reflexivity|destruct s; intros H; try discriminate H; reflexivity]. }
  destruct (String.eqb_spec status "paused") as [->|H2].
  { split; [intros [= <-]; reflexivity|destruct s; intros H; try discriminate H; reflexivity]. }
  destruct (String.eqb_spec status "completed") as [->|H3].
  { split; [intros [= <-]; reflexivity|destruct s; intros H; try discriminate H; reflexivity]. }
  destruct (String.eqb_spec status "error") as [->|H4].
  { split; [intros [= <-]; reflexivity|destruct s; intros H; try discriminate H; reflexivity]. }
  split; [discriminate|]. destruct s; simpl; intros ->; contradiction.
Qed.

(** X17. [POST /api/sessions/:id/mode].  A mode that is none of
    "deliberation", "action", "research" is refused with 400 before the
    session is looked up, so also for a missing session; a valid mode on
    a missing session gives 404; in both cases the store is untouched
    and nothing is broadcast.  Otherwise the answer is 200 with the
    stored session, which now has the mode and the clock's date as
    [lastActivityAt] and is otherwise as before; no other session, no
    artifact and no decision changes, and one mode-changed event is
    broadcast. *)
Theorem postSessionMode_cases (st : Storage.t) (now : Z) (id mode : string) :
  ((forall m, mode <> modeName m) ->
   Routes.postSessionMode st now id mode
   = {| Routes.store := st; Routes.reply := Routes.Message 400 "Invalid mode";
        Routes.broadcasts := [] |}) /\
  (forall m, mode = modeName m -> Storage.getSession st id = None ->
   Routes.postSessionMode st now id mode
   = {| Routes.store := st; Routes.reply := Routes.Message 404 "Session not found";
        Routes.broadcasts := [] |}) /\
  (forall m s, mode = modeName m -> Storage.getSession st id = Some s ->
   exists s',
     Routes.reply (Routes.postSessionMode st now id mode) = Routes.SessionJson 200 s' /\
     Routes.broadcasts (Routes.postSessionMode st now id mode)
     = [Routes.SessionModeChanged (Schema.session_id s) m] /\
     Storage.getSession (Routes.store (Routes.postSessionMode st now id mode)) id = Some s' /\
     Schema.session_currentMode s' = m /\
     Schema.session_lastActivityAt s' = now /\
     Schema.session_status s' = Schema.session_status s /\
     sameButModeStatus s s' /\
     (forall k, k <> id ->
        Storage.getSession (Routes.store (Routes.postSessionMode st now id mode)) k
        = Storage.getSession st k) /\
     Storage.artifacts (Routes.store (Routes.postSessionMode st now id mode))
     = Storage.artifacts st /\
     Storage.decisions (Routes.store (Routes.postSessionMode st now id mode))
     = Storage.decisions st).
Proof.
  split; [|split].
  - intros Hbad. unfold Routes.postSessionMode.
    destruct (Routes.parseMode mode) as [m|] eqn:E; [|reflexivity].
    apply parseMode_spec in E. destruct (Hbad m E).
  - intros m Hm Hs. apply parseMode_spec in Hm. unfold Routes.postSessionMode.
    rewrite Hm. unfold Storage.updateSessionMode.
    rewrite (updateSession_missing _ _ _ _ Hs). reflexivity.
  - intros m s Hm Hs. apply parseMode_spec in Hm. unfold Routes.postSessionMode.
    rewrite Hm. unfold Storage.updateSessionMode.
    rewrite (updateSession_found _ _ _ _ _ Hs).
    cbn [Routes.reply Routes.broadcasts Routes.store].
    eexists. split; [reflexivity|]. split; [reflexivity|].
    split; [apply JsMap_get_set_eq|].
    split; [reflexivity|]. split; [reflexivity|]. split; [reflexivity|].
    split; [unfold sameButModeStatus; cbn; repeat split|].
    split; [|split; reflexivity].
    intros k Hk. apply JsMap_get_set_ne. congruence.
Qed.

Lemma postSessionMode_cases_witness :
  Routes.reply (Routes.postSessionMode sampleStore 700 "nobody" "sleep")
  = Routes.Message 400 "Invalid mode" /\
  Routes.reply (Routes.postSessionMode sampleStore 700 "nobody" "action")
  = Routes.Message 404 "Session not found" /\
  exists s', Routes.reply (Routes.postSessionMode sampleStore 700 "s1" "research")
             = Routes.SessionJson 200 s' /\
             Schema.session_currentMode s' = Schema.research.
Proof.
  split; [|split].
  - rewrite (proj1 (postSessionMode_cases sampleStore 700 "nobody" "sleep"));
      [reflexivity|]. intros m; destruct m; discriminate.
  - rewrite (proj1 (proj2 (postSessionMode_cases sampleStore 700 "nobody" "action"))
               Schema.action eq_refl eq_refl). reflexivity.
  - destruct (proj2 (proj2 (postSessionMode_cases sampleStore 700 "s1" "research"))
                Schema.research _ eq_refl eq_refl) as (s' & Hr & _ & _ & Hm & _).
    exists s'. split; assumption.
Defined.

(** X18. [POST /api/sessions/:id/status] behaves in the same three ways
    on the four status names: 400 "Invalid status" before any look-up,
    404 for a missing session, else 200 with only [status] and
    [lastActivityAt] of that one session changed. *)
Theorem postSessionStatus_cases (st : Storage.t) (now : Z) (id status : string) :
  ((forall s, status <> statusName s) ->
   Routes.postSessionStatus st now id status
   = {| Routes.store := st; Routes.reply := Routes.Message 400 "Invalid status";
        Routes.broadcasts := [] |}) /\
  (forall x, status = statusName x -> Storage.getSession st id = None ->
   Routes.postSessionStatus st now id status
   = {| Routes.store := st; Routes.reply := Routes.Message 404 "Session not found";
        Routes.broadcasts := [] |}) /\
  (forall x s, status = statusName x -> Storage.getSession st id = Some s ->
   exists s',
     Routes.reply (Routes.postSessionStatus st now id status) = Routes.SessionJson 200 s' /\
     Routes.broadcasts (Routes.postSessionStatus st now id status)
     = [Routes.SessionStatusChanged (Schema.session_id s) x] /\
     Storage.getSession (Routes.store (Routes.postSessionStatus st now id status)) id
     = Some s' /\
     Schema.session_status s' = x /\
     Schema.session_lastActivityAt s' = now /\
     Schema.session_currentMode s' = Schema.session_currentMode s /\
     sameButModeStatus s s' /\
     (forall k, k <> id ->
        Storage.getSession (Routes.store (Routes.postSessionStatus st now id status)) k
        = Storage.getSession st k)).
Proof.
  split; [|split].
  - intros Hbad. unfold Routes.postSessionStatus.
    destruct (Routes.parseStatus status) as [x|] eqn:E; [|reflexivity].
    apply parseStatus_spec in E. destruct (Hbad x E).
  - intros x Hx Hs. apply parseStatus_spec in Hx. unfold Routes.postSessionStatus.
    rewrite Hx. unfold Storage.updateSessionStatus.
    rewrite (updateSession_missing _ _ _ _ Hs). reflexivity.
  - intros x s Hx Hs. apply parseStatus_spec in Hx. unfold Routes.postSessionStatus.
    rewrite Hx. unfold Storage.updateSessionStatus.
    rewrite (updateSession_found _ _ _ _ _ Hs).
    cbn [Routes.reply Routes.broadcasts Routes.store].
    eexists. split; [reflexivity|]. split; [reflexivity|].
    split; [apply JsMap_get_set_eq|].
    split; [reflexivity|]. split; [reflexivity|]. split; [reflexivity|].
    split; [unfold sameButModeStatus; cbn; repeat split|].
    intros k Hk. apply JsMap_get_set_ne. congruence.
Qed.

Lemma postSessionStatus_cases_witness :
  Routes.reply (Routes.postSessionStatus sampleStore 700 "s1" "done")
  = Routes.Message 400 "Invalid status" /\
  exists s', Routes.reply (Routes.postSessionStatus sampleStore 700 "s1" "paused")
             = Routes.SessionJson 200 s' /\
             Schema.session_status s' = Schema.paused.
Proof.
  split.
  - rewrite (proj1 (postSessionStatus_cases sampleStore 700 "s1" "done"));
      [reflexivity|]. intros s; destruct s; discriminate.
  - destruct (proj2 (proj2 (postSessionStatus_cases sampleStore 700 "s1" "paused"))
                Schema.paused _ eq_refl eq_refl) as (s' & Hr & _ & _ & Hm & _).
    exists s'. split; assumption.
Defined.

(** ** Error contexts *)

Lemma updateErrorContext_found (st : Storage.t) (id : string)
    (u : Schema.ErrorContextUpdates) (touched : Z) (c : Schema.ErrorContext) :
  JsMap.get (Storage.errorContexts st) id = Some c ->
  Storage.updateErrorContext st id u touched
  = (let st1 := Storage.withErrorContexts st
                  (JsMap.set (Storage.errorContexts st) id (Storage.mergeContext c u)) in
     if Storage.newlyResolved c u
     then Storage.adjustMetrics st1 (Schema.ctx_sessionId c)
            (fun m =>
               {| Schema.linesGenerated := Schema.linesGenerated m;
                  Schema.artifactsCreated := Schema.artifactsCreated m;
                  Schema.updatesPerformed := Schema.updatesPerformed m;
                  Schema.rewritesPerformed := Schema.rewritesPerformed m;
                  Schema.toolCallsMade := Schema.toolCallsMade m;
                  Schema.errorsRecovered := Schema.errorsRecovered m + 1;
                  Schema.iterationCount := Schema.iterationCount m |})
            touched
     else st1,
     Some (Storage.mergeContext c u)).
Proof. unfold Storage.updateErrorContext. intros ->. reflexivity. Qed.

Lemma updateErrorContext_context (st : Storage.t) (id : string)
    (u : Schema.ErrorContextUpdates) (touched : Z) (c : Schema.ErrorContext) :
  JsMap.get (Storage.errorContexts st) id = Some c ->
  JsMap.get (Storage.errorContexts (fst (Storage.updateErrorContext st id u touched))) id
  = Some (Storage.mergeContext c u).
Proof.
  intros Hc. rewrite (updateErrorContext_found _ _ _ _ _ Hc). cbn [fst].
  destruct (Storage.newlyResolved c u);
    [rewrite adjustMetrics_errorContexts|]; apply JsMap_get_set_eq.
Qed.

Lemma resolutions_step (resolved : bool) (field : option bool) (r : list (option bool)) :
  resolutions resolved (field :: r)
  = (if default false field && negb resolved then 1 else 0)
    + resolutions (default resolved field) r.
Proof. destruct field as [[|]|], resolved; reflexivity. Qed.

(** Without [resolved: false] in between, a context resolves at most once. *)
Lemma resolutions_le_one (fields : list (option bool)) : forall resolved,
  Forall (fun f => f <> Some false) fields ->
  resolutions resolved fields <= (if resolved then 0 else 1).
Proof.
  induction fields as [|f r IH]; intros resolved H.
  - destruct resolved; cbn; lia.
  - inversion H as [|? ? Hf Hr]; subst.
    destruct f as [[|]|]; cbn [resolutions].
    + specialize (IH true Hr). cbn in IH. destruct resolved; lia.
    + contradiction Hf; reflexivity.
    + apply IH. exact Hr.
Qed.

Lemma updateErrorContexts_session (calls : list (Schema.ErrorContextUpdates * Z)) :
  forall (st : Storage.t) (id : string) (c : Schema.ErrorContext) (s : Schema.Session),
  JsMap.get (Storage.errorContexts st) id = Some c ->
  Storage.getSession st (Schema.ctx_sessionId c) = Some s ->
  Forall (fun call => Schema.cupd_sessionId (fst call) = None) calls ->
  exists c' s',
    JsMap.get (Storage.errorContexts (updateErrorContexts st id calls)) id = Some c' /\
    Schema.ctx_sessionId c' = Schema.ctx_sessionId c /\
    Storage.getSession (updateErrorContexts st id calls) (Schema.ctx_sessionId c) = Some s' /\
    Schema.errorsRecovered (Schema.session_metrics s')
    = Schema.errorsRecovered (Schema.session_metrics s)
      + resolutions (Schema.ctx_resolved c)
          (map (fun call => Schema.cupd_resolved (fst call)) calls).
Proof.
  induction calls as [|[u t] calls IH]; intros st id c s Hc Hs Hall.
  - exists c, s. cbn. repeat split; [exact Hc|exact Hs|lia].
  - inversion Hall as [|? ? Hu Hrest]; subst. cbn [fst] in Hu.
    pose proof (updateErrorContext_context st id u t c Hc) as Hc1.
    assert (Hsid : Schema.ctx_sessionId (Storage.mergeContext c u) = Schema.ctx_sessionId c).
    { cbn [Storage.mergeContext Schema.ctx_sessionId]. rewrite Hu. reflexivity. }
    assert (Hs1 : exists s1,
               Storage.getSession (fst (Storage.updateErrorContext st id u t))
                 (Schema.ctx_sessionId c) = Some s1 /\
               Schema.errorsRecovered (Schema.session_metrics s1)
               = Schema.errorsRecovered (Schema.session_metrics s)
                 + (if Storage.newlyResolved c u then 1 else 0)).
    { rewrite (updateErrorContext_found _ _ _ t _ Hc). cbn [fst].
      destruct (Storage.newlyResolved c u).
      - eexists. split; [apply adjustMetrics_session_same; exact Hs|reflexivity].
      - exists s. split; [exact Hs|lia]. }
    destruct Hs1 as (s1 & Hs1 & He1).
    rewrite <- Hsid in Hs1.
    destruct (IH _ id _ s1 Hc1 Hs1 Hrest) as (c' & s' & Hc' & Hsid' & Hs' & He').
    exists c', s'. cbn [updateErrorContexts foldl fst snd map].
    split; [exact Hc'|]. split; [congruence|].
    split; [rewrite <- Hsid; exact Hs'|].
    rewrite He', He1, resolutions_step. unfold Storage.newlyResolved.
    cbn [Storage.mergeContext Schema.ctx_resolved]. lia.
Qed.

(** X19. [errorsRecovered] counts resolutions, not contexts.  Over any
    succession of [updateErrorContext] calls on a stored context that
    leave it with its session, the session's [errorsRecovered] rises by
    the number of calls that set [resolved: true] while the context is
    unresolved at that moment.  A context that is resolved, put back with
    [resolved: false] and resolved again therefore counts twice; when no
    call sets [resolved: false] it counts at most once, and not at all
    when it was resolved from the start. *)
Theorem errorsRecovered_counts_resolutions (st : Storage.t) (id : string)
    (calls : list (Schema.ErrorContextUpdates * Z)) (c : Schema.ErrorContext)
    (s : Schema.Session) :
  JsMap.get (Storage.errorContexts st) id = Some c ->
  Storage.getSession st (Schema.ctx_sessionId c) = Some s ->
  Forall (fun call => Schema.cupd_sessionId (fst call) = None) calls ->
  exists s',
    Storage.getSession (updateErrorContexts st id calls) (Schema.ctx_sessionId c) = Some s' /\
    Schema.errorsRecovered (Schema.session_metrics s')
    = Schema.errorsRecovered (Schema.session_metrics s)
      + resolutions (Schema.ctx_resolved c)
          (map (fun call => Schema.cupd_resolved (fst call)) calls) /\
    (Forall (fun call => Schema.cupd_resolved (fst call) <> Some false) calls ->
     Schema.errorsRecovered (Schema.session_metrics s')
     <= Schema.errorsRecovered (Schema.session_metrics s)
        + (if Schema.ctx_resolved c then 0 else 1)).
Proof.
  intros Hc Hs Hall.
  destruct (updateErrorContexts_session calls st id c s Hc Hs Hall)
    as (c' & s' & _ & _ & Hs' & He).
  exists s'. split; [exact Hs'|]. split; [exact He|].
  intros Hnever. rewrite He.
  pose proof (resolutions_le_one
                (map (fun call => Schema.cupd_resolved (fst call)) calls)
                (Schema.ctx_resolved c)) as Hle.
  rewrite Forall_map in Hle. specialize (Hle Hnever). lia.
Qed.

Lemma errorsRecovered_counts_resolutions_witness :
  exists s',
    Storage.getSession
      (updateErrorContexts sampleStoreWithError "e1"
         [(markResolved, 800); (markUnresolved, 900); (markResolved, 1000)]) "s1"
    = Some s' /\
    Schema.errorsRecovered (Schema.session_metrics s') = 2.
Proof.
  pose_found c (JsMap.get (Storage.errorContexts sampleStoreWithError) "e1").
  pose_found s (Storage.getSession sampleStoreWithError "s1").
  destruct (errorsRecovered_counts_resolutions sampleStoreWithError "e1"
              [(markResolved, 800); (markUnresolved, 900); (markResolved, 1000)] c s
              ltac:(vm_compute; reflexivity) ltac:(vm_compute; reflexivity)
              ltac:(repeat constructor))
    as (s' & Hs' & He & _).
  exists s'. split; [exact Hs'|].
  etransitivity; [exact He|]. vm_compute. reflexivity.
Defined.

(** ** A new session *)

(** X20. A session made by [createSession] carries the default
    thresholds.  For an artifact created in it, while no stored decision
    names the session, the analysis reports iteration 0 of 4 and decides
    [update] exactly when at most 20 lines in at most 5 locations
    differ. *)
Theorem new_session_uses_defaults (st : Storage.t) (sessionId artifactId : string)
    (now now' touched later : Z) (ins : Schema.InsertSession)
    (insa : Schema.InsertArtifact) (newContent : string) :
  Schema.insa_sessionId insa = sessionId ->
  (forall d, In d (JsMap.values (Storage.decisions st)) ->
             Schema.decision_sessionId d <> sessionId) ->
  let st1 := fst (Storage.createSession st sessionId now ins) in
  let st2 := fst (Storage.createArtifact st1 artifactId now' touched insa) in
  exists r,
    Routes.analyzeChange st2 later artifactId newContent = Status200 r /\
    maxIterations r = 4 /\
    currentIterations r = 0 /\
    (decisionType r = update <->
     linesChanged (stats r) <= 20 /\ locationsChanged (stats r) <= 5).
Proof.
  intros Hsid Hnone. cbv zeta.
  set (st1 := fst (Storage.createSession st sessionId now ins)).
  assert (Hs1 : exists s1, Storage.getSession st1 sessionId = Some s1 /\
                  Schema.session_id s1 = sessionId /\
                  Schema.session_config s1 = Schema.DEFAULT_SESSION_CONFIG).
  { eexists. split; [apply JsMap_get_set_eq|]. split; reflexivity. }
  destruct Hs1 as (s1 & Hs1 & Hid1 & Hc1).
  pose proof (createArtifact_get st1 artifactId now' touched insa) as Hget.
  assert (Hs2 : exists s2,
            Storage.getSession (fst (Storage.createArtifact st1 artifactId now' touched insa))
              (Schema.insa_sessionId insa) = Some s2 /\
            Schema.session_id s2 = sessionId /\
            Schema.session_config s2 = Schema.DEFAULT_SESSION_CONFIG).
  { unfold Storage.createArtifact. cbn [fst]. rewrite Hsid. eexists.
    split; [apply adjustMetrics_session_same; exact Hs1|]. cbn. split; assumption. }
  destruct Hs2 as (s2 & Hs2 & Hid2 & Hc2).
  eexists. split; [apply (Routes_analyzeChange_found _ _ _ _ _ s2 Hget); exact Hs2|].
  cbn [maxIterations currentIterations classify]. rewrite Hc2, Hid2.
  assert (H0 : Routes.recentUpdateCount
                 (fst (Storage.createArtifact st1 artifactId now' touched insa))
                 sessionId artifactId later = 0).
  { rewrite recentUpdateCount_table. unfold Storage.createArtifact. cbn [fst].
    rewrite adjustMetrics_decisions.
    cbn [Storage.decisions Storage.withArtifacts st1 Storage.createSession
         Storage.withSessions fst].
    replace (List.filter (countsAsRecent sessionId artifactId later)
               (JsMap.values (Storage.decisions st))) with (@nil Schema.Decision);
      [reflexivity|].
    symmetry. induction (JsMap.values (Storage.decisions st)) as [|d l IH]; [reflexivity|].
    simpl. replace (countsAsRecent sessionId artifactId later d) with false.
    - apply IH. intros x Hx. apply Hnone. right. exact Hx.
    - symmetry. unfold countsAsRecent. apply andb_false_iff. left.
      apply String.eqb_neq. apply Hnone. left. reflexivity. }
  rewrite H0. split; [reflexivity|]. split; [reflexivity|].
  rewrite decisionType_update, shouldUpdate_true. cbn. split; [tauto|].
  intros [H1 H2]. split; [exact H1|]. split; [exact H2|lia].
Qed.

Lemma new_session_uses_defaults_witness :
  exists r,
    Routes.analyzeChange
      (fst (Storage.createArtifact
              (fst (Storage.createSession Storage.empty "s1" 100
                      {| Schema.ins_name := "demo"; Schema.ins_description := EmptyString |}))
              "a1" 200 201 sampleInsert)) 5000 "a1" "z" = Status200 r /\
    decisionType r = update.
Proof.
  destruct (new_session_uses_defaults Storage.empty "s1" "a1" 100 200 201 5000
              {| Schema.ins_name := "demo"; Schema.ins_description := EmptyString |}
              sampleInsert "z" eq_refl) as (r & Hr & _ & _ & Hd).
  - intros d [].
  - exists r. split; [exact Hr|]. apply Hd. vm_compute in Hr. injection Hr as <-.
    vm_compute. split; discriminate.
Defined.

(** ** Deleting an artifact *)

(** X21. [deleteArtifact] reports whether the id was stored.  Afterwards
    the artifact cannot be read, its version list is empty and its
    analysis answers 404 "Artifact not found"; the other artifacts, the
    sessions with their counters, and the decisions are untouched. *)
Theorem deleteArtifact_removes (st : Storage.t) (id : string) :
  let st' := fst (Storage.deleteArtifact st id) in
  (snd (Storage.deleteArtifact st id) = true <-> Storage.getArtifact st id <> None) /\
  Storage.getArtifact st' id = None /\
  Storage.getArtifactVersions st' id = [] /\
  (forall now newContent,
     Routes.analyzeChange st' now id newContent = Status404 "Artifact not found") /\
  (forall k, k <> id -> Storage.getArtifact st' k = Storage.getArtifact st k) /\
  Storage.sessions st' = Storage.sessions st /\
  Storage.decisions st' = Storage.decisions st.
Proof.
  cbv zeta. unfold Storage.deleteArtifact. cbn [fst snd].
  assert (Hnone : Storage.getArtifact
            (Storage.withArtifacts st (JsMap.delete (Storage.artifacts st) id)) id = None)
    by apply JsMap_get_delete_eq.
  split; [|split; [exact Hnone|split; [|split; [|split; [|split; reflexivity]]]]].
  - unfold JsMap.has, Storage.getArtifact.
    destruct (JsMap.get (Storage.artifacts st) id); split; congruence.
  - unfold Storage.getArtifactVersions. unfold Storage.getArtifact in Hnone.
    rewrite Hnone. reflexivity.
  - intros now newContent. unfold Routes.analyzeChange. rewrite Hnone. reflexivity.
  - intros k Hk. apply JsMap_get_delete_ne. congruence.
Qed.

Lemma deleteArtifact_removes_witness :
  Storage.getArtifact (fst (Storage.deleteArtifact sampleStore "a1")) "zz"
  = Storage.getArtifact sampleStore "zz".
Proof.
  destruct (deleteArtifact_removes sampleStore "a1") as (_ & _ & _ & _ & H & _).
  apply H. discriminate.
Defined.

(** ** Reading the decision off the rationale *)

(** X22. The rationale begins with "Change requires rewrite:" exactly
    when the decision is [rewrite], and with "Change is small enough"
    exactly when it is [update]. *)
Theorem reasoning_prefix_tells_decision (s : DiffStats) (c : SessionConfig) (k : Z) :
  (Js.startsWith "Change requires rewrite:" (reasoning (classify s c k)) = true
   <-> decisionType (classify s c k) = rewrite) /\
  (Js.startsWith "Change is small enough" (reasoning (classify s c k)) = true
   <-> decisionType (classify s c k) = update).
Proof.
  unfold classify. cbn [reasoning decisionType].
  destruct (shouldUpdate s c k).
  - split; (split; [intros H|intros H]); try reflexivity; discriminate H.
  - unfold rewriteReasoning, Js.trim.
    change (Js.trimStart
              (rewriteTemplate (linesClause s c) (locationsClause s c)
                 (iterationsClause c k)))
      with (rewriteTemplate (linesClause s c) (locationsClause s c)
              (iterationsClause c k)).
    rewrite !startsWith_trimEnd by reflexivity.
    split; (split; [intros H|intros H]); try reflexivity; discriminate H.
Qed.

(** X23. A [rewrite] always comes with a reason: its rationale mentions
    the line count, the location count or the iteration cap. *)
Theorem rewrite_has_a_reason (s : DiffStats) (c : SessionConfig) (k : Z) :
  decisionType (classify s c k) = rewrite ->
  mentionsLines (reasoning (classify s c k)) = true \/
  mentionsLocations (reasoning (classify s c k)) = true \/
  mentionsIterations (reasoning (classify s c k)) = true.
Proof.
  intros H. apply decisionType_rewrite in H.
  unfold classify. cbn [reasoning]. rewrite H.
  destruct (rewriteReasoning_mentions s c k) as (-> & -> & ->).
  apply shouldUpdate_false in H. rewrite Z.gtb_gt, Z.gtb_gt, Z.geb_ge. lia.
Qed.

Lemma rewrite_has_a_reason_witness :
  mentionsLines (reasoning (classify {| linesChanged := 1; locationsChanged := 1 |}
                              thresholds_20_5_4 4)) = true \/
  mentionsLocations (reasoning (classify {| linesChanged := 1; locationsChanged := 1 |}
                                  thresholds_20_5_4 4)) = true \/
  mentionsIterations (reasoning (classify {| linesChanged := 1; locationsChanged := 1 |}
                                   thresholds_20_5_4 4)) = true.
Proof.
  apply rewrite_has_a_reason. reflexivity.
Defined.

(** ** More on the diff statistics *)

Lemma startsRun_differs (before after : list string) i :
  startsRun before after i = true -> differsAt before after i = true.
Proof. unfold startsRun. intros H. apply andb_true_iff in H. tauto. Qed.

(** Runs are separated by at least one equal line. *)
Lemma runs_are_separated (before after : list string) len : forall a,
  countIf (differsAt before after) (seq a len)
  + countIf (startsRun before after) (seq a len)
  <= Z.of_nat len + (if prevDiffers before after a then 0 else 1).
Proof.
  induction len as [|len IH]; intros a.
  - rewrite !countIf_nil. destruct (prevDiffers before after a); simpl; lia.
  - simpl seq. rewrite !countIf_cons. specialize (IH (S a)).
    unfold startsRun at 1. cbn [prevDiffers] in IH.
    destruct (differsAt before after a), (prevDiffers before after a);
      cbn [andb negb] in *; lia.
Qed.

Lemma differsAt_past_shorter (before after : list string) i :
  (Nat.min (length before) (length after) <= i)%nat ->
  (i < Nat.max (length before) (length after))%nat ->
  differsAt before after i = true.
Proof.
  intros Hlo Hhi. unfold differsAt. apply bool_decide_eq_true.
  destruct (Nat.le_ge_cases (length before) (length after)) as [Hle|Hle].
  - rewrite (lookup_ge_None_2 before i) by lia.
    destruct (lookup_lt_is_Some_2 after i) as [x ->]; [lia|discriminate].
  - rewrite (lookup_ge_None_2 after i) by lia.
    destruct (lookup_lt_is_Some_2 before i) as [x ->]; [lia|discriminate].
Qed.

(** X24. The two counts together never exceed the longer length by more
    than one, because two runs are always separated by an equal line; in
    particular there are at most [(n + 1) / 2] locations. *)
Theorem lines_plus_locations_bound (before after : list string) :
  let s := computeDiffStats before after in
  let n := Z.of_nat (Nat.max (length before) (length after)) in
  linesChanged s + locationsChanged s <= n + 1 /\
  2 * locationsChanged s <= n + 1.
Proof.
  cbv zeta. rewrite computeDiffStats_counts. cbn [linesChanged locationsChanged].
  unfold differingCount, runStartCount.
  set (n := Nat.max (length before) (length after)).
  pose proof (runs_are_separated before after n 0) as H. cbn [prevDiffers] in H.
  pose proof (countIf_mono (startsRun before after) (differsAt before after) (seq 0 n)
                (startsRun_differs before after)) as Hm.
  lia.
Qed.

(** X25. [linesChanged] is at least the difference of the two lengths:
    every index past the end of the shorter sequence counts. *)
Theorem linesChanged_at_least_length_difference (before after : list string) :
  Z.abs (Z.of_nat (length before) - Z.of_nat (length after))
  <= linesChanged (computeDiffStats before after).
Proof.
  rewrite computeDiffStats_counts. cbn [linesChanged]. unfold differingCount.
  set (lo := Nat.min (length before) (length after)).
  set (hi := Nat.max (length before) (length after)).
  replace hi with (lo + (hi - lo))%nat by (subst lo hi; lia).
  rewrite countIf_seq_split. cbn [Nat.add].
  rewrite (countIf_all _ (seq lo (hi - lo))).
  - rewrite length_seq.
    pose proof (countIf_nonneg (differsAt before after) (seq 0 lo)). subst lo hi. lia.
  - intros i Hi. apply in_seq in Hi. apply differsAt_past_shorter; subst lo hi; lia.
Qed.

Lemma differsAt_common_prefix (l e : list string) i :
  (i < length l)%nat -> differsAt l (l ++ e) i = false.
Proof. intros Hi. apply differsAt_false. rewrite lookup_app_l by exact Hi. reflexivity. Qed.

Lemma differsAt_appended (l e : list string) i :
  (length l <= i)%nat -> (i < length l + length e)%nat -> differsAt l (l ++ e) i = true.
Proof.
  intros Hlo Hhi. apply differsAt_past_shorter; rewrite length_app; lia.
Qed.

Lemma appended_counts (l e : list string) :
  e <> [] ->
  differingCount l (l ++ e) = Z.of_nat (length e) /\
  runStartCount l (l ++ e) = 1.
Proof.
  intros He. unfold differingCount, runStartCount. rewrite length_app.
  replace (Nat.max (length l) (length l + length e)) with (length l + length e)%nat by lia.
  rewrite !countIf_seq_split. cbn [Nat.add].
  assert (H0 : countIf (differsAt l (l ++ e)) (seq 0 (length l)) = 0).
  { apply countIf_zero. intros i Hi. apply in_seq in Hi.
    apply differsAt_common_prefix. lia. }
  assert (H0' : countIf (startsRun l (l ++ e)) (seq 0 (length l)) = 0).
  { pose proof (countIf_mono (startsRun l (l ++ e)) (differsAt l (l ++ e))
                  (seq 0 (length l)) (startsRun_differs l (l ++ e))).
    pose proof (countIf_nonneg (startsRun l (l ++ e)) (seq 0 (length l))). lia. }
  rewrite H0, H0'. split.
  - rewrite countIf_all, length_seq; [lia|].
    intros i Hi. apply in_seq in Hi. apply differsAt_appended; lia.
  - destruct e as [|x e]; [contradiction|]. cbn [length seq]. rewrite countIf_cons.
    replace (startsRun l (l ++ x :: e) (length l)) with true.
    + replace (countIf (startsRun l (l ++ x :: e)) (seq (S (length l)) (length e)))
        with 0; [reflexivity|].
      symmetry. apply countIf_zero. intros i Hi. apply in_seq in Hi.
      destruct i as [|j]; [lia|]. unfold startsRun, prevDiffers.
      rewrite (differsAt_appended l (x :: e) j) by (simpl; lia).
      apply andb_false_r.
    + symmetry. unfold startsRun.
      rewrite (differsAt_appended l (x :: e) (length l)) by (simpl; lia).
      unfold prevDiffers. destruct (length l) as [|j] eqn:El; [reflexivity|].
      rewrite differsAt_common_prefix by lia. reflexivity.
Qed.

(** X26. Appending lines to a file is one location: against [l], the
    sequence [l ++ e] with [e] not empty has [linesChanged = len(e)] and
    [locationsChanged = 1], and so has [l] against [l ++ e] (lines cut
    off the end). *)
Theorem append_is_one_location (l e : list string) :
  e <> [] ->
  computeDiffStats l (l ++ e)
  = {| linesChanged := Z.of_nat (length e); locationsChanged := 1 |} /\
  computeDiffStats (l ++ e) l
  = {| linesChanged := Z.of_nat (length e); locationsChanged := 1 |}.
Proof.
  intros He. destruct (appended_counts l e He) as [Hl Hc]. split.
  - rewrite computeDiffStats_counts, Hl, Hc. reflexivity.
  - rewrite computeDiffStats_counts. rewrite <- Hl, <- Hc.
    unfold differingCount, runStartCount.
    rewrite (Nat.max_comm (length (l ++ e))).
    f_equal; apply countIf_ext; intros i; [apply differsAt_sym|apply startsRun_sym].
Qed.

Lemma append_is_one_location_witness :
  computeDiffStats ["a"; "b"] ["a"; "b"; "c"; "d"]
  = {| linesChanged := 2; locationsChanged := 1 |}.
Proof.
  apply (proj1 (append_is_one_location ["a"; "b"] ["c"; "d"] ltac:(discriminate))).
Defined.

Lemma split_lf_app (s t : string) :
  Js.split_lf (s +:+ lf +:+ t) = (Js.split_lf s ++ Js.split_lf t)%list.
Proof.
  induction s as [|c r IH].
  - reflexivity.
  - change (String c r +:+ lf +:+ t) with (String c (r +:+ lf +:+ t)).
    cbn [Js.split_lf]. rewrite IH.
    destruct (Ascii.eqb c "010"); [reflexivity|].
    pose proof (split_lf_nonempty r) as Hne.
    destruct (Js.split_lf r) as [|l ls]; [contradiction|reflexivity].
Qed.

(** X27. Submitting the stored content with text appended on new lines is
    reported as one location with as many changed lines as the appended
    text has; appending a bare line feed is one changed line. *)
Theorem analyzeChange_appended_text (st : Storage.t) (now : Z) (artifactId extra : string)
    (a : Schema.Artifact) (s : Schema.Session) :
  Storage.getArtifact st artifactId = Some a ->
  Storage.getSession st (Schema.artifact_sessionId a) = Some s ->
  exists r,
    Routes.analyzeChange st now artifactId (Schema.artifact_content a +:+ lf +:+ extra)
    = Status200 r /\
    stats r = {| linesChanged := Storage.lineCountOf extra; locationsChanged := 1 |}.
Proof.
  intros Ha Hs. eexists. split; [apply Routes_analyzeChange_found; eassumption|].
  cbn [stats classify]. rewrite split_lf_app, computeDiffStats_counts.
  destruct (appended_counts (Js.split_lf (Schema.artifact_content a)) (Js.split_lf extra)
              (split_lf_nonempty extra)) as [-> ->].
  reflexivity.
Qed.

Lemma analyzeChange_appended_text_witness :
  exists r,
    Routes.analyzeChange sampleStore 5000 "a1"
      (("a" +:+ lf +:+ "b" +:+ lf +:+ "c") +:+ lf +:+ "d" +:+ lf +:+ "e") = Status200 r /\
    stats r = {| linesChanged := 2; locationsChanged := 1 |}.
Proof.
  exact (analyzeChange_appended_text sampleStore 5000 "a1" ("d" +:+ lf +:+ "e") _ _
           eq_refl eq_refl).
Defined.

(** ** The tables stay maps *)

Lemma adjustMetrics_sessions_keys (st : Storage.t) (sid : string)
    (f : Schema.SessionMetrics -> Schema.SessionMetrics) (touched : Z) :
  NoDup (JsMap.keys (Storage.sessions st)) ->
  NoDup (JsMap.keys (Storage.sessions (Storage.adjustMetrics st sid f touched))).
Proof.
  intros H. unfold Storage.adjustMetrics, Storage.updateSession, Storage.getSession.
  destruct (JsMap.get (Storage.sessions st) sid); [|exact H].
  cbn [fst Storage.sessions Storage.withSessions]. apply JsMap_keys_NoDup_set. exact H.
Qed.

(** Along any sequence of calls the association lists that stand for the
    [Map]s hold each key once, so that removing the rows of a key removes
    one row, as [Map.delete] does. *)
Lemma keysDistinct_exec (st : Storage.t) (op : Storage.Op) :
  keysDistinct st -> keysDistinct (Storage.exec st op).
Proof.
  intros (Hu & Hs & Ha & Hd & Ht & Hr & Hp & He & Hf). unfold keysDistinct.
  destruct op; cbn [Storage.exec];
    unfold Storage.createSession, Storage.updateSessionMode, Storage.updateSessionStatus,
      Storage.updateSession, Storage.deleteSession, Storage.createArtifact,
      Storage.updateArtifact, Storage.deleteArtifact, Storage.createDecision,
      Storage.createErrorContext, Storage.updateErrorContext, Storage.createToolCall,
      Storage.updateToolCall, Storage.createUser, Storage.createResearchPipeline,
      Storage.updateResearchPipeline, Storage.createPlanningLoop,
      Storage.updatePlanningLoop, Storage.createFrameworkRecommendation;
    repeat match goal with
           | |- context [match JsMap.get ?m ?k with _ => _ end] => destruct (JsMap.get m k)
           | |- context [if Storage.newlyResolved ?c ?u then _ else _] =>
               destruct (Storage.newlyResolved c u)
           end;
    cbn [fst];
    rewrite ?adjustMetrics_users, ?adjustMetrics_artifacts, ?adjustMetrics_decisions,
      ?adjustMetrics_toolCalls, ?adjustMetrics_researchPipelines,
      ?adjustMetrics_planningLoops, ?adjustMetrics_errorContexts,
      ?adjustMetrics_frameworkRecommendations;
    repeat split;
    repeat first
      [ assumption
      | apply adjustMetrics_sessions_keys
      | apply JsMap_keys_NoDup_set
      | apply JsMap_keys_NoDup_delete
      | progress cbn [Storage.users Storage.sessions Storage.artifacts Storage.decisions
                      Storage.toolCalls Storage.researchPipelines Storage.planningLoops
                      Storage.errorContexts Storage.frameworkRecommendations
                      Storage.withUsers Storage.withSessions Storage.withArtifacts
                      Storage.withDecisions Storage.withToolCalls
                      Storage.withResearchPipelines Storage.withPlanningLoops
                      Storage.withErrorContexts Storage.withFrameworkRecommendations] ].
Qed.

Lemma run_keysDistinct (ops : list Storage.Op) : keysDistinct (Storage.run ops).
Proof.
  unfold Storage.run. apply foldl_invariant.
  - intros s o. apply keysDistinct_exec.
  - repeat split; apply NoDup_nil_2.
Qed.
